(** * The OAuth token lifecycle of the social broker, embedded in Rocq

    Shallow embedding of the Go packages [oauth] (state codec, exchange and
    refresh engine, TokenManager), [storage] (RedisStorage), [config] and of
    the [AuthHandler.Callback] handler, followed by the theorems about them.

    Conventions.
    - A Go [string] is a byte sequence: Stdlib's [string] of 8-bit [ascii].
    - A [time.Time] is the number of nanoseconds since the zero instant
      (January 1, year 1, 00:00:00 UTC) as a [Z]; a [time.Duration] is a
      number of nanoseconds.  [Time.Add] is addition; the saturation of Go's
      64-bit second counter is out of reach of clock readings and is not
      modelled.
    - Go's [(value, error)] returns are the [result] type.
    - Effects are explicit: functions of the packages run in the state monad
      [M] over a [World]. *)

From Stdlib Require Import ZArith NArith String Ascii List Bool Lia.
From stdpp Require Import base option gmap strings list pretty.

Local Open Scope string_scope.
Local Open Scope list_scope.
Local Open Scope Z_scope.

(** ** Package time *)

Module time.

Definition Nanosecond : Z := 1.
Definition Second : Z := 1000000000 * Nanosecond.
Definition Minute : Z := 60 * Second.
Definition Hour : Z := 60 * Minute.

(** [t.Add(d)] *)
Definition Add (t d : Z) : Z := t + d.

(** [t.After(u)]: t is strictly later than u *)
Definition After (t u : Z) : bool := u <? t.

(** [t.IsZero()] *)
Definition IsZero (t : Z) : bool := t =? 0.

(** [t.Unix()]: seconds since January 1, 1970 UTC *)
Definition Unix (t : Z) : Z := t / 1000000000 - 62135596800.

(** [int64] wrap-around, for [time.Duration(n) * time.Second] *)
Definition wrap64 (x : Z) : Z := (x + 2 ^ 63) mod 2 ^ 64 - 2 ^ 63.

End time.

(** ** golang.org/x/oauth2: the Token record *)

Module oauth2.

Record Token := mkToken {
  AccessToken : string;
  TokenType : string;
  RefreshToken : string;
  Expiry : Z
}.

(** The zero value [oauth2.Token{}]. *)
Definition zero : Token := mkToken "" "" "" 0.

Definition with_RefreshToken (t : Token) (r : string) : Token :=
  mkToken (AccessToken t) (TokenType t) r (Expiry t).

Definition with_Expiry (t : Token) (e : Z) : Token :=
  mkToken (AccessToken t) (TokenType t) (RefreshToken t) e.

End oauth2.

(** ** TokenManager.isTokenExpired (token_manager, the pure part) *)

Module expiry.

(** [token] is the pointee of the [*oauth2.Token] argument, [None] for a
    nil pointer; [now] is the reading of [time.Now()]. *)
Definition isTokenExpired (now : Z) (token : option oauth2.Token) : bool :=
  match token with
  | None => true
  | Some tok =>
      if time.IsZero (oauth2.Expiry tok) then true
      else
        let expiryBuffer := 5 * time.Minute in
        time.After (time.Add now expiryBuffer) (oauth2.Expiry tok)
  end.

End expiry.

(** ** Byte strings *)

Module bytes.

Definition dquote : ascii := "034"%char.
Definition backslash : ascii := "092"%char.
Definition CR : ascii := "013"%char.
Definition LF : ascii := "010"%char.

Definition byte (c : ascii) : N := N_of_ascii c.

(** [s[:n]] (for [n] within the length) and [s[n:]] *)
Fixpoint take (n : nat) (s : string) : string :=
  match n, s with
  | S n', String c r => String c (take n' r)
  | _, _ => ""
  end.

Fixpoint drop (n : nat) (s : string) : string :=
  match n, s with
  | S n', String _ r => drop n' r
  | _, _ => s
  end.

Fixpoint index_of (c : ascii) (s : string) : option nat :=
  match s with
  | "" => None
  | String d r => if Ascii.eqb c d then Some 0%nat else S <$> index_of c r
  end.

End bytes.

(** ** encoding/base64

    Go's encoder works on 24-bit groups [val>>18&0x3F], [val>>12&0x3F], ...;
    the same regrouping is written here on the bits of the bytes.  The
    decoder is [Encoding.DecodeString] of an encoding without padding, not
    strict: carriage returns and line feeds are skipped, a final group of two
    or three characters yields one or two bytes whatever its trailing bits, a
    final group of one character or a character outside the alphabet is a
    [CorruptInputError]. *)

Module base64.

Definition encodeStd : string :=
  "ABCDEFGHIJKLMNOPQRSTUVWXYZabcdefghijklmnopqrstuvwxyz0123456789+/".
Definition encodeURL : string :=
  "ABCDEFGHIJKLMNOPQRSTUVWXYZabcdefghijklmnopqrstuvwxyz0123456789-_".

Definition b2n (b : bool) : nat := if b then 1%nat else 0%nat.

(** the 6-bit value with bits [b5 .. b0], most significant first *)
Definition sextet (b5 b4 b3 b2 b1 b0 : bool) : nat :=
  (32 * b2n b5 + 16 * b2n b4 + 8 * b2n b3 + 4 * b2n b2 + 2 * b2n b1 + b2n b0)%nat.

(** [enc.encode[v]] *)
Definition enc (alphabet : string) (v : nat) : ascii :=
  match String.get v alphabet with
  | Some c => c
  | None => "="%char
  end.

Definition quantum3 (alphabet : string) (a b c : ascii) : string :=
  let '(Ascii a0 a1 a2 a3 a4 a5 a6 a7) := a in
  let '(Ascii b0 b1 b2 b3 b4 b5 b6 b7) := b in
  let '(Ascii c0 c1 c2 c3 c4 c5 c6 c7) := c in
  String (enc alphabet (sextet a7 a6 a5 a4 a3 a2))
    (String (enc alphabet (sextet a1 a0 b7 b6 b5 b4))
       (String (enc alphabet (sextet b3 b2 b1 b0 c7 c6))
          (String (enc alphabet (sextet c5 c4 c3 c2 c1 c0)) ""))).

Definition quantum2 (alphabet : string) (a b : ascii) : string :=
  let '(Ascii a0 a1 a2 a3 a4 a5 a6 a7) := a in
  let '(Ascii b0 b1 b2 b3 b4 b5 b6 b7) := b in
  String (enc alphabet (sextet a7 a6 a5 a4 a3 a2))
    (String (enc alphabet (sextet a1 a0 b7 b6 b5 b4))
       (String (enc alphabet (sextet b3 b2 b1 b0 false false)) "")).

Definition quantum1 (alphabet : string) (a : ascii) : string :=
  let '(Ascii a0 a1 a2 a3 a4 a5 a6 a7) := a in
  String (enc alphabet (sextet a7 a6 a5 a4 a3 a2))
    (String (enc alphabet (sextet a1 a0 false false false false)) "").

(** [enc.EncodeToString(src)] *)
Fixpoint EncodeToString (alphabet : string) (padding : bool) (src : string) : string :=
  match src with
  | "" => ""
  | String a "" => quantum1 alphabet a +:+ (if padding then "==" else "")
  | String a (String b "") => quantum2 alphabet a b +:+ (if padding then "=" else "")
  | String a (String b (String c rest)) =>
      quantum3 alphabet a b c +:+ EncodeToString alphabet padding rest
  end.

Definition tb (v k : nat) : bool := Nat.testbit v k.

Definition byte1 (v0 v1 : nat) : ascii :=
  Ascii (tb v1 4) (tb v1 5) (tb v0 0) (tb v0 1) (tb v0 2) (tb v0 3) (tb v0 4) (tb v0 5).
Definition byte2 (v1 v2 : nat) : ascii :=
  Ascii (tb v2 2) (tb v2 3) (tb v2 4) (tb v2 5) (tb v1 0) (tb v1 1) (tb v1 2) (tb v1 3).
Definition byte3 (v2 v3 : nat) : ascii :=
  Ascii (tb v3 0) (tb v3 1) (tb v3 2) (tb v3 3) (tb v3 4) (tb v3 5) (tb v2 0) (tb v2 1).

Fixpoint strip_newlines (s : string) : string :=
  match s with
  | "" => ""
  | String c r =>
      if Ascii.eqb c bytes.CR || Ascii.eqb c bytes.LF then strip_newlines r
      else String c (strip_newlines r)
  end.

Fixpoint decode_quanta (alphabet : string) (s : string) : option string :=
  match s with
  | "" => Some ""
  | String _ "" => None
  | String c0 (String c1 "") =>
      v0 ← bytes.index_of c0 alphabet;
      v1 ← bytes.index_of c1 alphabet;
      Some (String (byte1 v0 v1) "")
  | String c0 (String c1 (String c2 "")) =>
      v0 ← bytes.index_of c0 alphabet;
      v1 ← bytes.index_of c1 alphabet;
      v2 ← bytes.index_of c2 alphabet;
      Some (String (byte1 v0 v1) (String (byte2 v1 v2) ""))
  | String c0 (String c1 (String c2 (String c3 rest))) =>
      v0 ← bytes.index_of c0 alphabet;
      v1 ← bytes.index_of c1 alphabet;
      v2 ← bytes.index_of c2 alphabet;
      v3 ← bytes.index_of c3 alphabet;
      r ← decode_quanta alphabet rest;
      Some (String (byte1 v0 v1) (String (byte2 v1 v2) (String (byte3 v2 v3) r)))
  end.

(** [enc.DecodeString(s)] for an encoding without padding; [None] is the
    [CorruptInputError]. *)
Definition DecodeString (alphabet : string) (s : string) : option string :=
  decode_quanta alphabet (strip_newlines s).

(** [base64.RawURLEncoding] and [base64.StdEncoding] *)
Module RawURLEncoding.
Definition EncodeToString (src : string) : string :=
  base64.EncodeToString encodeURL false src.
Definition DecodeString (s : string) : option string :=
  base64.DecodeString encodeURL s.
End RawURLEncoding.

Module StdEncoding.
Definition EncodeToString (src : string) : string :=
  base64.EncodeToString encodeStd true src.
End StdEncoding.

End base64.
(** ** unicode/utf8 and unicode/utf16 *)

Module utf8.

Local Open Scope N_scope.
Import bytes.

Definition RuneError : N := 0xFFFD.
Definition RuneSelf : N := 0x80.
Definition MaxRune : N := 0x10FFFF.

(** continuation byte, [10xxxxxx] *)
Definition cont (b : N) : bool := (0x80 <=? b) && (b <=? 0xBF).

(** [utf8.DecodeRuneInString(s)]: the rune and its width; [(RuneError, 1)]
    for an encoding that is invalid, too short, overlong, a surrogate or
    out of range, [(RuneError, 0)] for the empty string. *)
Definition DecodeRuneInString (s : string) : N * nat :=
  match s with
  | "" => (RuneError, 0%nat)
  | String c0 r0 =>
      let p0 := byte c0 in
      if p0 <? RuneSelf then (p0, 1%nat)
      else if (p0 <? 0xC2) || (0xF4 <? p0) then (RuneError, 1%nat)
      else
        match r0 with
        | "" => (RuneError, 1%nat)
        | String c1 r1 =>
            let b1 := byte c1 in
            let lo := if p0 =? 0xE0 then 0xA0 else if p0 =? 0xF0 then 0x90 else 0x80 in
            let hi := if p0 =? 0xED then 0x9F else if p0 =? 0xF4 then 0x8F else 0xBF in
            if negb ((lo <=? b1) && (b1 <=? hi)) then (RuneError, 1%nat)
            else if p0 <? 0xE0 then
              (N.lor (N.shiftl (N.land p0 0x1F) 6) (N.land b1 0x3F), 2%nat)
            else
              match r1 with
              | "" => (RuneError, 1%nat)
              | String c2 r2 =>
                  let b2 := byte c2 in
                  if negb (cont b2) then (RuneError, 1%nat)
                  else if p0 <? 0xF0 then
                    (N.lor (N.lor (N.shiftl (N.land p0 0x0F) 12)
                                  (N.shiftl (N.land b1 0x3F) 6))
                           (N.land b2 0x3F), 3%nat)
                  else
                    match r2 with
                    | "" => (RuneError, 1%nat)
                    | String c3 _ =>
                        let b3 := byte c3 in
                        if negb (cont b3) then (RuneError, 1%nat)
                        else
                          (N.lor (N.lor (N.lor (N.shiftl (N.land p0 0x07) 18)
                                               (N.shiftl (N.land b1 0x3F) 12))
                                        (N.shiftl (N.land b2 0x3F) 6))
                                 (N.land b3 0x3F), 4%nat)
                    end
              end
        end
  end.

Definition chr (n : N) : ascii := ascii_of_N n.

Definition surrogate (r : N) : bool := (0xD800 <=? r) && (r <=? 0xDFFF).

(** [utf8.AppendRune(nil, r)]: surrogates and runes beyond [MaxRune] are
    written as [RuneError]. *)
Definition EncodeRune (r : N) : string :=
  if r <=? 0x7F then String (chr r) ""
  else if r <=? 0x7FF then
    String (chr (N.lor 0xC0 (N.shiftr r 6)))
      (String (chr (N.lor 0x80 (N.land r 0x3F))) "")
  else if (MaxRune <? r) || surrogate r then
    String (chr 0xEF) (String (chr 0xBF) (String (chr 0xBD) ""))
  else if r <=? 0xFFFF then
    String (chr (N.lor 0xE0 (N.shiftr r 12)))
      (String (chr (N.lor 0x80 (N.land (N.shiftr r 6) 0x3F)))
         (String (chr (N.lor 0x80 (N.land r 0x3F))) ""))
  else
    String (chr (N.lor 0xF0 (N.shiftr r 18)))
      (String (chr (N.lor 0x80 (N.land (N.shiftr r 12) 0x3F)))
         (String (chr (N.lor 0x80 (N.land (N.shiftr r 6) 0x3F)))
            (String (chr (N.lor 0x80 (N.land r 0x3F))) ""))).

(** [utf16.DecodeRune(r1, r2)]: the rune of a surrogate pair, [RuneError]
    when the pair is not a high surrogate followed by a low one.  [None]
    stands for the [-1] that [getu4] returns when no escape follows. *)
Definition utf16_DecodeRune (r1 : N) (r2 : option N) : N :=
  match r2 with
  | Some r2 =>
      if (0xD800 <=? r1) && (r1 <? 0xDC00) && (0xDC00 <=? r2) && (r2 <? 0xE000)
      then N.lor (N.shiftl (r1 - 0xD800) 10) (r2 - 0xDC00) + 0x10000
      else RuneError
  | None => RuneError
  end.

(** [utf8.ValidString(s)] *)
Fixpoint valid_loop (fuel : nat) (s : string) : bool :=
  match fuel with
  | O => true
  | S fuel' =>
      match s with
      | "" => true
      | String c r =>
          if byte c <? RuneSelf then valid_loop fuel' r
          else
            let '(_, size) := DecodeRuneInString s in
            if (size =? 1)%nat then false
            else valid_loop fuel' (drop size s)
      end
  end.

Definition ValidString (s : string) : bool := valid_loop (String.length s) s.

End utf8.
(** ** encoding/json

    [appendString] is the string encoder of [json.Marshal] (HTML escaping
    on): a byte that [utf8.DecodeRuneInString] rejects is written as the
    escape of U+FFFD, so that the output is always valid UTF-8.

    [Unmarshal] is modelled as the composition of a parser into a syntax
    tree, which accepts what the scanner of the package accepts (one JSON
    value between optional white space, nesting up to 10000), and of the
    decoding of that tree into a struct: a member is stored into the field
    with the same name, or else the same name up to case folding, unknown
    members are skipped, [null] leaves a field as it is, and a value of the
    wrong kind is an [UnmarshalTypeError].  [None] is any error. *)

Module json.

Import bytes.

Definition hex : string := "0123456789abcdef".

Definition hexdigit (n : N) : ascii :=
  match String.get (N.to_nat n) hex with
  | Some c => c
  | None => "0"%char
  end.

(** [htmlSafeSet[b]] for [b < utf8.RuneSelf] *)
Definition htmlSafeSet (b : N) : bool :=
  ((0x20 <=? b) && (b <=? 0x7F) && negb (b =? 0x22) && negb (b =? 0x26)
   && negb (b =? 0x3C) && negb (b =? 0x3E) && negb (b =? 0x5C))%N.

Definition escape_byte (c : ascii) : string :=
  let b := byte c in
  if htmlSafeSet b then String c ""
  else if ((b =? 0x5C) || (b =? 0x22))%N then String backslash (String c "")
  else if (b =? 0x08)%N then "\b"
  else if (b =? 0x0C)%N then "\f"
  else if (b =? 0x0A)%N then "\n"
  else if (b =? 0x0D)%N then "\r"
  else if (b =? 0x09)%N then "\t"
  else "\u00" +:+ String (hexdigit (N.shiftr b 4)) (String (hexdigit (N.land b 0xF)) "").

Fixpoint appendString_loop (fuel : nat) (src : string) : string :=
  match fuel with
  | O => ""
  | S fuel' =>
      match src with
      | "" => ""
      | String c rest =>
          if (byte c <? utf8.RuneSelf)%N then
            escape_byte c +:+ appendString_loop fuel' rest
          else
            let '(r, size) := utf8.DecodeRuneInString src in
            if (r =? utf8.RuneError)%N && (size =? 1)%nat then
              "\ufffd" +:+ appendString_loop fuel' (drop size src)
            else if ((r =? 0x2028) || (r =? 0x2029))%N then
              "\u202" +:+ String (hexdigit (N.land r 0xF)) ""
                +:+ appendString_loop fuel' (drop size src)
            else
              take size src +:+ appendString_loop fuel' (drop size src)
      end
  end.

(** [appendString(nil, src, true)] *)
Definition appendString (src : string) : string :=
  String dquote (appendString_loop (String.length src) src +:+ String dquote "").

(** *** Parsing *)

Inductive value :=
| Null
| Bool (b : bool)
| Number (lit : string)
| Str (s : string)
| Array (xs : list value)
| Object (ms : list (string * value)).

Definition isSpace (c : ascii) : bool :=
  Ascii.eqb c " " || Ascii.eqb c "009" || Ascii.eqb c CR || Ascii.eqb c LF.

Fixpoint skip_ws (s : string) : string :=
  match s with
  | String c r => if isSpace c then skip_ws r else s
  | "" => ""
  end.

Definition hexval (c : ascii) : option N :=
  let b := byte c in
  if ((0x30 <=? b) && (b <=? 0x39))%N then Some (b - 0x30)%N
  else if ((0x61 <=? b) && (b <=? 0x66))%N then Some (b - 0x61 + 10)%N
  else if ((0x41 <=? b) && (b <=? 0x46))%N then Some (b - 0x41 + 10)%N
  else None.

(** [getu4(s)]: the rune of a leading [\uXXXX] escape; [None] is [-1] *)
Definition getu4 (s : string) : option N :=
  match s with
  | String c0 (String c1 (String h1 (String h2 (String h3 (String h4 _))))) =>
      if Ascii.eqb c0 backslash && Ascii.eqb c1 "u" then
        d1 ← hexval h1; d2 ← hexval h2; d3 ← hexval h3; d4 ← hexval h4;
        Some (((d1 * 16 + d2) * 16 + d3) * 16 + d4)%N
      else None
  | _ => None
  end.

Definition prepend {A} (p : string) (o : option (string * A)) : option (string * A) :=
  '(s, r) ← o; Some (p +:+ s, r).

(** The body of a string literal, after the opening quote: the scanner's
    string states together with [unquoteBytes].  Returns the unquoted text
    and what follows the closing quote. *)
Fixpoint parse_string (fuel : nat) (s : string) : option (string * string) :=
  match fuel with
  | O => None
  | S fuel' =>
      match s with
      | "" => None
      | String c r =>
          if Ascii.eqb c dquote then Some ("", r)
          else if Ascii.eqb c backslash then
            match r with
            | "" => None
            | String e r' =>
                if Ascii.eqb e dquote || Ascii.eqb e backslash || Ascii.eqb e "/" then
                  prepend (String e "") (parse_string fuel' r')
                else if Ascii.eqb e "b" then prepend (String "008" "") (parse_string fuel' r')
                else if Ascii.eqb e "f" then prepend (String "012" "") (parse_string fuel' r')
                else if Ascii.eqb e "n" then prepend (String "010" "") (parse_string fuel' r')
                else if Ascii.eqb e "r" then prepend (String "013" "") (parse_string fuel' r')
                else if Ascii.eqb e "t" then prepend (String "009" "") (parse_string fuel' r')
                else if Ascii.eqb e "u" then
                  match getu4 s with
                  | None => None
                  | Some rr =>
                      let s6 := drop 6 s in
                      if utf8.surrogate rr then
                        let dec := utf8.utf16_DecodeRune rr (getu4 s6) in
                        if negb (dec =? utf8.RuneError)%N then
                          prepend (utf8.EncodeRune dec) (parse_string fuel' (drop 6 s6))
                        else
                          prepend (utf8.EncodeRune utf8.RuneError) (parse_string fuel' s6)
                      else prepend (utf8.EncodeRune rr) (parse_string fuel' s6)
                  end
                else None
            end
          else if (byte c <? 0x20)%N then None
          else if (byte c <? utf8.RuneSelf)%N then
            prepend (String c "") (parse_string fuel' r)
          else
            let '(rr, size) := utf8.DecodeRuneInString s in
            prepend (utf8.EncodeRune rr) (parse_string fuel' (drop size s))
      end
  end.

Definition isDigit (c : ascii) : bool := ((0x30 <=? byte c) && (byte c <=? 0x39))%N.

Fixpoint span_digits (s : string) : string * string :=
  match s with
  | String c r =>
      if isDigit c then let '(d, r') := span_digits r in (String c d, r') else ("", s)
  | "" => ("", "")
  end.

(** integer part: [0], or a non-zero digit followed by digits *)
Definition parse_int_part (s : string) : option (string * string) :=
  match s with
  | String c r =>
      if Ascii.eqb c "0" then Some ("0", r)
      else if isDigit c then let '(d, r') := span_digits r in Some (String c d, r')
      else None
  | "" => None
  end.

Definition parse_frac (s : string) : option (string * string) :=
  match s with
  | String "." r =>
      match span_digits r with
      | ("", _) => None
      | (d, r') => Some (String "." d, r')
      end
  | _ => Some ("", s)
  end.

Definition parse_exp (s : string) : option (string * string) :=
  match s with
  | String c r =>
      if Ascii.eqb c "e" || Ascii.eqb c "E" then
        let '(sign, r1) :=
          match r with
          | String g r1 =>
              if Ascii.eqb g "+" || Ascii.eqb g "-" then (String g "", r1) else ("", r)
          | "" => ("", r)
          end in
        match span_digits r1 with
        | ("", _) => None
        | (d, r') => Some (String c (sign +:+ d), r')
        end
      else Some ("", s)
  | "" => Some ("", s)
  end.

Definition parse_number (s : string) : option (string * string) :=
  let '(sign, s1) :=
    match s with
    | String "-" r => ("-", r)
    | _ => ("", s)
    end in
  '(i, s2) ← parse_int_part s1;
  '(f, s3) ← parse_frac s2;
  '(e, s4) ← parse_exp s3;
  Some (sign +:+ i +:+ f +:+ e, s4).

Fixpoint strip_prefix (p s : string) : option string :=
  match p, s with
  | "", _ => Some s
  | String a p', String b s' => if Ascii.eqb a b then strip_prefix p' s' else None
  | _, "" => None
  end.

Definition maxNestingDepth : N := 10000.

Fixpoint parse_value (fuel : nat) (depth : N) (s : string) : option (value * string) :=
  match fuel with
  | O => None
  | S fuel' =>
      match skip_ws s with
      | "" => None
      | String c r =>
          if Ascii.eqb c "{" then
            if (maxNestingDepth <? depth + 1)%N then None
            else
              match skip_ws r with
              | String "}" r' => Some (Object [], r')
              | _ => '(ms, r') ← parse_members fuel' (depth + 1)%N r; Some (Object ms, r')
              end
          else if Ascii.eqb c "[" then
            if (maxNestingDepth <? depth + 1)%N then None
            else
              match skip_ws r with
              | String "]" r' => Some (Array [], r')
              | _ => '(vs, r') ← parse_elements fuel' (depth + 1)%N r; Some (Array vs, r')
              end
          else if Ascii.eqb c dquote then
            '(t, r') ← parse_string (String.length r) r; Some (Str t, r')
          else if Ascii.eqb c "t" then
            r' ← strip_prefix "rue" r; Some (Bool true, r')
          else if Ascii.eqb c "f" then
            r' ← strip_prefix "alse" r; Some (Bool false, r')
          else if Ascii.eqb c "n" then
            r' ← strip_prefix "ull" r; Some (Null, r')
          else
            '(lit, r') ← parse_number (String c r); Some (Number lit, r')
      end
  end
with parse_elements (fuel : nat) (depth : N) (s : string) : option (list value * string) :=
  match fuel with
  | O => None
  | S fuel' =>
      '(v, r) ← parse_value fuel' depth s;
      match skip_ws r with
      | String "," r' => '(vs, r'') ← parse_elements fuel' depth r'; Some (v :: vs, r'')
      | String "]" r' => Some ([v], r')
      | _ => None
      end
  end
with parse_members (fuel : nat) (depth : N) (s : string)
  : option (list (string * value) * string) :=
  match fuel with
  | O => None
  | S fuel' =>
      match skip_ws s with
      | String q r =>
          if Ascii.eqb q dquote then
            '(k, r1) ← parse_string (String.length r) r;
            match skip_ws r1 with
            | String ":" r2 =>
                '(v, r3) ← parse_value fuel' depth r2;
                match skip_ws r3 with
                | String "," r4 =>
                    '(ms, r5) ← parse_members fuel' depth r4; Some ((k, v) :: ms, r5)
                | String "}" r4 => Some ([(k, v)], r4)
                | _ => None
                end
            | _ => None
            end
          else None
      | "" => None
      end
  end.

(** a whole JSON text *)
Definition parse (data : string) : option value :=
  '(v, r) ← parse_value (2 * String.length data + 2) 0%N data;
  match skip_ws r with
  | "" => Some v
  | _ => None
  end.

(** *** Decoding into a struct *)

Definition upper (c : ascii) : ascii :=
  if ((0x61 <=? byte c) && (byte c <=? 0x7A))%N then ascii_of_N (byte c - 32) else c.

(** [name] is an ASCII field name, [key] a member name: equal up to
    Unicode simple case folding.  Apart from the letters themselves, the
    runes that fold to an ASCII letter are U+017F (to S) and U+212A
    (to K). *)
Fixpoint equalFold (name key : string) : bool :=
  match name with
  | "" => match key with "" => true | _ => false end
  | String n name' =>
      match key with
      | "" => false
      | String k key' =>
          if (byte k <? utf8.RuneSelf)%N then
            Ascii.eqb (upper n) (upper k) && equalFold name' key'
          else
            match key with
            | String "197" (String "191" key'') =>
                Ascii.eqb (upper n) "S" && equalFold name' key''
            | String "226" (String "132" (String "170" key'')) =>
                Ascii.eqb (upper n) "K" && equalFold name' key''
            | _ => false
            end
      end
  end.

(** the field a member name designates *)
Definition field_of (names : list string) (key : string) : option string :=
  match List.find (String.eqb key) names with
  | Some n => Some n
  | None => List.find (fun n => equalFold n key) names
  end.

(** a JSON value stored into a [string] field *)
Definition store_string (v : value) (old : string) : option string :=
  match v with
  | Str s => Some s
  | Null => Some old
  | _ => None
  end.

Fixpoint digits_value (s : string) (acc : Z) : Z :=
  match s with
  | String c r => digits_value r (10 * acc + Z.of_N (byte c - 0x30))
  | "" => acc
  end.

(** [strconv.ParseInt(lit, 10, 64)] on the text of a JSON number *)
Definition ParseInt (lit : string) : option Z :=
  let '(neg, body) :=
    match lit with
    | String "-" r => (true, r)
    | _ => (false, lit)
    end in
  match span_digits body with
  | (String c d, "") =>
      let n := digits_value (String c d) 0 in
      let n := if neg then - n else n in
      if (- 2 ^ 63 <=? n) && (n <? 2 ^ 63) then Some n else None
  | _ => None
  end.

(** a JSON value stored into an [int] field (64 bits) *)
Definition store_int (v : value) (old : Z) : option Z :=
  match v with
  | Number lit => ParseInt lit
  | Null => Some old
  | _ => None
  end.

Fixpoint decode_members {T} (names : list string)
    (store : string -> value -> T -> option T)
    (ms : list (string * value)) (acc : T) : option T :=
  match ms with
  | [] => Some acc
  | (k, v) :: ms' =>
      match field_of names k with
      | Some f => acc' ← store f v acc; decode_members names store ms' acc'
      | None => decode_members names store ms' acc
      end
  end.

(** [json.Unmarshal(data, &x)] for a struct [x] holding [init] *)
Definition Unmarshal {T} (names : list string)
    (store : string -> value -> T -> option T) (data : string) (init : T) : option T :=
  match parse data with
  | Some (Object ms) => decode_members names store ms init
  | Some Null => Some init
  | _ => None
  end.

End json.
(** ** Package errors (pkg/errors) *)

Module errors.

Record AppError := NewAppError { Code : string; Message : string; Status : Z }.

Definition ErrInternalServer :=
  NewAppError "INTERNAL_SERVER_ERROR" "Internal server error" 500.
Definition ErrInvalidProvider :=
  NewAppError "INVALID_PROVIDER" "Invalid OAuth provider" 400.
Definition ErrTokenNotFound :=
  NewAppError "TOKEN_NOT_FOUND" "OAuth token not found" 401.
Definition ErrTokenExchange :=
  NewAppError "TOKEN_EXCHANGE_FAILED" "OAuth token exchange failed" 500.
Definition ErrInvalidState :=
  NewAppError "INVALID_STATE" "Invalid OAuth state parameter" 400.
Definition ErrPKCEVerifierNotFound :=
  NewAppError "PKCE_VERIFIER_NOT_FOUND" "PKCE verifier not found or expired" 400.
Definition ErrTokenExpired :=
  NewAppError "TOKEN_EXPIRED" "OAuth token expired" 401.

End errors.

(** ** Go error values and results

    An error value is kept as the expression that built it. *)

Inductive error :=
| App (e : errors.AppError)
    (** a predefined [*errors.AppError] *)
| Errorf (msg : string)
    (** [fmt.Errorf(msg)], a message without a wrapped error *)
| Wrapf (msg : string) (cause : error)
    (** [fmt.Errorf(msg + ": %w", cause)] *)
| StatusErr (msg : string) (status : Z) (body : string)
    (** [fmt.Errorf(msg + ": status=%d body=%s", status, body)] *)
| RedisNil
    (** [redis.Nil] *)
| Lib (msg : string).
    (** an error made by a library: transport, driver, decoder *)

(** [err.Error()] *)
Fixpoint error_string (err : error) : string :=
  match err with
  | App e => errors.Message e
  | Errorf msg => msg
  | Wrapf msg cause => msg +:+ ": " +:+ error_string cause
  | StatusErr msg status body => msg +:+ ": status=" +:+ pretty status +:+ " body=" +:+ body
  | RedisNil => "redis: nil"
  | Lib msg => msg
  end.

Inductive result (A : Type) :=
| Ok (a : A)
| Err (e : error).
Arguments Ok {A} a.
Arguments Err {A} e.

Definition is_Ok {A} (r : result A) : bool :=
  match r with Ok _ => true | Err _ => false end.

(** ** golang.org/x/oauth2: Config *)

Module oauth2cfg.

Record Endpoint := mkEndpoint { AuthURL : string; TokenURL : string }.

Record Config := mkConfig {
  ClientID : string;
  ClientSecret : string;
  Scopes : list string;
  Endpoint_ : Endpoint;
  RedirectURL : string
}.

End oauth2cfg.

(** ** The world

    [Env] is what the surroundings answer during one operation: the clock,
    the Redis server's failures, the providers' HTTP endpoints, the oauth2
    library's token endpoint calls, and the random source.  [World] is what
    the operation changes: the Redis key space, the heap of token objects,
    and the chronological trace of what was done.

    Redis holds two families of keys.  Under a [token:] key the value is a
    JSON text: the model keeps the token that [json.Unmarshal] reads from it
    ([JsonOf]), or [Garbled] for a text that it rejects; the text that
    [json.Marshal] writes for a token is read back as that token.  Under a
    [pkce:] key the value is the verifier string.  Expiry of keys is not
    modelled: a world is the key space at the time of the operation.

    A Redis command that fails leaves the key space as it was. *)

Inductive blob :=
| JsonOf (t : oauth2.Token)
| Garbled.

Inductive RedisCmd :=
| Ping
| Get (key : string)
| SetEx (key : string)
| Del (key : string).

(** An outgoing HTTP request of the package's own making; [Values] is the
    [url.Values] that is encoded as the query string (GET) or the body
    (POST). *)
Record Request := mkRequest {
  Method : string;
  URL : string;
  Values : gmap string string;
  Header : gmap string string
}.

Inductive HttpReply :=
| SendFailed (e : error)                  (** [client.Do] fails *)
| ReadFailed (e : error)                  (** [io.ReadAll(resp.Body)] fails *)
| Response (StatusCode : Z) (Body : string).

(** A token endpoint call made inside the oauth2 library. *)
Inductive LibCall :=
| LibExchange (cfg : oauth2cfg.Config) (code : string) (code_verifier : option string)
    (** [config.Exchange(ctx, code, opts...)] *)
| LibRefresh (cfg : oauth2cfg.Config) (refreshToken : string).
    (** the refresh of [config.TokenSource(ctx, tok).Token()] *)

Inductive Level := LInfo | LError.

Inductive Event :=
| EvRedis (c : RedisCmd)
| EvHTTP (r : Request)
| EvOAuth2 (c : LibCall)
| EvRand (n : nat)
| EvLog (lvl : Level) (msg : string).

Record Env := mkEnv {
  now : Z;                                       (** [time.Now()] *)
  redis_fault : RedisCmd -> option error;
  http : Request -> HttpReply;
  oauth2_endpoint : LibCall -> result oauth2.Token;
  entropy : nat -> nat -> ascii;                 (** call number, byte number *)
  rand_fault : nat -> option error;
  url_without_query : string -> option string
    (** [url.Parse(u)], [RawQuery = ""], [String()]; [None] when parsing fails *)
}.

Record World := mkWorld {
  tokens : gmap string blob;
  pkce : gmap string string;
  heap : list oauth2.Token;
  rand_calls : nat;
  trace : list Event
}.

Abbreviation ptr := nat (only parsing).

(** ** The monad of operations *)

Definition M (A : Type) : Type := Env -> World -> A * World.

Definition ret {A} (a : A) : M A := fun _ w => (a, w).

Definition bind {A B} (m : M A) (k : A -> M B) : M B :=
  fun e w => let '(a, w') := m e w in k a e w'.

Declare Scope go_scope.
Delimit Scope go_scope with go.
Notation "x <- m ;; k" := (bind m (fun x => k))
  (at level 100, m at next level, right associativity) : go_scope.
Notation "m ;;; k" := (bind m (fun _ => k))
  (at level 100, right associativity) : go_scope.
Local Open Scope go_scope.

Definition run {A} (m : M A) (e : Env) (w : World) : A * World := m e w.

Definition emit (ev : Event) : M unit :=
  fun _ w => (tt, mkWorld (tokens w) (pkce w) (heap w) (rand_calls w) (trace w ++ [ev])).

Definition ask {A} (f : Env -> A) : M A := fun e w => (f e, w).

Definition get_world : M World := fun _ w => (w, w).

Definition put_tokens (m : gmap string blob) : M unit :=
  fun _ w => (tt, mkWorld m (pkce w) (heap w) (rand_calls w) (trace w)).

Definition put_pkce (m : gmap string string) : M unit :=
  fun _ w => (tt, mkWorld (tokens w) m (heap w) (rand_calls w) (trace w)).

Definition put_heap (h : list oauth2.Token) : M unit :=
  fun _ w => (tt, mkWorld (tokens w) (pkce w) h (rand_calls w) (trace w)).

(** [&oauth2.Token{...}]: a new object *)
Definition new (t : oauth2.Token) : M ptr :=
  fun _ w => (length (heap w),
              mkWorld (tokens w) (pkce w) (heap w ++ [t]) (rand_calls w) (trace w)).

(** [*p]; every pointer handed out by [new] is in the heap *)
Definition load (p : ptr) : M oauth2.Token :=
  fun _ w => (default oauth2.zero (heap w !! p), w).

(** [p.RefreshToken = r] *)
Definition store_RefreshToken (p : ptr) (r : string) : M unit :=
  fun _ w =>
    (tt, mkWorld (tokens w) (pkce w)
           (alter (fun t => oauth2.with_RefreshToken t r) p (heap w))
           (rand_calls w) (trace w)).

(** ** Package time: the clock *)

Module clock.
Definition Now : M Z := ask now.
End clock.

(** ** Package logger *)

Module logger.
Definition Info (msg : string) : M unit := emit (EvLog LInfo msg).
Definition Error (err : error) (msg : string) : M unit := emit (EvLog LError msg).
End logger.

(** ** crypto/rand *)

Module rand.

(** [rand.Read(b)] for [b] of length [n] *)
Definition Read (n : nat) : M (result string) :=
  fun e w =>
    let k := rand_calls w in
    let w' := mkWorld (tokens w) (pkce w) (heap w) (S k) (trace w ++ [EvRand n]) in
    match rand_fault e k with
    | Some err => (Err err, w')
    | None => (Ok (string_of_list_ascii (List.map (entropy e k) (seq 0 n))), w')
    end.

End rand.

(** ** The Redis client *)

Module redis.

Definition ping : M (option error) :=
  emit (EvRedis Ping) ;;; ask (fun e => redis_fault e Ping).

Definition get_token (key : string) : M (result blob) :=
  emit (EvRedis (Get key)) ;;;
  fault <- ask (fun e => redis_fault e (Get key)) ;;
  w <- get_world ;;
  ret match fault with
      | Some err => Err err
      | None => match tokens w !! key with Some b => Ok b | None => Err RedisNil end
      end.

Definition set_token (key : string) (b : blob) : M (option error) :=
  emit (EvRedis (SetEx key)) ;;;
  fault <- ask (fun e => redis_fault e (SetEx key)) ;;
  match fault with
  | Some err => ret (Some err)
  | None => w <- get_world ;; put_tokens (<[key := b]> (tokens w)) ;;; ret None
  end.

Definition del_token (key : string) : M (option error) :=
  emit (EvRedis (Del key)) ;;;
  fault <- ask (fun e => redis_fault e (Del key)) ;;
  match fault with
  | Some err => ret (Some err)
  | None => w <- get_world ;; put_tokens (delete key (tokens w)) ;;; ret None
  end.

Definition get_pkce (key : string) : M (result string) :=
  emit (EvRedis (Get key)) ;;;
  fault <- ask (fun e => redis_fault e (Get key)) ;;
  w <- get_world ;;
  ret match fault with
      | Some err => Err err
      | None => match pkce w !! key with Some v => Ok v | None => Err RedisNil end
      end.

Definition set_pkce (key value : string) : M (option error) :=
  emit (EvRedis (SetEx key)) ;;;
  fault <- ask (fun e => redis_fault e (SetEx key)) ;;
  match fault with
  | Some err => ret (Some err)
  | None => w <- get_world ;; put_pkce (<[key := value]> (pkce w)) ;;; ret None
  end.

Definition del_pkce (key : string) : M (option error) :=
  emit (EvRedis (Del key)) ;;;
  fault <- ask (fun e => redis_fault e (Del key)) ;;
  match fault with
  | Some err => ret (Some err)
  | None => w <- get_world ;; put_pkce (delete key (pkce w)) ;;; ret None
  end.

End redis.
(** ** Package config *)

Module config.

Definition YouTubeAuthURL := "https://accounts.google.com/o/oauth2/auth".
Definition YouTubeTokenURL := "https://oauth2.googleapis.com/token".
Definition XAuthURL := "https://x.com/i/oauth2/authorize".
Definition XTokenURL := "https://api.x.com/2/oauth2/token".
Definition FacebookAuthURL := "https://www.facebook.com/v18.0/dialog/oauth".
Definition FacebookTokenURL := "https://graph.facebook.com/v18.0/oauth/access_token".
Definition TikTokAuthURL := "https://www.tiktok.com/v2/auth/authorize/".
Definition TikTokTokenURL := "https://open.tiktokapis.com/v2/oauth/token/".
Definition InstagramAuthURL := "https://api.instagram.com/oauth/authorize".
Definition InstagramTokenURL := "https://api.instagram.com/oauth/access_token".

(** [google.Endpoint] of golang.org/x/oauth2/google *)
Definition googleEndpoint : oauth2cfg.Endpoint :=
  oauth2cfg.mkEndpoint YouTubeAuthURL YouTubeTokenURL.

Record ProviderConfig := mkProviderConfig {
  ClientID : string;
  ClientSecret : string;
  Scopes : list string
}.

Record ServerOAuthConfig := mkServerOAuthConfig {
  YouTube : ProviderConfig;
  X : ProviderConfig;
  Facebook : ProviderConfig;
  TikTok : ProviderConfig;
  Instagram : ProviderConfig
}.

(** The [Servers] map of [Config]; the server and Redis settings play no
    part in the token lifecycle. *)
Record Config := mkConfig { Servers : gmap string ServerOAuthConfig }.

Definition provider_config (p : ProviderConfig) (ep : oauth2cfg.Endpoint)
    (redirectURI : string) : oauth2cfg.Config :=
  oauth2cfg.mkConfig (ClientID p) (ClientSecret p) (Scopes p) ep redirectURI.

Definition GetServerOAuthConfig (c : Config) (provider serverName redirectURI : string)
  : result oauth2cfg.Config :=
  match Servers c !! serverName with
  | None => Err (Errorf ("server configuration not found: " +:+ serverName))
  | Some serverConfig =>
      if String.eqb provider "youtube" then
        Ok (provider_config (YouTube serverConfig) googleEndpoint redirectURI)
      else if String.eqb provider "x" then
        Ok (provider_config (X serverConfig)
              (oauth2cfg.mkEndpoint XAuthURL XTokenURL) redirectURI)
      else if String.eqb provider "facebook" then
        Ok (provider_config (Facebook serverConfig)
              (oauth2cfg.mkEndpoint FacebookAuthURL FacebookTokenURL) redirectURI)
      else if String.eqb provider "tiktok" then
        Ok (provider_config (TikTok serverConfig)
              (oauth2cfg.mkEndpoint TikTokAuthURL TikTokTokenURL) redirectURI)
      else if String.eqb provider "instagram" then
        Ok (provider_config (Instagram serverConfig)
              (oauth2cfg.mkEndpoint InstagramAuthURL InstagramTokenURL) redirectURI)
      else Err (Errorf ("unknown provider: " +:+ provider))
  end.

End config.

(** ** Package storage: RedisStorage *)

Module storage.

Local Open Scope go_scope.

Definition TokenKey (userID provider serverName : string) : string :=
  let serverName := if String.eqb serverName "" then "default" else serverName in
  "token:" +:+ serverName +:+ ":" +:+ provider +:+ ":" +:+ userID.

Definition PKCEKey (state : string) : string := "pkce:" +:+ state.

(** [json.Marshal(token)] *)
Definition marshal_token (t : oauth2.Token) : result blob := Ok (JsonOf t).

(** [json.Unmarshal([]byte(data), &token)] *)
Definition unmarshal_token (b : blob) : result oauth2.Token :=
  match b with
  | JsonOf t => Ok t
  | Garbled => Err (Lib "json: cannot unmarshal")
  end.

Definition SaveToken (userID provider serverName : string) (token : ptr) : M (option error) :=
  let key := TokenKey userID provider serverName in
  t <- load token ;;
  match marshal_token t with
  | Err err => ret (Some (Wrapf "failed to marshal token" err))
  | Ok data =>
      err <- redis.set_token key data ;;
      match err with
      | Some err => ret (Some err)
      | None => ret None
      end
  end.

Definition GetToken (userID provider serverName : string) : M (result ptr) :=
  let key := TokenKey userID provider serverName in
  err <- redis.ping ;;
  match err with
  | Some err => ret (Err (Wrapf "redis connection failed" err))
  | None =>
      r <- redis.get_token key ;;
      match r with
      | Err RedisNil => ret (Err (Errorf "token not found"))
      | Err err => ret (Err (Wrapf "failed to get token" err))
      | Ok data =>
          match unmarshal_token data with
          | Err err => ret (Err (Wrapf "failed to unmarshal token" err))
          | Ok t => p <- new t ;; ret (Ok p)
          end
      end
  end.

Definition DeleteToken (userID provider serverName : string) : M (option error) :=
  redis.del_token (TokenKey userID provider serverName).

Definition SavePKCEVerifier (state verifier : string) : M (option error) :=
  let key := PKCEKey state in
  err <- redis.ping ;;
  match err with
  | Some err => ret (Some (Wrapf "redis connection failed" err))
  | None =>
      err <- redis.set_pkce key verifier ;;
      match err with
      | Some err => ret (Some err)
      | None =>
          r <- redis.get_pkce key ;;
          match r with
          | Err err => ret (Some (Wrapf "failed to verify PKCE verifier save" err))
          | Ok savedVerifier =>
              if negb (String.eqb savedVerifier verifier)
              then ret (Some (Errorf "PKCE verifier mismatch after save"))
              else ret None
          end
      end
  end.

(** The pipeline queues [Get] and [Del]; [Exec] runs both and returns the
    error of the first command that failed. *)
Definition GetAndDeletePKCEVerifier (state : string) : M (result string) :=
  let key := PKCEKey state in
  getCmd <- redis.get_pkce key ;;
  delCmd <- redis.del_pkce key ;;
  let exec_err :=
    match getCmd, delCmd with
    | Err err, _ => Some err
    | Ok _, Some err => Some err
    | Ok _, None => None
    end in
  match exec_err with
  | Some RedisNil | None =>
      match getCmd with
      | Err RedisNil => ret (Err (Errorf "PKCE verifier not found or expired"))
      | Err err => ret (Err (Wrapf "failed to get PKCE verifier" err))
      | Ok verifier =>
          match delCmd with
          | Some err => ret (Err (Wrapf "failed to delete PKCE verifier" err))
          | None => ret (Ok verifier)
          end
      end
  | Some err => ret (Err (Wrapf "failed to get PKCE verifier" err))
  end.

End storage.
(** ** Package oauth: the state codec *)

Module oauth.

Local Open Scope go_scope.
Import bytes.

Record StatePayload := mkStatePayload {
  UserID : string;       (** json:"uid" *)
  ServerName : string;   (** json:"server" *)
  Nonce : string         (** json:"n" *)
}.

(** a field name as the encoder writes it: quoted and followed by a colon *)
Definition key (name : string) : string :=
  String dquote (name +:+ String dquote ":").

(** [json.Marshal(&payload)]: the fields in the order of the struct *)
Definition marshal_StatePayload (p : StatePayload) : result string :=
  Ok ("{" +:+ key "uid" +:+ json.appendString (UserID p)
      +:+ "," +:+ key "server" +:+ json.appendString (ServerName p)
      +:+ "," +:+ key "n" +:+ json.appendString (Nonce p)
      +:+ "}").

Definition store_StatePayload (f : string) (v : json.value) (p : StatePayload)
  : option StatePayload :=
  if String.eqb f "uid" then
    s ← json.store_string v (UserID p); Some (mkStatePayload s (ServerName p) (Nonce p))
  else if String.eqb f "server" then
    s ← json.store_string v (ServerName p); Some (mkStatePayload (UserID p) s (Nonce p))
  else
    s ← json.store_string v (Nonce p); Some (mkStatePayload (UserID p) (ServerName p) s).

(** [json.Unmarshal(b, &payload)] with [var payload StatePayload] *)
Definition unmarshal_StatePayload (b : string) : result StatePayload :=
  match json.Unmarshal ["uid"; "server"; "n"] store_StatePayload b (mkStatePayload "" "" "") with
  | Some p => Ok p
  | None => Err (Lib "json: cannot unmarshal")
  end.

Definition RandStringURLSafe (n : nat) : M (result string) :=
  r <- rand.Read n ;;
  match r with
  | Err err => ret (Err err)
  | Ok b => ret (Ok (take n (base64.RawURLEncoding.EncodeToString b)))
  end.

Definition EncodeState (userID serverName : string) : M (result string) :=
  r <- RandStringURLSafe 12 ;;
  match r with
  | Err err => ret (Err (Wrapf "failed to generate nonce" err))
  | Ok nonce =>
      let payload := mkStatePayload userID serverName nonce in
      match marshal_StatePayload payload with
      | Err err => ret (Err (Wrapf "failed to marshal state payload" err))
      | Ok b => ret (Ok (base64.RawURLEncoding.EncodeToString b))
      end
  end.

Definition DecodeState (raw : string) : result StatePayload :=
  match base64.RawURLEncoding.DecodeString raw with
  | None => Err (Wrapf "failed to decode state" (Lib "illegal base64 data"))
  | Some b =>
      match unmarshal_StatePayload b with
      | Err err => Err (Wrapf "failed to unmarshal state payload" err)
      | Ok payload => Ok payload
      end
  end.

(** *** OAuthService: exchange and refresh *)

Record tokenResponse := mkTokenResponse {
  r_AccessToken : string;    (** json:"access_token" *)
  r_TokenType : string;      (** json:"token_type" *)
  r_ExpiresIn : Z;           (** json:"expires_in" *)
  r_RefreshToken : string;   (** json:"refresh_token" *)
  r_Scope : string           (** json:"scope" *)
}.

Definition store_tokenResponse (f : string) (v : json.value) (t : tokenResponse)
  : option tokenResponse :=
  if String.eqb f "access_token" then
    s ← json.store_string v (r_AccessToken t);
    Some (mkTokenResponse s (r_TokenType t) (r_ExpiresIn t) (r_RefreshToken t) (r_Scope t))
  else if String.eqb f "token_type" then
    s ← json.store_string v (r_TokenType t);
    Some (mkTokenResponse (r_AccessToken t) s (r_ExpiresIn t) (r_RefreshToken t) (r_Scope t))
  else if String.eqb f "expires_in" then
    n ← json.store_int v (r_ExpiresIn t);
    Some (mkTokenResponse (r_AccessToken t) (r_TokenType t) n (r_RefreshToken t) (r_Scope t))
  else if String.eqb f "refresh_token" then
    s ← json.store_string v (r_RefreshToken t);
    Some (mkTokenResponse (r_AccessToken t) (r_TokenType t) (r_ExpiresIn t) s (r_Scope t))
  else
    s ← json.store_string v (r_Scope t);
    Some (mkTokenResponse (r_AccessToken t) (r_TokenType t) (r_ExpiresIn t) (r_RefreshToken t) s).

Definition zero_tokenResponse := mkTokenResponse "" "" 0 "" "".

(** the response struct of the X calls: five fields *)
Definition unmarshal_tokenResponse5 (body : string) : result tokenResponse :=
  match json.Unmarshal ["access_token"; "token_type"; "expires_in"; "refresh_token"; "scope"]
          store_tokenResponse body zero_tokenResponse with
  | Some t => Ok t
  | None => Err (Lib "json: cannot unmarshal")
  end.

(** the response struct of the Instagram and Facebook calls: three fields *)
Definition unmarshal_tokenResponse3 (body : string) : result tokenResponse :=
  match json.Unmarshal ["access_token"; "token_type"; "expires_in"]
          store_tokenResponse body zero_tokenResponse with
  | Some t => Ok t
  | None => Err (Lib "json: cannot unmarshal")
  end.

(** [token := &oauth2.Token{...}] followed by
    [if tokenResponse.ExpiresIn > 0 { token.Expiry = time.Now().Add(...) }] *)
Definition new_token (access type_ refresh : string) (expiresIn : Z) : M ptr :=
  now <- clock.Now ;;
  new (oauth2.mkToken access type_ refresh
         (if 0 <? expiresIn
          then time.Add now (time.wrap64 (expiresIn * time.Second))
          else 0)).

(** [client.Do(req)] and [io.ReadAll(resp.Body)] *)
Definition send (req : Request) : M HttpReply :=
  emit (EvHTTP req) ;;; ask (fun e => http e req).

Definition basic_auth (cfg : oauth2cfg.Config) : string :=
  "Basic " +:+ base64.StdEncoding.EncodeToString
    (oauth2cfg.ClientID cfg +:+ ":" +:+ oauth2cfg.ClientSecret cfg).

Definition TokenURL (cfg : oauth2cfg.Config) : string :=
  oauth2cfg.TokenURL (oauth2cfg.Endpoint_ cfg).

(** [s.config.Exchange(ctx, code, opts...)] *)
Definition lib_Exchange (cfg : oauth2cfg.Config) (code : string) (v : option string)
  : M (result ptr) :=
  emit (EvOAuth2 (LibExchange cfg code v)) ;;;
  r <- ask (fun e => oauth2_endpoint e (LibExchange cfg code v)) ;;
  match r with
  | Err err => ret (Err err)
  | Ok t => p <- new t ;; ret (Ok p)
  end.

(** [s.config.TokenSource(ctx, &oauth2.Token{RefreshToken: r}).Token()]:
    the token given has no access token, so the source refreshes, and the
    library refuses to do so without a refresh token. *)
Definition lib_TokenSource_Token (cfg : oauth2cfg.Config) (refreshToken : string)
  : M (result ptr) :=
  _ <- new (oauth2.mkToken "" "" refreshToken 0) ;;
  if String.eqb refreshToken "" then
    ret (Err (Lib "oauth2: token expired and refresh token is not set"))
  else
    emit (EvOAuth2 (LibRefresh cfg refreshToken)) ;;;
    r <- ask (fun e => oauth2_endpoint e (LibRefresh cfg refreshToken)) ;;
    match r with
    | Err err => ret (Err err)
    | Ok t => p <- new t ;; ret (Ok p)
    end.

Definition exchangeCodeWithPKCE (cfg : oauth2cfg.Config) (code verifier : string)
  : M (result ptr) :=
  let data : gmap string string :=
    <["code_verifier" := verifier]>
      (<["redirect_uri" := oauth2cfg.RedirectURL cfg]>
         (<["client_id" := oauth2cfg.ClientID cfg]>
            (<["grant_type" := "authorization_code"]> (<["code" := code]> ∅)))) in
  let header : gmap string string :=
    <["Authorization" := basic_auth cfg]>
      (<["Accept" := "application/json"]>
         (<["Content-Type" := "application/x-www-form-urlencoded"]> ∅)) in
  resp <- send (mkRequest "POST" (TokenURL cfg) data header) ;;
  match resp with
  | SendFailed err => ret (Err (Wrapf "failed to send request" err))
  | ReadFailed err => ret (Err (Wrapf "failed to read response" err))
  | Response status body =>
      if negb (status =? 200) then ret (Err (StatusErr "token exchange failed" status body))
      else
        match unmarshal_tokenResponse5 body with
        | Err err => ret (Err (Wrapf "failed to parse token response" err))
        | Ok tr =>
            token <- new_token (r_AccessToken tr) (r_TokenType tr) (r_RefreshToken tr)
                               (r_ExpiresIn tr) ;;
            ret (Ok token)
        end
  end.

Definition exchangeInstagramToken (cfg : oauth2cfg.Config) (shortLivedToken : string)
  : M (result ptr) :=
  let exchangeURL := "https://graph.instagram.com/access_token" in
  let data : gmap string string :=
    <["access_token" := shortLivedToken]>
      (<["client_secret" := oauth2cfg.ClientSecret cfg]>
         (<["grant_type" := "ig_exchange_token"]> ∅)) in
  let header : gmap string string := <["Accept" := "application/json"]> ∅ in
  resp <- send (mkRequest "GET" exchangeURL data header) ;;
  match resp with
  | SendFailed err => ret (Err (Wrapf "failed to send request" err))
  | ReadFailed err => ret (Err (Wrapf "failed to read response" err))
  | Response status body =>
      if negb (status =? 200) then ret (Err (StatusErr "token exchange failed" status body))
      else
        match unmarshal_tokenResponse3 body with
        | Err err => ret (Err (Wrapf "failed to parse token response" err))
        | Ok tr =>
            token <- new_token (r_AccessToken tr) (r_TokenType tr) (r_AccessToken tr)
                               (r_ExpiresIn tr) ;;
            ret (Ok token)
        end
  end.

Definition exchangeFacebookToken (cfg : oauth2cfg.Config) (shortLivedToken : string)
  : M (result ptr) :=
  let exchangeURL := "https://graph.facebook.com/oauth/access_token" in
  let data : gmap string string :=
    <["fb_exchange_token" := shortLivedToken]>
      (<["client_secret" := oauth2cfg.ClientSecret cfg]>
         (<["client_id" := oauth2cfg.ClientID cfg]>
            (<["grant_type" := "fb_exchange_token"]> ∅))) in
  let header : gmap string string := <["Accept" := "application/json"]> ∅ in
  resp <- send (mkRequest "GET" exchangeURL data header) ;;
  match resp with
  | SendFailed err => ret (Err (Wrapf "failed to send request" err))
  | ReadFailed err => ret (Err (Wrapf "failed to read response" err))
  | Response status body =>
      if negb (status =? 200) then ret (Err (StatusErr "token exchange failed" status body))
      else
        match unmarshal_tokenResponse3 body with
        | Err err => ret (Err (Wrapf "failed to parse token response" err))
        | Ok tr =>
            token <- new_token (r_AccessToken tr) (r_TokenType tr) (r_AccessToken tr)
                               (r_ExpiresIn tr) ;;
            ret (Ok token)
        end
  end.

Definition ExchangeCode (cfg : oauth2cfg.Config) (code verifier : string)
  : M (result ptr) :=
  r <- (if negb (String.eqb verifier "") then
          if String.eqb (TokenURL cfg) "https://api.x.com/2/oauth2/token"
          then exchangeCodeWithPKCE cfg code verifier
          else lib_Exchange cfg code (Some verifier)
        else lib_Exchange cfg code None) ;;
  r <- match r with
       | Ok token =>
           if String.eqb (TokenURL cfg) "https://api.instagram.com/oauth/access_token" then
             t <- load token ;;
             ll <- exchangeInstagramToken cfg (oauth2.AccessToken t) ;;
             match ll with
             | Err exchangeErr => ret (Ok token)
             | Ok longLivedToken => ret (Ok longLivedToken)
             end
           else ret (Ok token)
       | Err err => ret (Err err)
       end ;;
  r <- match r with
       | Ok token =>
           if String.eqb (TokenURL cfg) "https://graph.facebook.com/v18.0/oauth/access_token" then
             t <- load token ;;
             ll <- exchangeFacebookToken cfg (oauth2.AccessToken t) ;;
             match ll with
             | Err exchangeErr => ret (Ok token)
             | Ok longLivedToken => ret (Ok longLivedToken)
             end
           else ret (Ok token)
       | Err err => ret (Err err)
       end ;;
  match r with
  | Err err => ret (Err (Wrapf "token exchange failed" err))
  | Ok token => ret (Ok token)
  end.

Definition refreshTokenWithX (cfg : oauth2cfg.Config) (refreshToken : string)
  : M (result ptr) :=
  let data : gmap string string :=
    <["client_id" := oauth2cfg.ClientID cfg]>
      (<["grant_type" := "refresh_token"]> (<["refresh_token" := refreshToken]> ∅)) in
  let header : gmap string string :=
    <["Authorization" := basic_auth cfg]>
      (<["Accept" := "application/json"]>
         (<["Content-Type" := "application/x-www-form-urlencoded"]> ∅)) in
  resp <- send (mkRequest "POST" (TokenURL cfg) data header) ;;
  match resp with
  | SendFailed err => ret (Err (Wrapf "failed to send request" err))
  | ReadFailed err => ret (Err (Wrapf "failed to read response" err))
  | Response status body =>
      if negb (status =? 200) then ret (Err (StatusErr "token refresh failed" status body))
      else
        match unmarshal_tokenResponse5 body with
        | Err err => ret (Err (Wrapf "failed to parse token response" err))
        | Ok tr =>
            token <- new_token (r_AccessToken tr) (r_TokenType tr) (r_RefreshToken tr)
                               (r_ExpiresIn tr) ;;
            ret (Ok token)
        end
  end.

Definition refreshTokenWithInstagram (cfg : oauth2cfg.Config) (accessToken : string)
  : M (result ptr) :=
  let refreshURL := "https://graph.instagram.com/refresh_access_token" in
  let data : gmap string string :=
    <["access_token" := accessToken]> (<["grant_type" := "ig_refresh_token"]> ∅) in
  let header : gmap string string := <["Accept" := "application/json"]> ∅ in
  resp <- send (mkRequest "GET" refreshURL data header) ;;
  match resp with
  | SendFailed err => ret (Err (Wrapf "failed to send request" err))
  | ReadFailed err => ret (Err (Wrapf "failed to read response" err))
  | Response status body =>
      if negb (status =? 200) then ret (Err (StatusErr "token refresh failed" status body))
      else
        match unmarshal_tokenResponse3 body with
        | Err err => ret (Err (Wrapf "failed to parse token response" err))
        | Ok tr =>
            (* the RefreshToken field is not set: it keeps its zero value *)
            token <- new_token (r_AccessToken tr) (r_TokenType tr) "" (r_ExpiresIn tr) ;;
            ret (Ok token)
        end
  end.

Definition refreshTokenWithFacebook (cfg : oauth2cfg.Config) (accessToken : string)
  : M (result ptr) :=
  let refreshURL := "https://graph.facebook.com/oauth/access_token" in
  let data : gmap string string :=
    <["fb_exchange_token" := accessToken]>
      (<["client_secret" := oauth2cfg.ClientSecret cfg]>
         (<["client_id" := oauth2cfg.ClientID cfg]>
            (<["grant_type" := "fb_exchange_token"]> ∅))) in
  let header : gmap string string := <["Accept" := "application/json"]> ∅ in
  resp <- send (mkRequest "GET" refreshURL data header) ;;
  match resp with
  | SendFailed err => ret (Err (Wrapf "failed to send request" err))
  | ReadFailed err => ret (Err (Wrapf "failed to read response" err))
  | Response status body =>
      if negb (status =? 200) then ret (Err (StatusErr "token refresh failed" status body))
      else
        match unmarshal_tokenResponse3 body with
        | Err err => ret (Err (Wrapf "failed to parse token response" err))
        | Ok tr =>
            token <- new_token (r_AccessToken tr) (r_TokenType tr) (r_AccessToken tr)
                               (r_ExpiresIn tr) ;;
            ret (Ok token)
        end
  end.

Definition RefreshToken (cfg : oauth2cfg.Config) (refreshToken : string) : M (result ptr) :=
  if String.eqb (TokenURL cfg) "https://api.x.com/2/oauth2/token" then
    refreshTokenWithX cfg refreshToken
  else if String.eqb (TokenURL cfg) "https://api.instagram.com/oauth/access_token" then
    refreshTokenWithInstagram cfg refreshToken
  else if String.eqb (TokenURL cfg) "https://graph.facebook.com/v18.0/oauth/access_token" then
    refreshTokenWithFacebook cfg refreshToken
  else
    r <- lib_TokenSource_Token cfg refreshToken ;;
    match r with
    | Err err => ret (Err (Wrapf "token refresh failed" err))
    | Ok token => ret (Ok token)
    end.

(** *** TokenManager *)

Record TokenManager := NewTokenManager { tm_config : config.Config }.

Definition isTokenExpired (token : ptr) : M bool :=
  t <- load token ;;
  now <- clock.Now ;;
  ret (expiry.isTokenExpired now (Some t)).

Definition refreshToken (tm : TokenManager) (userID provider serverName : string)
    (currentToken : ptr) : M (result ptr) :=
  cur <- load currentToken ;;
  guard <-
    (if String.eqb provider "instagram" then
       if String.eqb (oauth2.AccessToken cur) "" then
         logger.Error (App errors.ErrTokenNotFound) "instagram access token not found" ;;;
         ret (Some (Errorf "instagram access token not available"))
       else
         store_RefreshToken currentToken (oauth2.AccessToken cur) ;;; ret None
     else
       if String.eqb (oauth2.RefreshToken cur) "" then
         logger.Error (App errors.ErrTokenNotFound) "refresh token not found" ;;;
         ret (Some (Errorf "refresh token not available"))
       else ret None) ;;
  match guard with
  | Some err => ret (Err err)
  | None =>
      match config.GetServerOAuthConfig (tm_config tm) provider serverName "" with
      | Err err =>
          logger.Error err "failed to get OAuth config" ;;;
          ret (Err (Wrapf "failed to get OAuth config" err))
      | Ok oauthConfig =>
          cur <- load currentToken ;;
          r <- RefreshToken oauthConfig (oauth2.RefreshToken cur) ;;
          match r with
          | Err err =>
              logger.Error err "token refresh failed" ;;;
              ret (Err (Wrapf "token refresh failed" err))
          | Ok newToken =>
              err <- storage.SaveToken userID provider serverName newToken ;;
              match err with
              | Some err =>
                  logger.Error err "failed to save refreshed token" ;;;
                  ret (Err (Wrapf "failed to save refreshed token" err))
              | None => ret (Ok newToken)
              end
          end
      end
  end.

Definition GetValidToken (tm : TokenManager) (userID provider serverName : string)
  : M (result ptr) :=
  r <- storage.GetToken userID provider serverName ;;
  match r with
  | Err err =>
      logger.Error err "token not found" ;;;
      ret (Err (App errors.ErrTokenNotFound))
  | Ok token =>
      expired <- isTokenExpired token ;;
      if expired then
        logger.Info "token expired, attempting refresh" ;;;
        r <- refreshToken tm userID provider serverName token ;;
        match r with
        | Err err =>
            logger.Error err "token refresh failed" ;;;
            ret (Err (Wrapf "token refresh failed" err))
        | Ok newToken =>
            logger.Info "token refreshed successfully" ;;;
            ret (Ok newToken)
        end
      else
        logger.Info "token is valid" ;;;
        ret (Ok token)
  end.

Definition IsTokenValid (tm : TokenManager) (userID provider serverName : string)
  : M (bool * option error) :=
  r <- storage.GetToken userID provider serverName ;;
  match r with
  | Err err => ret (false, None)
  | Ok token =>
      expired <- isTokenExpired token ;;
      ret (negb expired, None)
  end.

Definition ForceRefreshToken (tm : TokenManager) (userID provider serverName : string)
  : M (result ptr) :=
  r <- storage.GetToken userID provider serverName ;;
  match r with
  | Err err =>
      logger.Error err "token not found for force refresh" ;;;
      ret (Err (Errorf "OAuth token not found"))
  | Ok token =>
      logger.Info "force refreshing token" ;;;
      r <- refreshToken tm userID provider serverName token ;;
      match r with
      | Err err =>
          logger.Error err "force token refresh failed" ;;;
          ret (Err (Wrapf "force token refresh failed" err))
      | Ok newToken =>
          logger.Info "force token refresh successful" ;;;
          ret (Ok newToken)
      end
  end.

End oauth.
(** ** Package platforms: the registry *)

Module platforms.

(** [Registry.GetPlatform(name)] on the registry of [NewRegistry] *)
Definition GetPlatform (name : string) : result string :=
  if String.eqb name "x" || String.eqb name "youtube" || String.eqb name "facebook"
     || String.eqb name "tiktok" || String.eqb name "instagram"
  then Ok name
  else Err (Errorf ("platform " +:+ name +:+ " not supported")).

(** [platform.HandleOAuthCallback(ctx, code, state)] *)
Definition HandleOAuthCallback (platform code state : string) : option error :=
  if String.eqb platform "tiktok" then
    if String.eqb code "" then Some (Errorf "tiktok: authorization code is empty")
    else if String.eqb state "" then Some (Errorf "tiktok: state parameter is empty")
    else None
  else None.

End platforms.

(** ** Package handlers: AuthHandler.Callback *)

Module handlers.

Local Open Scope go_scope.

Record CallbackRequest := mkCallbackRequest {
  Provider : string;
  ServerName : string;
  UserID : string;
  State : string;
  Code : string;
  RedirectURI : string
}.

Record CallbackResponse := mkCallbackResponse {
  cr_Provider : string;
  cr_UserID : string;
  cr_ServerName : string;
  cr_ExpiresAt : Z;
  cr_ReferAt : Z;
  cr_Message : string
}.

(** what the handler writes with the [response] package *)
Inductive Reply :=
| Error (e : errors.AppError)
| ErrorWithDetail (e : errors.AppError) (detail : string)
| SuccessWithMessage (message : string) (data : CallbackResponse).

Record AuthHandler := NewAuthHandler { h_config : config.Config }.

(** The handler once the request body is bound to [req]. *)
Definition Callback (h : AuthHandler) (req : CallbackRequest) : M Reply :=
  match oauth.DecodeState (State req) with
  | Err err =>
      logger.Error err "failed to decode state" ;;;
      ret (Error errors.ErrInvalidState)
  | Ok statePayload =>
      logger.Info "decoded state" ;;;
      let userID := UserID req in
      let serverName := ServerName req in
      if negb (String.eqb (ServerName req) (oauth.ServerName statePayload)) then
        logger.Error (App errors.ErrInvalidState) "server_name mismatch" ;;;
        ret (Error errors.ErrInvalidState)
      else
        let platformUserID := oauth.UserID statePayload in
        logger.Info "processing OAuth callback" ;;;
        let redirectURI :=
          if String.eqb (RedirectURI req) ""
          then "https://test-pubproject.wondera.io/static/callback.html"
          else RedirectURI req in
        redirectURI <-
          (if String.eqb (Provider req) "x" then
             logger.Info "processing X platform redirect_uri" ;;;
             parsed <- ask (fun e => url_without_query e redirectURI) ;;
             match parsed with
             | Some cleaned =>
                 logger.Info "cleaned X platform redirect_uri" ;;; ret cleaned
             | None =>
                 logger.Error (Lib "parse") "failed to parse redirect_uri" ;;;
                 ret redirectURI
             end
           else ret redirectURI) ;;
        match config.GetServerOAuthConfig (h_config h) (Provider req) serverName redirectURI with
        | Err err =>
            logger.Error err "failed to get OAuth config" ;;;
            ret (ErrorWithDetail errors.ErrInvalidProvider (error_string err))
        | Ok oauthConfig =>
            v <-
              (if String.eqb (Provider req) "x" then
                 logger.Info "getting PKCE verifier" ;;;
                 r <- storage.GetAndDeletePKCEVerifier (State req) ;;
                 match r with
                 | Err err =>
                     logger.Error err "failed to get PKCE verifier" ;;; ret (Err err)
                 | Ok verifier =>
                     logger.Info "PKCE verifier retrieved" ;;; ret (Ok verifier)
                 end
               else ret (Ok "")) ;;
            match v with
            | Err _ =>
                ret (ErrorWithDetail errors.ErrInvalidState "PKCE verifier not found or expired")
            | Ok verifier =>
                r <- oauth.ExchangeCode oauthConfig (Code req) verifier ;;
                match r with
                | Err err =>
                    logger.Error err "token exchange failed" ;;;
                    ret (ErrorWithDetail errors.ErrInternalServer
                           ("token exchange failed: " +:+ error_string err))
                | Ok token =>
                    logger.Info "attempting to save token" ;;;
                    err <- storage.SaveToken userID (Provider req) serverName token ;;
                    match err with
                    | Some err =>
                        logger.Error err "failed to save token" ;;;
                        ret (ErrorWithDetail errors.ErrInternalServer "failed to save token")
                    | None =>
                        r <- storage.GetToken userID (Provider req) serverName ;;
                        match r with
                        | Err err =>
                            logger.Error err "failed to verify token save" ;;;
                            ret (ErrorWithDetail errors.ErrInternalServer
                                   "token save verification failed")
                        | Ok savedToken =>
                            saved <- load savedToken ;;
                            tok <- load token ;;
                            if negb (String.eqb (oauth2.AccessToken saved) (oauth2.AccessToken tok))
                            then
                              logger.Error (App errors.ErrInternalServer)
                                "token save verification failed - access token mismatch" ;;;
                              ret (ErrorWithDetail errors.ErrInternalServer
                                     "token save verification failed")
                            else
                              logger.Info "token saved and verified successfully" ;;;
                              match platforms.GetPlatform (Provider req) with
                              | Err err =>
                                  logger.Error err "failed to get platform" ;;;
                                  ret (ErrorWithDetail errors.ErrInvalidProvider (error_string err))
                              | Ok platformInstance =>
                                  match platforms.HandleOAuthCallback platformInstance
                                          (Code req) (State req) with
                                  | Some err =>
                                      logger.Error err "platform OAuth callback failed" ;;;
                                      logger.Info
                                        "platform callback failed but token saved successfully"
                                  | None => ret tt
                                  end ;;;
                                  logger.Info "OAuth flow completed successfully" ;;;
                                  now <- clock.Now ;;
                                  let expiresAt :=
                                    if negb (time.IsZero (oauth2.Expiry tok))
                                    then time.Unix (oauth2.Expiry tok) else 0 in
                                  let referAt := time.Unix now in
                                  ret (SuccessWithMessage "OAuth callback completed successfully"
                                         (mkCallbackResponse (Provider req) userID serverName
                                            expiresAt referAt
                                            ("OAuth callback completed for user " +:+ userID
                                             +:+ " provider " +:+ Provider req
                                             +:+ ". You may close this window.")))
                              end
                        end
                    end
                end
            end
        end
  end.

End handlers.
(** ** What the theorems observe *)

(** a call to a provider: an HTTP request of the package or a token endpoint
    call of the oauth2 library *)
Definition is_network (ev : Event) : bool :=
  match ev with
  | EvHTTP _ | EvOAuth2 _ => true
  | _ => false
  end.

Definition network_calls (w : World) : list Event := List.filter is_network (trace w).

(** a command sent to Redis on a [pkce:] or [token:] key or a ping *)
Definition is_redis (ev : Event) : bool :=
  match ev with
  | EvRedis _ => true
  | _ => false
  end.

Definition redis_commands (w : World) : list Event := List.filter is_redis (trace w).

(** the world with more events in its trace and nothing else changed *)
Definition with_trace (w : World) (evs : list Event) : World :=
  mkWorld (tokens w) (pkce w) (heap w) (rand_calls w) (trace w ++ evs).

(** The ways in which [RedisStorage.GetToken] fails on a key: the connection
    test fails, the read fails, there is no record, the record does not
    deserialize. *)
Definition storage_read_fails (e : Env) (w : World) (key : string) : Prop :=
  redis_fault e Ping <> None
  \/ redis_fault e (Get key) <> None
  \/ tokens w !! key = None
  \/ tokens w !! key = Some Garbled.

(** The requests of the refresh and upgrade calls, as the functions of the
    package build them. *)
Definition instagram_refresh_request (accessToken : string) : Request :=
  mkRequest "GET" "https://graph.instagram.com/refresh_access_token"
    (<["access_token" := accessToken]> (<["grant_type" := "ig_refresh_token"]> ∅))
    (<["Accept" := "application/json"]> ∅).

Definition facebook_exchange_request (cfg : oauth2cfg.Config) (accessToken : string) : Request :=
  mkRequest "GET" "https://graph.facebook.com/oauth/access_token"
    (<["fb_exchange_token" := accessToken]>
       (<["client_secret" := oauth2cfg.ClientSecret cfg]>
          (<["client_id" := oauth2cfg.ClientID cfg]>
             (<["grant_type" := "fb_exchange_token"]> ∅))))
    (<["Accept" := "application/json"]> ∅).

Definition instagram_exchange_request (cfg : oauth2cfg.Config) (accessToken : string) : Request :=
  mkRequest "GET" "https://graph.instagram.com/access_token"
    (<["access_token" := accessToken]>
       (<["client_secret" := oauth2cfg.ClientSecret cfg]>
          (<["grant_type" := "ig_exchange_token"]> ∅)))
    (<["Accept" := "application/json"]> ∅).

Definition x_exchange_request (cfg : oauth2cfg.Config) (code verifier : string) : Request :=
  mkRequest "POST" (oauth.TokenURL cfg)
    (<["code_verifier" := verifier]>
       (<["redirect_uri" := oauth2cfg.RedirectURL cfg]>
          (<["client_id" := oauth2cfg.ClientID cfg]>
             (<["grant_type" := "authorization_code"]> (<["code" := code]> ∅)))))
    (<["Authorization" := oauth.basic_auth cfg]>
       (<["Accept" := "application/json"]>
          (<["Content-Type" := "application/x-www-form-urlencoded"]> ∅))).

(** the token that the exchange and refresh functions build from a decoded
    response, with the refresh token they choose *)
Definition token_of (now : Z) (tr : oauth.tokenResponse) (refresh : string) : oauth2.Token :=
  oauth2.mkToken (oauth.r_AccessToken tr) (oauth.r_TokenType tr) refresh
    (if 0 <? oauth.r_ExpiresIn tr
     then time.Add now (time.wrap64 (oauth.r_ExpiresIn tr * time.Second))
     else 0).

(** a reply that the three-field response decoder accepts *)
Definition reply_ok3 (r : HttpReply) : option oauth.tokenResponse :=
  match r with
  | Response status body =>
      if status =? 200 then
        match oauth.unmarshal_tokenResponse3 body with
        | Ok tr => Some tr
        | Err _ => None
        end
      else None
  | _ => None
  end.

(** the same for the five-field decoder of the X calls *)
Definition reply_ok5 (r : HttpReply) : option oauth.tokenResponse :=
  match r with
  | Response status body =>
      if status =? 200 then
        match oauth.unmarshal_tokenResponse5 body with
        | Ok tr => Some tr
        | Err _ => None
        end
      else None
  | _ => None
  end.

(** the error of an exchange or refresh call whose reply is not accepted *)
Definition http_error (what : string) (r : HttpReply) : error :=
  match r with
  | SendFailed err => Wrapf "failed to send request" err
  | ReadFailed err => Wrapf "failed to read response" err
  | Response status body =>
      if negb (status =? 200) then StatusErr what status body
      else Wrapf "failed to parse token response" (Lib "json: cannot unmarshal")
  end.

(** the world after a new token object and more events *)
Definition alloc (w : World) (t : oauth2.Token) (evs : list Event) : World :=
  mkWorld (tokens w) (pkce w) (heap w ++ [t]) (rand_calls w) (trace w ++ evs).

(** What the refresh step leaves in the token object it is given. *)
Definition after_refresh (provider : string) (t : oauth2.Token) : oauth2.Token :=
  if String.eqb provider "instagram" && negb (String.eqb (oauth2.AccessToken t) "")
  then oauth2.with_RefreshToken t (oauth2.AccessToken t)
  else t.

(** [w'] differs from [w] by new objects and events only *)
Definition grows (w w' : World) : Prop :=
  tokens w' = tokens w /\ pkce w' = pkce w
  /\ (exists hs, heap w' = heap w ++ hs)
  /\ (exists evs, trace w' = trace w ++ evs).

Definition x_refresh_request (cfg : oauth2cfg.Config) (refreshToken : string) : Request :=
  mkRequest "POST" (oauth.TokenURL cfg)
    (<["client_id" := oauth2cfg.ClientID cfg]>
       (<["grant_type" := "refresh_token"]> (<["refresh_token" := refreshToken]> ∅)))
    (<["Authorization" := oauth.basic_auth cfg]>
       (<["Accept" := "application/json"]>
          (<["Content-Type" := "application/x-www-form-urlencoded"]> ∅))).

(** The effect of a lifecycle operation that read the token [t] of an
    identity into the object [p0]: the object holds [t], or for Instagram
    [t] with its RefreshToken overwritten; the objects that existed before
    are as they were; the record of the identity is as it was or is the
    whole of a token object newer than [p0]. *)
Definition lifecycle_effect (userID provider serverName : string) (t : oauth2.Token)
    (p0 : ptr) (w : World) (out : result ptr * World) : Prop :=
  let '(r, w') := out in
  (heap w' !! p0 = Some t
   \/ provider = "instagram" /\ heap w' !! p0 = Some (after_refresh provider t))
  /\ (forall q, (q < length (heap w))%nat -> heap w' !! q = heap w !! q)
  /\ (tokens w' = tokens w
      \/ exists np nt,
           r = Ok np /\ np <> p0 /\ heap w' !! np = Some nt
           /\ tokens w' = <[storage.TokenKey userID provider serverName := JsonOf nt]> (tokens w)).

(** the long-lived-token upgrade call that follows the code exchange for
    Instagram and Facebook *)
Definition upgrade_request (cfg : oauth2cfg.Config) (accessToken : string) : Request :=
  if String.eqb (oauth.TokenURL cfg) config.InstagramTokenURL
  then instagram_exchange_request cfg accessToken
  else facebook_exchange_request cfg accessToken.

(** the code exchange that the oauth2 library performs for a verifier *)
Definition code_exchange (cfg : oauth2cfg.Config) (code verifier : string) : LibCall :=
  LibExchange cfg code (if String.eqb verifier "" then None else Some verifier).

(** the redirect URI that the callback handler puts in the OAuth config *)
Definition callback_redirect (e : Env) (req : handlers.CallbackRequest) : string :=
  let redirectURI :=
    if String.eqb (handlers.RedirectURI req) ""
    then "https://test-pubproject.wondera.io/static/callback.html"
    else handlers.RedirectURI req in
  if String.eqb (handlers.Provider req) "x" then
    match url_without_query e redirectURI with
    | Some cleaned => cleaned
    | None => redirectURI
    end
  else redirectURI.

(** the OAuth config of the X provider of a tenant *)
Definition x_config (sc : config.ServerOAuthConfig) (redirect : string) : oauth2cfg.Config :=
  config.provider_config (config.X sc)
    (oauth2cfg.mkEndpoint config.XAuthURL config.XTokenURL) redirect.

(** a string all of whose characters are plain: neither a line break nor
    outside ASCII *)
Fixpoint plain (s : string) : Prop :=
  match s with
  | "" => True
  | String c r =>
      (Ascii.eqb c bytes.CR || Ascii.eqb c bytes.LF = false
       /\ (bytes.byte c <? 0x80)%N = true
       /\ json.escape_byte c = String c "")
      /\ plain r
  end.

(** What a successful decoding of a sequence of several bytes tells. *)
Definition decodes (s : string) (r : N) (size : nat) (prefix : string) : Prop :=
  bytes.take size s = prefix
  /\ String.length prefix = size
  /\ utf8.EncodeRune r = prefix
  /\ (forall rest, utf8.DecodeRuneInString (prefix +:+ rest) = (r, size))
  /\ (forall rest, bytes.drop size (prefix +:+ rest) = rest)
  /\ (exists rest, s = prefix +:+ rest /\ bytes.drop size s = rest).

(** The members of the JSON object that [json.Marshal] writes for a state
    payload, as the parser reads them. *)
Definition state_members (p : oauth.StatePayload) : list (string * json.value) :=
  [("uid", json.Str (oauth.UserID p)); ("server", json.Str (oauth.ServerName p));
   ("n", json.Str (oauth.Nonce p))].

(** All three fields of a state payload are valid UTF-8. *)
Definition valid_payload (p : oauth.StatePayload) : Prop :=
  utf8.ValidString (oauth.UserID p) = true
  /\ utf8.ValidString (oauth.ServerName p) = true
  /\ utf8.ValidString (oauth.Nonce p) = true.

(** The bytes that the [k]-th call of [rand.Read] puts into a buffer of
    length [n]. *)
Definition drawn (e : Env) (k n : nat) : string :=
  string_of_list_ascii (List.map (entropy e k) (seq 0 n)).

(** What a refresh call does, whatever the provider and the reply: new
    objects and events only, and a token object newer than all others on
    success. *)
Definition fresh_result (w w' : World) (r : result ptr) : Prop :=
  grows w w' /\ rand_calls w' = rand_calls w
  /\ match r with
     | Ok p => (length (heap w) <= p)%nat /\ is_Some (heap w' !! p)
     | Err _ => True
     end.
(** ** Concrete runs

    A tenant [tenantX] with all five providers configured, a clock, and
    provider endpoints that answer the refresh, upgrade and exchange calls
    with a token document. *)

Module scenario.

Import bytes.

Definition now0 : Z := 63900000000000000000.

(** a JSON string literal of plain text *)
Definition lit (s : string) : string := String dquote (s +:+ String dquote "").

(** [{"access_token":a,"token_type":"bearer","expires_in":n}] *)
Definition token_document (a n : string) : string :=
  "{" +:+ lit "access_token" +:+ ":" +:+ lit a +:+ ","
      +:+ lit "token_type" +:+ ":" +:+ lit "bearer" +:+ ","
      +:+ lit "expires_in" +:+ ":" +:+ n +:+ "}".

Definition provider := config.mkProviderConfig "client-id" "client-secret" ["read"; "write"].

Definition provider_set : config.ServerOAuthConfig :=
  config.mkServerOAuthConfig provider provider provider provider provider.

Definition conf : config.Config := config.mkConfig {[ "tenantX" := provider_set ]}.

Definition tm : oauth.TokenManager := oauth.NewTokenManager conf.
Definition h : handlers.AuthHandler := handlers.NewAuthHandler conf.

(** the providers: Instagram and Facebook refresh and upgrade calls and the
    X exchange succeed *)
Definition providers_up (r : Request) : HttpReply :=
  if String.eqb (URL r) "https://graph.instagram.com/refresh_access_token"
  then Response 200 (token_document "new456" "5184000")
  else if String.eqb (URL r) "https://graph.facebook.com/oauth/access_token"
  then Response 200 (token_document "fb789" "5184000")
  else if String.eqb (URL r) "https://api.x.com/2/oauth2/token"
  then Response 200 (token_document "xtok" "7200")
  else Response 404 "not found".

(** the upgrade endpoints are down *)
Definition upgrade_down (r : Request) : HttpReply :=
  Response 503 "service unavailable".

Definition short_lived : oauth2.Token := oauth2.mkToken "short" "bearer" "" (now0 + time.Hour).

Definition library (c : LibCall) : result oauth2.Token :=
  match c with
  | LibExchange _ _ _ => Ok short_lived
  | LibRefresh _ _ => Err (Lib "oauth2: cannot fetch token")
  end.

Definition env_with (net : Request -> HttpReply) (faults : RedisCmd -> option error) : Env :=
  mkEnv now0 faults net library (fun _ i => ascii_of_nat (17 * i)) (fun _ => None)
    (fun u => Some u).

Definition env : Env := env_with providers_up (fun _ => None).

Definition redis_down (c : RedisCmd) : option error := Some (Lib "dial tcp: connection refused").

(** a stale Instagram token as the spec's scenario has it: expired one
    second ago, no refresh token *)
Definition stale_instagram : oauth2.Token :=
  oauth2.mkToken "tok123" "bearer" "" (now0 - time.Second).

(** a stale YouTube token without a refresh token *)
Definition stale_youtube : oauth2.Token :=
  oauth2.mkToken "ya29" "Bearer" "" (now0 - time.Second).

(** a stale Facebook token with its refresh credential *)
Definition stale_facebook : oauth2.Token :=
  oauth2.mkToken "fb1" "bearer" "fb1" (now0 - time.Second).

Definition world : World :=
  mkWorld
    (<[storage.TokenKey "u1" "instagram" "tenantX" := JsonOf stale_instagram]>
       (<[storage.TokenKey "u1" "youtube" "tenantX" := JsonOf stale_youtube]>
          (<[storage.TokenKey "u1" "facebook" "tenantX" := JsonOf stale_facebook]>
             (<[storage.TokenKey "u1" "tiktok" "tenantX" := Garbled]> ∅))))
    ∅ [] 0 [].

End scenario.

(** ** A login through X, as the handlers run it *)

Module login.

(** the state that [StartAuth] made with [EncodeState] for the user id
    given at the start of the flow and the tenant *)
Definition state_for (userID serverName : string) : string :=
  match fst (oauth.EncodeState userID serverName scenario.env scenario.world) with
  | Ok s => s
  | Err _ => ""
  end.

Definition state : string := state_for "user-at-start" "tenantX".

Definition verifier : string :=
  "dBjftJeZ4CVP-mB92K27uhbUJU1p1r_wW1gFWFOEjXkdBjftJeZ4CVP-mB92K27u".

(** Redis after [StartAuth]: the verifier is stored under the state *)
Definition world : World :=
  mkWorld ∅ {[ storage.PKCEKey state := verifier ]} [] 1 [].

(** the callback of the same tenant, whose body names another user id
    than the one the flow was started with *)
Definition request : handlers.CallbackRequest :=
  handlers.mkCallbackRequest "x" "tenantX" "user-at-callback" state "abc"
    "https://app.example/callback".

(** the callback of another tenant with the same state *)
Definition foreign_request : handlers.CallbackRequest :=
  handlers.mkCallbackRequest "x" "tenantY" "user-at-callback" state "abc"
    "https://app.example/callback".

End login.
(** ** What the further theorems observe *)

(** the providers whose refresh the package performs itself *)
Definition custom_refresh (cfg : oauth2cfg.Config) : bool :=
  String.eqb (oauth.TokenURL cfg) config.XTokenURL
  || String.eqb (oauth.TokenURL cfg) config.InstagramTokenURL
  || String.eqb (oauth.TokenURL cfg) config.FacebookTokenURL.

(** the provider call of [OAuthService.RefreshToken] for a credential *)
Definition refresh_call (cfg : oauth2cfg.Config) (credential : string) : Event :=
  if String.eqb (oauth.TokenURL cfg) config.XTokenURL
  then EvHTTP (x_refresh_request cfg credential)
  else if String.eqb (oauth.TokenURL cfg) config.InstagramTokenURL
  then EvHTTP (instagram_refresh_request credential)
  else if String.eqb (oauth.TokenURL cfg) config.FacebookTokenURL
  then EvHTTP (facebook_exchange_request cfg credential)
  else EvOAuth2 (LibRefresh cfg credential).

(** the calls that [RefreshToken] makes: one, or none when the oauth2
    library is asked to refresh without a refresh token *)
Definition refresh_calls (cfg : oauth2cfg.Config) (credential : string) : list Event :=
  if negb (custom_refresh cfg) && String.eqb credential ""
  then []
  else [refresh_call cfg credential].

(** the token or the error that the provider's answer to the refresh call
    amounts to *)
Definition refresh_outcome (e : Env) (cfg : oauth2cfg.Config) (credential : string)
  : result oauth2.Token :=
  if String.eqb (oauth.TokenURL cfg) config.XTokenURL then
    match reply_ok5 (http e (x_refresh_request cfg credential)) with
    | Some tr => Ok (token_of (now e) tr (oauth.r_RefreshToken tr))
    | None => Err (http_error "token refresh failed" (http e (x_refresh_request cfg credential)))
    end
  else if String.eqb (oauth.TokenURL cfg) config.InstagramTokenURL then
    match reply_ok3 (http e (instagram_refresh_request credential)) with
    | Some tr => Ok (token_of (now e) tr "")
    | None =>
        Err (http_error "token refresh failed" (http e (instagram_refresh_request credential)))
    end
  else if String.eqb (oauth.TokenURL cfg) config.FacebookTokenURL then
    match reply_ok3 (http e (facebook_exchange_request cfg credential)) with
    | Some tr => Ok (token_of (now e) tr (oauth.r_AccessToken tr))
    | None =>
        Err (http_error "token refresh failed"
               (http e (facebook_exchange_request cfg credential)))
    end
  else if String.eqb credential "" then
    Err (Wrapf "token refresh failed"
           (Lib "oauth2: token expired and refresh token is not set"))
  else
    match oauth2_endpoint e (LibRefresh cfg credential) with
    | Ok t => Ok t
    | Err err => Err (Wrapf "token refresh failed" err)
    end.

(** the refresh credential that the lifecycle manager takes from a token *)
Definition credential (provider : string) (t : oauth2.Token) : string :=
  if String.eqb provider "instagram" then oauth2.AccessToken t else oauth2.RefreshToken t.

(** the first call of [ExchangeCode]: the package's own request for X with
    a verifier, the oauth2 library's exchange otherwise *)
Definition exchange_call (cfg : oauth2cfg.Config) (code verifier : string) : Event :=
  if negb (String.eqb verifier "") && String.eqb (oauth.TokenURL cfg) config.XTokenURL
  then EvHTTP (x_exchange_request cfg code verifier)
  else EvOAuth2 (code_exchange cfg code verifier).

Definition exchange_outcome (e : Env) (cfg : oauth2cfg.Config) (code verifier : string)
  : result oauth2.Token :=
  if negb (String.eqb verifier "") && String.eqb (oauth.TokenURL cfg) config.XTokenURL then
    match reply_ok5 (http e (x_exchange_request cfg code verifier)) with
    | Some tr => Ok (token_of (now e) tr (oauth.r_RefreshToken tr))
    | None =>
        Err (http_error "token exchange failed" (http e (x_exchange_request cfg code verifier)))
    end
  else oauth2_endpoint e (code_exchange cfg code verifier).

(** the providers whose short-lived token is upgraded after the exchange *)
Definition upgrades (cfg : oauth2cfg.Config) : bool :=
  String.eqb (oauth.TokenURL cfg) config.InstagramTokenURL
  || String.eqb (oauth.TokenURL cfg) config.FacebookTokenURL.

(** the characters of [s] are all in the alphabet *)
Definition within (alphabet s : string) : Prop :=
  Forall (fun c => is_Some (bytes.index_of c alphabet)) (list_ascii_of_string s).

(** ** crypto/sha256

    [sha256.Sum256] as the generic block function of the Go library
    computes it, on 32-bit words kept as [N]. *)

Module sha256.

Local Open Scope N_scope.

Definition add32 (x y : N) : N := (x + y) mod 2 ^ 32.

(** [bits.RotateLeft32(x, -n)] *)
Definition rotr (n x : N) : N :=
  N.lor (N.shiftr x n) (N.land (N.shiftl x (32 - n)) 0xFFFFFFFF).

(** [^x] on 32 bits *)
Definition not32 (x : N) : N := N.lxor x 0xFFFFFFFF.

(** The library holds its constants as tables.  They are, as FIPS 180-4
    defines them, the first 32 bits of the fractional parts of the cube
    roots of the first 64 primes (the round constants) and of the square
    roots of the first 8 primes (the initial hash value). *)

Definition is_prime (n : N) : bool :=
  forallb (fun d => negb (n mod d =? 0)) (List.map N.of_nat (seq 2 (N.to_nat n - 2))).

Fixpoint primes_from (fuel : nat) (n : N) (count : nat) : list N :=
  match fuel, count with
  | O, _ | _, O => []
  | S fuel', S count' =>
      if is_prime n then n :: primes_from fuel' (n + 1) count'
      else primes_from fuel' (n + 1) count
  end.

(** the integer part of the [k]-th root of [x], below [2^40] *)
Definition root (k x : N) : N :=
  fold_left (fun r i => if (r + 2 ^ i) ^ k <=? x then r + 2 ^ i else r)
    (List.rev (List.map N.of_nat (seq 0 40))) 0.

Definition _K : list N :=
  Eval vm_compute in
    List.map (fun p => root 3 (p * 2 ^ 96) mod 2 ^ 32) (primes_from 400 2 64).

Definition _init : list N :=
  Eval vm_compute in
    List.map (fun p => root 2 (p * 2 ^ 64) mod 2 ^ 32) (primes_from 400 2 8).

(** the words [w[0..15]] of a block: four bytes each, big-endian *)
Fixpoint words (p : list N) : list N :=
  match p with
  | b0 :: b1 :: b2 :: b3 :: rest =>
      N.lor (N.lor (N.lor (N.shiftl b0 24) (N.shiftl b1 16)) (N.shiftl b2 8)) b3
      :: words rest
  | _ => []
  end.

(** [w[16..63]]; [rev] holds the words so far, the latest first *)
Fixpoint extend (n : nat) (rev : list N) : list N :=
  match n with
  | O => rev
  | S n' =>
      let v1 := nth 1 rev 0 in
      let t1 := N.lxor (N.lxor (rotr 17 v1) (rotr 19 v1)) (N.shiftr v1 10) in
      let v2 := nth 14 rev 0 in
      let t2 := N.lxor (N.lxor (rotr 7 v2) (rotr 18 v2)) (N.shiftr v2 3) in
      extend n' (add32 (add32 (add32 t1 (nth 6 rev 0)) t2) (nth 15 rev 0) :: rev)
  end.

Definition schedule (block : list N) : list N :=
  List.rev (extend 48 (List.rev (words block))).

Record state := mkState { a : N; b : N; c : N; d : N; e : N; f : N; g : N; h : N }.

Definition round (s : state) (kw : N * N) : state :=
  let '(k, w) := kw in
  let t1 :=
    add32 (add32 (add32 (add32 (h s)
      (N.lxor (N.lxor (rotr 6 (e s)) (rotr 11 (e s))) (rotr 25 (e s))))
      (N.lxor (N.land (e s) (f s)) (N.land (not32 (e s)) (g s))))
      k) w in
  let t2 :=
    add32 (N.lxor (N.lxor (rotr 2 (a s)) (rotr 13 (a s))) (rotr 22 (a s)))
      (N.lxor (N.lxor (N.land (a s) (b s)) (N.land (a s) (c s))) (N.land (b s) (c s))) in
  mkState (add32 t1 t2) (a s) (b s) (c s) (add32 (d s) t1) (e s) (f s) (g s).

(** one block of [blockGeneric] *)
Definition block (s : state) (p : list N) : state :=
  let s' := fold_left round (combine _K (schedule p)) s in
  mkState (add32 (a s) (a s')) (add32 (b s) (b s')) (add32 (c s) (c s'))
    (add32 (d s) (d s')) (add32 (e s) (e s')) (add32 (f s) (f s'))
    (add32 (g s) (g s')) (add32 (h s) (h s')).

Fixpoint blocks (n : nat) (s : state) (p : list N) : state :=
  match n with
  | O => s
  | S n' => blocks n' (block s (firstn 64 p)) (skipn 64 p)
  end.

(** the bytes of a 64-bit or 32-bit number, big-endian *)
Definition be_bytes (count : nat) (x : N) : list N :=
  List.map (fun i => N.land (N.shiftr x (8 * N.of_nat i)) 0xFF) (List.rev (seq 0 count)).

(** the message with the padding of [checkSum]: a byte 0x80, zero bytes up
    to 56 modulo 64, and the length in bits on eight bytes *)
Definition padded (msg : list N) : list N :=
  let len := length msg in
  let zeros := ((55 + 64 - len mod 64) mod 64)%nat in
  msg ++ [0x80] ++ repeat 0 zeros ++ be_bytes 8 (8 * N.of_nat len).

Definition Sum256 (data : string) : string :=
  let p := padded (List.map bytes.byte (list_ascii_of_string data)) in
  let s := blocks (length p / 64)
             (mkState (nth 0 _init 0) (nth 1 _init 0) (nth 2 _init 0) (nth 3 _init 0)
                (nth 4 _init 0) (nth 5 _init 0) (nth 6 _init 0) (nth 7 _init 0)) p in
  string_of_list_ascii
    (List.map ascii_of_N
       (List.concat (List.map (be_bytes 4) [a s; b s; c s; d s; e s; f s; g s; h s]))).

End sha256.

(** ** strings and net/url *)

Module strings.

(** [strings.Join(elems, sep)] *)
Fixpoint Join (elems : list string) (sep : string) : string :=
  match elems with
  | [] => ""
  | [x] => x
  | x :: rest => x +:+ sep +:+ Join rest sep
  end.

End strings.

Module url.

Definition upperhex : string := "0123456789ABCDEF".

Definition hexchar (v : N) : ascii :=
  match String.get (N.to_nat v) upperhex with
  | Some c => c
  | None => "0"%char
  end.

(** [shouldEscape(c, encodeQueryComponent)] *)
Definition shouldEscape (c : ascii) : bool :=
  let b := bytes.byte c in
  if ((0x61 <=? b) && (b <=? 0x7A) || (0x41 <=? b) && (b <=? 0x5A)
      || (0x30 <=? b) && (b <=? 0x39))%N then false
  else if Ascii.eqb c "-" || Ascii.eqb c "_" || Ascii.eqb c "." || Ascii.eqb c "~" then false
  else true.

(** [url.QueryEscape(s)] *)
Fixpoint QueryEscape (s : string) : string :=
  match s with
  | "" => ""
  | String c r =>
      if shouldEscape c then
        if Ascii.eqb c " " then String "+" (QueryEscape r)
        else
          String "%"
            (String (hexchar (N.shiftr (bytes.byte c) 4))
               (String (hexchar (N.land (bytes.byte c) 15)) (QueryEscape r)))
      else String c (QueryEscape r)
  end.

(** [sort.Strings] on the keys of the pairs *)
Fixpoint insert_sorted (kv : string * string) (l : list (string * string))
  : list (string * string) :=
  match l with
  | [] => [kv]
  | kv' :: rest =>
      if String.leb (fst kv) (fst kv') then kv :: l else kv' :: insert_sorted kv rest
  end.

Definition sorted (m : gmap string string) : list (string * string) :=
  List.fold_right insert_sorted [] (map_to_list m).

(** [v.Encode()] for values with one string each *)
Definition Encode (v : gmap string string) : string :=
  strings.Join
    (List.map (fun kv => QueryEscape (fst kv) +:+ "=" +:+ QueryEscape (snd kv)) (sorted v))
    "&".

End url.

(** ** golang.org/x/oauth2: AuthCodeURL *)

Module oauth2url.

(** the [url.Values] that [AuthCodeURL] encodes; [opts] are the
    [SetAuthURLParam] options in their order *)
Definition values (cfg : oauth2cfg.Config) (state : string) (opts : list (string * string))
  : gmap string string :=
  let v : gmap string string :=
    <["client_id" := oauth2cfg.ClientID cfg]> (<["response_type" := "code"]> ∅) in
  let v := if negb (String.eqb (oauth2cfg.RedirectURL cfg) "")
           then <["redirect_uri" := oauth2cfg.RedirectURL cfg]> v else v in
  let v := match oauth2cfg.Scopes cfg with
           | [] => v
           | _ => <["scope" := strings.Join (oauth2cfg.Scopes cfg) " "]> v
           end in
  let v := if negb (String.eqb state "") then <["state" := state]> v else v in
  List.fold_left (fun v kv => <[fst kv := snd kv]> v) opts v.

Fixpoint contains_byte (c : ascii) (s : string) : bool :=
  match s with
  | "" => false
  | String d r => Ascii.eqb c d || contains_byte c r
  end.

(** [c.AuthCodeURL(state, opts...)] *)
Definition AuthCodeURL (cfg : oauth2cfg.Config) (state : string) (opts : list (string * string))
  : string :=
  let authURL := oauth2cfg.AuthURL (oauth2cfg.Endpoint_ cfg) in
  authURL +:+ (if contains_byte "?" authURL then "&" else "?")
    +:+ url.Encode (values cfg state opts).

(** [oauth2.AccessTypeOffline] *)
Definition AccessTypeOffline : string * string := ("access_type", "offline").

End oauth2url.

(** ** Package oauth: the authorization URL *)

Module OAuthService.

Local Open Scope go_scope.

(** [PKCEChallenge(verifier)] *)
Definition PKCEChallenge (verifier : string) : string :=
  base64.RawURLEncoding.EncodeToString (sha256.Sum256 verifier).

(** [s.GenerateAuthURL(state, usePKCE)]: the URL and the verifier *)
Definition GenerateAuthURL (cfg : oauth2cfg.Config) (state : string) (usePKCE : bool)
  : M (result (string * string)) :=
  if usePKCE then
    r <- oauth.RandStringURLSafe 64 ;;
    match r with
    | Err err => ret (Err (Wrapf "failed to generate PKCE verifier" err))
    | Ok verifier =>
        let codeChallenge := PKCEChallenge verifier in
        ret (Ok (oauth2url.AuthCodeURL cfg state
                   [("code_challenge", codeChallenge);
                    ("code_challenge_method", "S256");
                    ("response_type", "code");
                    ("scope", strings.Join (oauth2cfg.Scopes cfg) " ")],
                 verifier))
    end
  else if String.eqb (oauth2cfg.AuthURL (oauth2cfg.Endpoint_ cfg))
            "https://accounts.google.com/o/oauth2/auth" then
    ret (Ok (oauth2url.AuthCodeURL cfg state
               [oauth2url.AccessTypeOffline; ("prompt", "consent")], ""))
  else
    ret (Ok (oauth2url.AuthCodeURL cfg state [oauth2url.AccessTypeOffline], "")).

End OAuthService.

(** ** Package handlers: the other handlers of AuthHandler *)

Module AuthHandler.

Local Open Scope go_scope.

Record IsAuthorizedRequest := mkIsAuthorizedRequest {
  ia_Provider : string;
  ia_UserID : string;
  ia_ServerName : string
}.

Record IsAuthorizedResponse := mkIsAuthorizedResponse { IsAuthorized_ : bool }.

Record RefreshTokenRequest := mkRefreshTokenRequest {
  rt_Provider : string;
  rt_UserID : string;
  rt_ServerName : string
}.

Record RefreshTokenResponse := mkRefreshTokenResponse {
  rr_Provider : string;
  rr_UserID : string;
  rr_ServerName : string;
  rr_ExpiresAt : Z;
  rr_RefreshedAt : Z;
  rr_Message : string
}.

(** what a handler writes with the [response] package *)
Inductive Reply (A : Type) :=
| Success (data : A)
| SuccessWithMessage (message : string) (data : A)
| Error (e : errors.AppError)
| ErrorWithDetail (e : errors.AppError) (detail : string)
| InternalServerError (message : string).
Arguments Success {A} data.
Arguments SuccessWithMessage {A} message data.
Arguments Error {A} e.
Arguments ErrorWithDetail {A} e detail.
Arguments InternalServerError {A} message.

(** [h.tokenManager], made by [NewAuthHandler] from the handler's config *)
Definition tokenManager (h : handlers.AuthHandler) : oauth.TokenManager :=
  oauth.NewTokenManager (handlers.h_config h).

(** The handler once the request body is bound to [req]. *)
Definition IsAuthorized (h : handlers.AuthHandler) (req : IsAuthorizedRequest)
  : M (Reply IsAuthorizedResponse) :=
  r <- oauth.IsTokenValid (tokenManager h) (ia_UserID req) (ia_Provider req)
         (ia_ServerName req) ;;
  match r with
  | (_, Some err) =>
      logger.Error err "failed to check token validity" ;;;
      ret (Error errors.ErrInternalServer)
  | (isValid, None) =>
      if negb isValid then
        logger.Error (App errors.ErrTokenExpired) "token not valid" ;;;
        ret (Error errors.ErrTokenExpired)
      else ret (Success (mkIsAuthorizedResponse true))
  end.

(** The handler once the request body is bound to [req]. *)
Definition RefreshToken (h : handlers.AuthHandler) (req : RefreshTokenRequest)
  : M (Reply RefreshTokenResponse) :=
  r <- oauth.ForceRefreshToken (tokenManager h) (rt_UserID req) (rt_Provider req)
         (rt_ServerName req) ;;
  match r with
  | Err err =>
      logger.Error err "failed to refresh token" ;;;
      if String.eqb (error_string err) "OAuth token not found" then
        ret (ErrorWithDetail errors.ErrTokenNotFound
               "Token not found. Please re-authorize your account.")
      else
        ret (ErrorWithDetail errors.ErrInternalServer
               ("token refresh failed: " +:+ error_string err))
  | Ok newToken =>
      tok <- load newToken ;;
      let expiresAt :=
        if negb (time.IsZero (oauth2.Expiry tok)) then time.Unix (oauth2.Expiry tok) else 0 in
      now <- clock.Now ;;
      let refreshedAt := time.Unix now in
      logger.Info "token refreshed successfully" ;;;
      ret (SuccessWithMessage "Token refreshed successfully"
             (mkRefreshTokenResponse (rt_Provider req) (rt_UserID req) (rt_ServerName req)
                expiresAt refreshedAt
                ("Token refreshed successfully for user " +:+ rt_UserID req
                 +:+ " on " +:+ rt_Provider req +:+ " platform")))
  end.

Record StartAuthRequest := mkStartAuthRequest {
  sa_Provider : string;
  sa_UserID : string;
  sa_RedirectURI : string;
  sa_ServerName : string
}.

Record StartAuthResponse := mkStartAuthResponse {
  AuthURL : string;
  sr_Provider : string;
  sr_UserID : string;
  sr_ServerName : string
}.

(** The handler once the request body is bound to [req]. *)
Definition StartAuth (h : handlers.AuthHandler) (req : StartAuthRequest)
  : M (Reply StartAuthResponse) :=
  match config.GetServerOAuthConfig (handlers.h_config h) (sa_Provider req)
          (sa_ServerName req) (sa_RedirectURI req) with
  | Err err =>
      logger.Error err "failed to get OAuth config" ;;;
      ret (ErrorWithDetail errors.ErrInvalidProvider (error_string err))
  | Ok oauthConfig =>
      r <- oauth.EncodeState (sa_UserID req) (sa_ServerName req) ;;
      match r with
      | Err err =>
          logger.Error err "failed to encode state" ;;;
          ret (InternalServerError "failed to generate state")
      | Ok state =>
          let usePKCE := String.eqb (sa_Provider req) "x" in
          r <- OAuthService.GenerateAuthURL oauthConfig state usePKCE ;;
          match r with
          | Err err =>
              logger.Error err "failed to generate auth URL" ;;;
              ret (InternalServerError "failed to generate auth URL")
          | Ok (authURL, verifier) =>
              let finish :=
                logger.Info "OAuth flow initiated" ;;;
                ret (Success (mkStartAuthResponse authURL (sa_Provider req) (sa_UserID req)
                                (sa_ServerName req))) in
              if usePKCE && negb (String.eqb verifier "") then
                logger.Info "saving PKCE verifier" ;;;
                err <- storage.SavePKCEVerifier state verifier ;;
                match err with
                | Some err =>
                    logger.Error err "failed to save PKCE verifier" ;;;
                    ret (InternalServerError "failed to save PKCE verifier")
                | None =>
                    logger.Info "PKCE verifier saved successfully" ;;;
                    finish
                end
              else if usePKCE then
                logger.Error (App errors.ErrInternalServer)
                  "PKCE required but verifier is empty" ;;;
                ret (InternalServerError "PKCE verifier generation failed")
              else finish
          end
      end
  end.

End AuthHandler.
(** * Theorems *)

(** ** Lists and traces *)

Lemma lookup_snoc {A} (l : list A) (x : A) : (l ++ [x]) !! length l = Some x.
Proof. now apply list_lookup_middle. Qed.

Lemma lookup_snoc2 {A} (l : list A) (a b : A) : (l ++ [a; b]) !! S (length l) = Some b.
Proof. induction l as [|x l IH]; simpl; [reflexivity | exact IH]. Qed.

Lemma alter_snoc {A} (f : A -> A) (l : list A) (x : A) :
  alter f (length l) (l ++ [x]) = l ++ [f x].
Proof. induction l as [|y l IH]; simpl; [reflexivity | now rewrite <- IH]. Qed.

Lemma network_calls_app w evs tk pk hp rc :
  network_calls (mkWorld tk pk hp rc (trace w ++ evs))
  = network_calls w ++ List.filter is_network evs.
Proof. unfold network_calls. simpl. apply List.filter_app. Qed.

(** ** The Credential Store *)

Ltac norm_trace := rewrite <- ?app_assoc; simpl.

Ltac run_storage :=
  unfold storage.GetToken, storage.SaveToken, redis.ping, redis.get_token, redis.set_token,
    bind, emit, ask, get_world, put_tokens, ret, new, load; simpl.

Lemma GetToken_found u p s e w t :
  redis_fault e Ping = None ->
  redis_fault e (Get (storage.TokenKey u p s)) = None ->
  tokens w !! storage.TokenKey u p s = Some (JsonOf t) ->
  storage.GetToken u p s e w =
    (Ok (length (heap w)),
     mkWorld (tokens w) (pkce w) (heap w ++ [t]) (rand_calls w)
       (trace w ++ [EvRedis Ping; EvRedis (Get (storage.TokenKey u p s))])).
Proof.
  intros Hp Hg Ht. run_storage. rewrite Hp. simpl. rewrite Hg, Ht. simpl.
  now norm_trace.
Qed.

(** Whatever happens, [GetToken] either hands out a new object holding the
    stored token, or fails having only talked to Redis. *)
Lemma GetToken_cases u p s e w :
  (exists t,
      tokens w !! storage.TokenKey u p s = Some (JsonOf t)
      /\ redis_fault e Ping = None
      /\ redis_fault e (Get (storage.TokenKey u p s)) = None
      /\ storage.GetToken u p s e w =
         (Ok (length (heap w)),
          mkWorld (tokens w) (pkce w) (heap w ++ [t]) (rand_calls w)
            (trace w ++ [EvRedis Ping; EvRedis (Get (storage.TokenKey u p s))])))
  \/ (storage_read_fails e w (storage.TokenKey u p s)
      /\ exists err evs,
        storage.GetToken u p s e w = (Err err, with_trace w evs)
        /\ List.filter is_network evs = []).
Proof.
  unfold storage_read_fails.
  destruct (redis_fault e Ping) as [ep|] eqn:Hp.
  - right. split; [left; congruence|].
    exists (Wrapf "redis connection failed" ep), [EvRedis Ping].
    run_storage. rewrite Hp. simpl. auto.
  - destruct (redis_fault e (Get (storage.TokenKey u p s))) as [eg|] eqn:Hg.
    + right. split; [right; left; congruence|].
      run_storage. rewrite Hp. simpl. rewrite Hg.
      destruct eg; simpl; eexists _, [EvRedis Ping; EvRedis (Get _)];
        unfold with_trace; norm_trace; auto.
    + destruct (tokens w !! storage.TokenKey u p s) as [[t|]|] eqn:Ht.
      * left. exists t. repeat split; auto. now apply GetToken_found.
      * right. split; [auto|].
        run_storage. rewrite Hp. simpl. rewrite Hg, Ht. simpl.
        eexists _, [EvRedis Ping; EvRedis (Get _)]; unfold with_trace; norm_trace; auto.
      * right. split; [auto|].
        run_storage. rewrite Hp. simpl. rewrite Hg, Ht. simpl.
        eexists _, [EvRedis Ping; EvRedis (Get _)]; unfold with_trace; norm_trace; auto.
Qed.

Lemma GetToken_fails u p s e w :
  storage_read_fails e w (storage.TokenKey u p s) ->
  exists err evs,
    storage.GetToken u p s e w = (Err err, with_trace w evs)
    /\ List.filter is_network evs = [].
Proof.
  intros Hf. destruct (GetToken_cases u p s e w) as [(t & Ht & Hp & Hg & _)|[_ H]]; [|exact H].
  exfalso. destruct Hf as [?|[?|[?|?]]]; congruence.
Qed.

(** ** Reads that fail *)

(** C10. [IsTokenValid] never returns an error: the error component of its
    result is nil for every identity, environment and store.  When the read
    of the Credential Store fails, whether Redis cannot be reached, the
    [Get] fails, the key is absent or the record does not deserialize, it
    returns [(false, nil)], makes no provider call and leaves the stored
    tokens as they were. *)
Theorem C10_IsTokenValid_never_returns_an_error
    (tm : oauth.TokenManager) (userID provider serverName : string) (e : Env) (w : World) :
  snd (fst (oauth.IsTokenValid tm userID provider serverName e w)) = None
  /\ (storage_read_fails e w (storage.TokenKey userID provider serverName) ->
      fst (oauth.IsTokenValid tm userID provider serverName e w) = (false, None)
      /\ network_calls (snd (oauth.IsTokenValid tm userID provider serverName e w))
         = network_calls w
      /\ tokens (snd (oauth.IsTokenValid tm userID provider serverName e w)) = tokens w).
Proof.
  split.
  - unfold oauth.IsTokenValid, bind.
    destruct (storage.GetToken userID provider serverName e w) as [[p|err] w'];
      unfold oauth.isTokenExpired, bind, load, clock.Now, ask, ret; reflexivity.
  - intros Hf. destruct (GetToken_fails _ _ _ _ _ Hf) as (err & evs & Hg & Hn).
    unfold oauth.IsTokenValid, bind. rewrite Hg. simpl.
    repeat split. unfold network_calls. simpl. now rewrite List.filter_app, Hn, app_nil_r.
Qed.

Lemma C10_IsTokenValid_never_returns_an_error_witness :
  storage_read_fails scenario.env scenario.world (storage.TokenKey "u1" "tiktok" "tenantX")
  /\ fst (oauth.IsTokenValid scenario.tm "u1" "tiktok" "tenantX" scenario.env scenario.world)
     = (false, None)
  /\ fst (oauth.IsTokenValid scenario.tm "u1" "facebook" "tenantX"
            (scenario.env_with scenario.providers_up scenario.redis_down) scenario.world)
     = (false, None).
Proof.
  assert (H1 : storage_read_fails scenario.env scenario.world
                 (storage.TokenKey "u1" "tiktok" "tenantX"))
    by (right; right; right; reflexivity).
  assert (H2 : storage_read_fails (scenario.env_with scenario.providers_up scenario.redis_down)
                 scenario.world (storage.TokenKey "u1" "facebook" "tenantX"))
    by (left; discriminate).
  split; [exact H1|]. split.
  - exact (proj1 (proj2 (C10_IsTokenValid_never_returns_an_error scenario.tm "u1" "tiktok"
                           "tenantX" scenario.env scenario.world) H1)).
  - exact (proj1 (proj2 (C10_IsTokenValid_never_returns_an_error scenario.tm "u1" "facebook"
                           "tenantX" (scenario.env_with scenario.providers_up scenario.redis_down)
                           scenario.world) H2)).
Defined.

(** C7. For an identity with no token in the Credential Store,
    [ForceRefreshToken] fails with the error whose message is that of
    TokenNotFound ("OAuth token not found"), makes no provider call, and
    leaves the stored tokens and the token objects as they were. *)
Theorem C7_ForceRefreshToken_nothing_cached
    (tm : oauth.TokenManager) (userID provider serverName : string) (e : Env) (w : World)
    (Hnone : tokens w !! storage.TokenKey userID provider serverName = None) :
  let '(r, w') := oauth.ForceRefreshToken tm userID provider serverName e w in
  r = Err (Errorf "OAuth token not found")
  /\ error_string (Errorf "OAuth token not found") = errors.Message errors.ErrTokenNotFound
  /\ network_calls w' = network_calls w
  /\ tokens w' = tokens w
  /\ heap w' = heap w.
Proof.
  assert (Hf : storage_read_fails e w (storage.TokenKey userID provider serverName))
    by (unfold storage_read_fails; auto).
  destruct (GetToken_fails _ _ _ _ _ Hf) as (err & evs & Hg & Hn).
  unfold oauth.ForceRefreshToken, bind. rewrite Hg.
  unfold logger.Error, emit, ret. simpl.
  repeat split. unfold network_calls. simpl.
  rewrite !List.filter_app, Hn. simpl. now rewrite !app_nil_r.
Qed.

Lemma C7_ForceRefreshToken_nothing_cached_witness :
  tokens scenario.world !! storage.TokenKey "nobody" "x" "tenantX" = None
  /\ fst (oauth.ForceRefreshToken scenario.tm "nobody" "x" "tenantX" scenario.env scenario.world)
     = Err (Errorf "OAuth token not found")
  /\ network_calls (snd (oauth.ForceRefreshToken scenario.tm "nobody" "x" "tenantX"
                           scenario.env scenario.world)) = [].
Proof.
  split; [reflexivity|].
  pose proof (C7_ForceRefreshToken_nothing_cached scenario.tm "nobody" "x" "tenantX"
                scenario.env scenario.world eq_refl) as H.
  destruct (oauth.ForceRefreshToken _ _ _ _ _ _) as [r w'].
  destruct H as (Hr & _ & Hn & _). split; [exact Hr | exact Hn].
Defined.


Section ExpiryMargin.

Import oauth2 expiry.

Lemma isTokenExpired_unset now tok :
  Expiry tok = 0 -> isTokenExpired now (Some tok) = true.
Proof. intros E. unfold isTokenExpired, time.IsZero. now rewrite E. Qed.

Lemma isTokenExpired_spec now tok :
  isTokenExpired now (Some tok) = true <->
  Expiry tok = 0 \/ Expiry tok < now + 5 * time.Minute.
Proof.
  unfold isTokenExpired, time.IsZero, time.After, time.Add.
  destruct (Z.eqb_spec (Expiry tok) 0) as [E|E].
  - split; auto.
  - rewrite Z.ltb_lt. split; [auto | intros [?|?]; [contradiction | assumption]].
Qed.

End ExpiryMargin.

(** C1. With the clock not before the zero instant, a token expiring at
    now+4min59s is Stale, a token expiring at now+5min01s is Valid, and a
    token whose Expiry is unset (zero) is Stale, whatever its other fields
    and whatever the clock reads. *)
Theorem C1_expiry_safety_margin (now : Z) (a ty r : string) (H : 0 <= now) :
  expiry.isTokenExpired now
    (Some (oauth2.mkToken a ty r (now + (4 * time.Minute + 59 * time.Second)))) = true
  /\ expiry.isTokenExpired now
    (Some (oauth2.mkToken a ty r (now + (5 * time.Minute + 1 * time.Second)))) = false
  /\ expiry.isTokenExpired now (Some (oauth2.mkToken a ty r 0)) = true.
Proof.
  split; [|split].
  - apply isTokenExpired_spec. right.
    unfold time.Minute, time.Second, time.Nanosecond. simpl oauth2.Expiry. lia.
  - apply not_true_is_false. rewrite isTokenExpired_spec.
    unfold time.Minute, time.Second, time.Nanosecond. simpl oauth2.Expiry. lia.
  - now apply isTokenExpired_unset.
Qed.

Lemma C1_expiry_safety_margin_witness :
  0 <= 63900000000000000000
  /\ expiry.isTokenExpired 63900000000000000000
       (Some (oauth2.mkToken "tok" "bearer" "ref" 63900000299000000000)) = true
  /\ expiry.isTokenExpired 63900000000000000000
       (Some (oauth2.mkToken "tok" "bearer" "ref" 63900000301000000000)) = false
  /\ expiry.isTokenExpired 63900000000000000000
       (Some (oauth2.mkToken "tok" "bearer" "ref" 0)) = true.
Proof.
  split; [lia|].
  exact (C1_expiry_safety_margin 63900000000000000000 "tok" "bearer" "ref" ltac:(lia)).
Defined.
(** ** The exchange and refresh engine *)

Ltac run_oauth :=
  unfold oauth.refreshTokenWithInstagram, oauth.refreshTokenWithFacebook,
    oauth.refreshTokenWithX, oauth.exchangeInstagramToken, oauth.exchangeFacebookToken,
    oauth.exchangeCodeWithPKCE, oauth.lib_Exchange, oauth.lib_TokenSource_Token,
    oauth.send, oauth.new_token, clock.Now, logger.Info, logger.Error,
    bind, emit, ask, get_world, ret, new, load, store_RefreshToken; simpl.

Ltac case_reply3 e req :=
  unfold reply_ok3, http_error;
  destruct (http e req) as [?err|?err|status body]; simpl; try reflexivity;
  destruct (status =? 200); simpl; try reflexivity;
  unfold oauth.unmarshal_tokenResponse3;
  destruct (json.Unmarshal _ _ body _); reflexivity.

Ltac case_reply5 e req :=
  unfold reply_ok5, http_error;
  destruct (http e req) as [?err|?err|status body]; simpl; try reflexivity;
  destruct (status =? 200); simpl; try reflexivity;
  unfold oauth.unmarshal_tokenResponse5;
  destruct (json.Unmarshal _ _ body _); reflexivity.

(** Each call sends one request; a reply that decodes gives a new token
    object, any other reply an error. *)
Lemma refreshTokenWithInstagram_run cfg a e w :
  oauth.refreshTokenWithInstagram cfg a e w =
    let req := instagram_refresh_request a in
    match reply_ok3 (http e req) with
    | Some tr => (Ok (length (heap w)), alloc w (token_of (now e) tr "") [EvHTTP req])
    | None => (Err (http_error "token refresh failed" (http e req)), with_trace w [EvHTTP req])
    end.
Proof. run_oauth. fold (instagram_refresh_request a). case_reply3 e (instagram_refresh_request a). Qed.

Lemma refreshTokenWithFacebook_run cfg a e w :
  oauth.refreshTokenWithFacebook cfg a e w =
    let req := facebook_exchange_request cfg a in
    match reply_ok3 (http e req) with
    | Some tr =>
        (Ok (length (heap w)),
         alloc w (token_of (now e) tr (oauth.r_AccessToken tr)) [EvHTTP req])
    | None => (Err (http_error "token refresh failed" (http e req)), with_trace w [EvHTTP req])
    end.
Proof. run_oauth. fold (facebook_exchange_request cfg a). case_reply3 e (facebook_exchange_request cfg a). Qed.

Lemma exchangeFacebookToken_run cfg a e w :
  oauth.exchangeFacebookToken cfg a e w =
    let req := facebook_exchange_request cfg a in
    match reply_ok3 (http e req) with
    | Some tr =>
        (Ok (length (heap w)),
         alloc w (token_of (now e) tr (oauth.r_AccessToken tr)) [EvHTTP req])
    | None => (Err (http_error "token exchange failed" (http e req)), with_trace w [EvHTTP req])
    end.
Proof. run_oauth. fold (facebook_exchange_request cfg a). case_reply3 e (facebook_exchange_request cfg a). Qed.

Lemma exchangeInstagramToken_run cfg a e w :
  oauth.exchangeInstagramToken cfg a e w =
    let req := instagram_exchange_request cfg a in
    match reply_ok3 (http e req) with
    | Some tr =>
        (Ok (length (heap w)),
         alloc w (token_of (now e) tr (oauth.r_AccessToken tr)) [EvHTTP req])
    | None => (Err (http_error "token exchange failed" (http e req)), with_trace w [EvHTTP req])
    end.
Proof. run_oauth. fold (instagram_exchange_request cfg a). case_reply3 e (instagram_exchange_request cfg a). Qed.

Lemma exchangeCodeWithPKCE_run cfg code verifier e w :
  oauth.exchangeCodeWithPKCE cfg code verifier e w =
    let req := x_exchange_request cfg code verifier in
    match reply_ok5 (http e req) with
    | Some tr =>
        (Ok (length (heap w)),
         alloc w (token_of (now e) tr (oauth.r_RefreshToken tr)) [EvHTTP req])
    | None => (Err (http_error "token exchange failed" (http e req)), with_trace w [EvHTTP req])
    end.
Proof.
  run_oauth. fold (x_exchange_request cfg code verifier).
  case_reply5 e (x_exchange_request cfg code verifier).
Qed.

Lemma refreshTokenWithX_run cfg a e w :
  oauth.refreshTokenWithX cfg a e w =
    let req := x_refresh_request cfg a in
    match reply_ok5 (http e req) with
    | Some tr =>
        (Ok (length (heap w)),
         alloc w (token_of (now e) tr (oauth.r_RefreshToken tr)) [EvHTTP req])
    | None => (Err (http_error "token refresh failed" (http e req)), with_trace w [EvHTTP req])
    end.
Proof.
  run_oauth. fold (x_refresh_request cfg a). case_reply5 e (x_refresh_request cfg a).
Qed.

Lemma grows_refl w : grows w w.
Proof. repeat split; exists []; now rewrite app_nil_r. Qed.

Lemma grows_trans w1 w2 w3 : grows w1 w2 -> grows w2 w3 -> grows w1 w3.
Proof.
  intros (Ht & Hp & [hs Hh] & [evs He]) (Ht' & Hp' & [hs' Hh'] & [evs' He']).
  repeat split; try congruence.
  - exists (hs ++ hs'). now rewrite Hh', Hh, app_assoc.
  - exists (evs ++ evs'). now rewrite He', He, app_assoc.
Qed.

Lemma grows_with_trace w evs : grows w (with_trace w evs).
Proof. repeat split; [exists []; now rewrite app_nil_r | now exists evs]. Qed.

Lemma grows_alloc w t evs : grows w (alloc w t evs).
Proof. repeat split; [now exists [t] | now exists evs]. Qed.

Lemma grows_lookup w w' q t : grows w w' -> heap w !! q = Some t -> heap w' !! q = Some t.
Proof. intros (_ & _ & [hs ->] & _) H. now apply lookup_app_l_Some. Qed.

Lemma fresh_alloc w t evs : fresh_result w (alloc w t evs) (Ok (length (heap w))).
Proof.
  split; [apply grows_alloc|]. split; [reflexivity|]. split; [lia|].
  simpl. rewrite lookup_snoc. eauto.
Qed.

Lemma fresh_err w evs err : fresh_result w (with_trace w evs) (Err err).
Proof. split; [apply grows_with_trace|]. now split. Qed.

Lemma RefreshToken_fresh cfg a e w :
  fresh_result w (snd (oauth.RefreshToken cfg a e w)) (fst (oauth.RefreshToken cfg a e w)).
Proof.
  unfold oauth.RefreshToken.
  destruct (String.eqb _ "https://api.x.com/2/oauth2/token").
  { rewrite refreshTokenWithX_run. simpl.
    destruct (reply_ok5 _); simpl; [apply fresh_alloc | apply fresh_err]. }
  destruct (String.eqb _ "https://api.instagram.com/oauth/access_token").
  { rewrite refreshTokenWithInstagram_run. simpl.
    destruct (reply_ok3 _); simpl; [apply fresh_alloc | apply fresh_err]. }
  destruct (String.eqb _ "https://graph.facebook.com/v18.0/oauth/access_token").
  { rewrite refreshTokenWithFacebook_run. simpl.
    destruct (reply_ok3 _); simpl; [apply fresh_alloc | apply fresh_err]. }
  run_oauth. destruct (String.eqb a ""); simpl.
  - split; [|now split]. repeat split; [eexists [_]; reflexivity | exists []; now rewrite app_nil_r].
  - destruct (oauth2_endpoint e _) as [t|err]; simpl.
    + split; [|split; [reflexivity|]].
      * repeat split; [eexists [_; _]; now rewrite <- app_assoc | eexists [_]; reflexivity].
      * rewrite length_app. simpl. split; [lia|].
        replace (length (heap w) + 1)%nat with (length (heap w ++ [oauth2.mkToken "" "" a 0]))
          by (rewrite length_app; reflexivity).
        rewrite lookup_snoc. eauto.
    + split; [|now split].
      repeat split; [eexists [_]; reflexivity | eexists [_]; reflexivity].
Qed.
(** ** The lifecycle manager *)

Lemma SaveToken_run u p s np nt e w :
  heap w !! np = Some nt ->
  storage.SaveToken u p s np e w =
    match redis_fault e (SetEx (storage.TokenKey u p s)) with
    | Some err => (Some err, with_trace w [EvRedis (SetEx (storage.TokenKey u p s))])
    | None =>
        (None,
         mkWorld (<[storage.TokenKey u p s := JsonOf nt]> (tokens w)) (pkce w) (heap w)
           (rand_calls w) (trace w ++ [EvRedis (SetEx (storage.TokenKey u p s))]))
    end.
Proof.
  intros H. run_storage. rewrite H. simpl.
  destruct (redis_fault e (SetEx _)); reflexivity.
Qed.

(** A stale credential of a provider other than Instagram without a
    refresh token: the refresh step gives up at once. *)
Lemma refreshToken_no_credential tm u p s cur t e w :
  heap w !! cur = Some t ->
  p <> "instagram" ->
  oauth2.RefreshToken t = "" ->
  oauth.refreshToken tm u p s cur e w =
    (Err (Errorf "refresh token not available"),
     with_trace w [EvLog LError "refresh token not found"]).
Proof.
  intros Hc Hp Hr. unfold oauth.refreshToken. run_oauth. rewrite Hc. simpl.
  destruct (String.eqb_spec p "instagram") as [->|_]; [contradiction|].
  rewrite Hr. reflexivity.
Qed.

Lemma refreshToken_effect tm u p s cur t e w :
  heap w !! cur = Some t ->
  let '(r, w') := oauth.refreshToken tm u p s cur e w in
  heap w' !! cur = Some (after_refresh p t)
  /\ (forall q, q <> cur -> (q < length (heap w))%nat -> heap w' !! q = heap w !! q)
  /\ pkce w' = pkce w
  /\ match r with
     | Ok np =>
         exists nt, heap w' !! np = Some nt /\ (length (heap w) <= np)%nat
                    /\ tokens w' = <[storage.TokenKey u p s := JsonOf nt]> (tokens w)
     | Err _ => tokens w' = tokens w
     end.
Proof.
  intros Hc. unfold oauth.refreshToken.
  unfold bind at 1. unfold load at 1. rewrite Hc. simpl.
  unfold bind at 1.
  match goal with |- context [let '(a, w') := ?g e w in _] =>
    destruct (g e w) as [a w1] eqn:HG end.
  assert (Hguard : tokens w1 = tokens w /\ pkce w1 = pkce w
                   /\ length (heap w1) = length (heap w)
                   /\ heap w1 !! cur = Some (after_refresh p t)
                   /\ (forall q, q <> cur -> heap w1 !! q = heap w !! q)).
  { unfold after_refresh. revert HG. run_oauth.
    destruct (String.eqb p "instagram"); simpl.
    - destruct (String.eqb (oauth2.AccessToken t) ""); simpl; intros [= <- <-]; simpl.
      + repeat split; auto.
      + repeat split; auto.
        * apply length_alter.
        * rewrite list_lookup_alter_eq, Hc. reflexivity.
        * intros q Hq. now apply list_lookup_alter_ne.
    - destruct (String.eqb (oauth2.RefreshToken t) ""); simpl; intros [= <- <-]; simpl;
        repeat split; auto. }
  destruct Hguard as (Htok & Hpk & Hlen & Hcur & Hoth).
  destruct a as [err|].
  { unfold ret. repeat split; auto. }
  destruct (config.GetServerOAuthConfig _ p s "") as [cfg|err].
  2:{ run_oauth. repeat split; auto. }
  unfold bind at 1. unfold load at 1. rewrite Hcur. simpl.
  unfold bind at 1.
  pose proof (RefreshToken_fresh cfg (oauth2.RefreshToken (after_refresh p t)) e w1) as HF.
  destruct (oauth.RefreshToken cfg _ e w1) as [r w2]. simpl in HF.
  destruct HF as ((Htok2 & Hpk2 & [hs Hh2] & _) & _ & Hr).
  assert (Hcur2 : heap w2 !! cur = Some (after_refresh p t))
    by (rewrite Hh2; now apply lookup_app_l_Some).
  assert (Hoth2 : forall q, q <> cur -> (q < length (heap w))%nat -> heap w2 !! q = heap w !! q).
  { intros q Hq Hlt. rewrite Hh2, lookup_app_l by lia. now apply Hoth. }
  destruct r as [np|err].
  2:{ run_oauth. repeat split; auto; congruence. }
  destruct Hr as [Hge [nt Hnt]].
  unfold bind at 1. rewrite (SaveToken_run _ _ _ _ _ _ _ Hnt).
  destruct (redis_fault e (SetEx _)); run_oauth.
  - repeat split; auto; congruence.
  - repeat split; auto; try congruence.
    exists nt. repeat split; auto; [lia | congruence].
Qed.
Lemma after_refresh_other p t : p <> "instagram" -> after_refresh p t = t.
Proof.
  intros Hp. unfold after_refresh.
  destruct (String.eqb_spec p "instagram"); [contradiction | reflexivity].
Qed.

(** The operations that read a token and may refresh it, after the read. *)
Lemma refresh_after_read tm u p s t e w evs :
  let w1 := mkWorld (tokens w) (pkce w) (heap w ++ [t]) (rand_calls w) (trace w ++ evs) in
  let '(r, w') := oauth.refreshToken tm u p s (length (heap w)) e w1 in
  lifecycle_effect u p s t (length (heap w)) w (r, w').
Proof.
  intros w1.
  pose proof (refreshToken_effect tm u p s (length (heap w)) t e w1 (lookup_snoc _ _)) as H.
  destruct (oauth.refreshToken tm u p s (length (heap w)) e w1) as [r w'].
  destruct H as (Hcur & Hoth & _ & Hr). unfold lifecycle_effect.
  split; [|split].
  - destruct (String.eqb_spec p "instagram") as [->|Hp]; [right; auto|].
    left. now rewrite Hcur, after_refresh_other.
  - intros q Hq. rewrite Hoth; simpl; [| lia | rewrite length_app; lia].
    now apply lookup_app_l.
  - destruct r as [np|err]; [|left; exact Hr].
    destruct Hr as (nt & Hnt & Hge & Htok). right. exists np, nt.
    simpl in Hge. rewrite length_app in Hge. simpl in Hge.
    repeat split; auto. lia.
Qed.

Lemma lifecycle_effect_trace u p s t p0 w r w' evs :
  lifecycle_effect u p s t p0 w (r, w') ->
  forall r', (forall np, r = Ok np -> r' = Ok np) ->
  lifecycle_effect u p s t p0 w (r', with_trace w' evs).
Proof.
  intros (H1 & H2 & H3) r' Hr'. repeat split; auto.
  destruct H3 as [H3|(np & nt & -> & H3)]; [left; exact H3|].
  right. exists np, nt. split; [now apply Hr'|exact H3].
Qed.

Arguments expiry.isTokenExpired : simpl never.

Lemma GetValidToken_effect tm u p s t e w :
  tokens w !! storage.TokenKey u p s = Some (JsonOf t) ->
  redis_fault e Ping = None ->
  redis_fault e (Get (storage.TokenKey u p s)) = None ->
  lifecycle_effect u p s t (length (heap w)) w (oauth.GetValidToken tm u p s e w).
Proof.
  intros Hfound Hping Hget.
  unfold oauth.GetValidToken. unfold bind at 1. rewrite (GetToken_found _ _ _ _ _ _ Hping Hget Hfound).
  unfold bind at 1. unfold oauth.isTokenExpired, bind, load, clock.Now, ask, ret. simpl.
  rewrite lookup_snoc. simpl.
  destruct (expiry.isTokenExpired (now e) (Some t)).
  - unfold logger.Info, logger.Error, emit. simpl. rewrite <- app_assoc.
    pose proof (refresh_after_read tm u p s t e w
                  ([EvRedis Ping; EvRedis (Get (storage.TokenKey u p s))]
                   ++ [EvLog LInfo "token expired, attempting refresh"])) as H.
    simpl in H.
    destruct (oauth.refreshToken _ _ _ _ _ _ _) as [r w'].
    destruct r as [np|err];
      eapply (lifecycle_effect_trace _ _ _ _ _ _ _ _ _ H); congruence.
  - unfold logger.Info, emit. simpl. unfold lifecycle_effect. simpl.
    split; [left; apply lookup_snoc|]. split; [|now left].
    intros q Hq. now apply lookup_app_l.
Qed.

Lemma ForceRefreshToken_effect tm u p s t e w :
  tokens w !! storage.TokenKey u p s = Some (JsonOf t) ->
  redis_fault e Ping = None ->
  redis_fault e (Get (storage.TokenKey u p s)) = None ->
  lifecycle_effect u p s t (length (heap w)) w (oauth.ForceRefreshToken tm u p s e w).
Proof.
  intros Hfound Hping Hget.
  unfold oauth.ForceRefreshToken. unfold bind at 1. rewrite (GetToken_found _ _ _ _ _ _ Hping Hget Hfound).
  unfold logger.Info, logger.Error, emit, bind, ret. simpl. rewrite <- app_assoc.
  pose proof (refresh_after_read tm u p s t e w
                ([EvRedis Ping; EvRedis (Get (storage.TokenKey u p s))]
                 ++ [EvLog LInfo "force refreshing token"])) as H.
  simpl in H.
  destruct (oauth.refreshToken _ _ _ _ _ _ _) as [r w'].
  destruct r as [np|err];
    eapply (lifecycle_effect_trace _ _ _ _ _ _ _ _ _ H); congruence.
Qed.

(** C5 (as amended). [GetValidToken], [ForceRefreshToken] and the internal
    [refreshToken] leave the token object read from the Credential Store
    unchanged for every provider but Instagram; for Instagram with a
    non-empty AccessToken the object's RefreshToken field is overwritten in
    place with its AccessToken, all other fields staying as read.  No other
    object that existed before is changed, and the store either keeps its
    records or has the record of the identity replaced as a whole by a
    token object made after the one read. *)
Theorem C5_token_read_changes_only_for_instagram
    (tm : oauth.TokenManager) (userID provider serverName : string) (t : oauth2.Token)
    (e : Env) (w : World)
    (Hfound : tokens w !! storage.TokenKey userID provider serverName = Some (JsonOf t))
    (Hping : redis_fault e Ping = None)
    (Hget : redis_fault e (Get (storage.TokenKey userID provider serverName)) = None) :
  lifecycle_effect userID provider serverName t (length (heap w)) w
    (oauth.GetValidToken tm userID provider serverName e w)
  /\ lifecycle_effect userID provider serverName t (length (heap w)) w
       (oauth.ForceRefreshToken tm userID provider serverName e w)
  /\ (forall cur, heap w !! cur = Some t ->
        let '(r, w') := oauth.refreshToken tm userID provider serverName cur e w in
        heap w' !! cur = Some (after_refresh provider t)
        /\ (provider <> "instagram" -> heap w' !! cur = Some t)
        /\ (forall q, q <> cur -> (q < length (heap w))%nat -> heap w' !! q = heap w !! q)
        /\ match r with
           | Ok np =>
               exists nt, heap w' !! np = Some nt /\ np <> cur
                 /\ tokens w' = <[storage.TokenKey userID provider serverName := JsonOf nt]> (tokens w)
           | Err _ => tokens w' = tokens w
           end).
Proof.
  split; [now apply GetValidToken_effect|]. split; [now apply ForceRefreshToken_effect|].
  intros cur Hcur.
  pose proof (refreshToken_effect tm userID provider serverName cur t e w Hcur) as H.
  destruct (oauth.refreshToken _ _ _ _ _ _ _) as [r w'].
  destruct H as (H1 & H2 & _ & H3). repeat split; auto.
  - intros Hp. now rewrite H1, after_refresh_other.
  - destruct r as [np|err]; [|exact H3].
    destruct H3 as (nt & Hnt & Hge & Htok). exists nt. repeat split; auto.
    apply lookup_lt_Some in Hcur. lia.
Qed.

Lemma C5_token_read_changes_only_for_instagram_witness :
  tokens scenario.world !! storage.TokenKey "u1" "facebook" "tenantX"
    = Some (JsonOf scenario.stale_facebook)
  /\ lifecycle_effect "u1" "facebook" "tenantX" scenario.stale_facebook 0 scenario.world
       (oauth.GetValidToken scenario.tm "u1" "facebook" "tenantX" scenario.env scenario.world).
Proof.
  split; [reflexivity|].
  exact (proj1 (C5_token_read_changes_only_for_instagram scenario.tm "u1" "facebook" "tenantX"
                  scenario.stale_facebook scenario.env scenario.world
                  eq_refl eq_refl eq_refl)).
Defined.

(** C5 as stated fails: the Instagram token read from the store into the
    object 0 has its RefreshToken field overwritten in place. *)
Lemma C5_counterexample :
  tokens scenario.world !! storage.TokenKey "u1" "instagram" "tenantX"
    = Some (JsonOf (oauth2.mkToken "tok123" "bearer" "" (scenario.now0 - time.Second)))
  /\ heap (snd (oauth.GetValidToken scenario.tm "u1" "instagram" "tenantX"
                 scenario.env scenario.world)) !! 0%nat
     = Some (oauth2.mkToken "tok123" "bearer" "tok123" (scenario.now0 - time.Second))
  /\ heap (snd (oauth.GetValidToken scenario.tm "u1" "instagram" "tenantX"
                 scenario.env scenario.world)) !! 0%nat
     <> Some (oauth2.mkToken "tok123" "bearer" "" (scenario.now0 - time.Second)).
Proof.
  split; [reflexivity|]. split; [vm_compute; reflexivity|].
  vm_compute. discriminate.
Qed.
(** ** Refresh credential substitution *)

Lemma GetServerOAuthConfig_instagram c s sc redirect :
  config.Servers c !! s = Some sc ->
  config.GetServerOAuthConfig c "instagram" s redirect =
    Ok (config.provider_config (config.Instagram sc)
          (oauth2cfg.mkEndpoint config.InstagramAuthURL config.InstagramTokenURL) redirect).
Proof. intros H. unfold config.GetServerOAuthConfig. now rewrite H. Qed.

Lemma RefreshToken_instagram cfg a :
  oauth.TokenURL cfg = config.InstagramTokenURL ->
  oauth.RefreshToken cfg a = oauth.refreshTokenWithInstagram cfg a.
Proof. intros H. unfold oauth.RefreshToken. now rewrite H. Qed.

Lemma RefreshToken_facebook cfg a :
  oauth.TokenURL cfg = config.FacebookTokenURL ->
  oauth.RefreshToken cfg a = oauth.refreshTokenWithFacebook cfg a.
Proof. intros H. unfold oauth.RefreshToken. now rewrite H. Qed.

Lemma refreshToken_instagram_run tm u s cur t sc e w :
  heap w !! cur = Some t ->
  oauth2.AccessToken t <> "" ->
  config.Servers (oauth.tm_config tm) !! s = Some sc ->
  oauth.refreshToken tm u "instagram" s cur e w =
    let req := instagram_refresh_request (oauth2.AccessToken t) in
    let key := storage.TokenKey u "instagram" s in
    let h1 := alter (fun t0 => oauth2.with_RefreshToken t0 (oauth2.AccessToken t)) cur (heap w) in
    match reply_ok3 (http e req) with
    | None =>
        (Err (Wrapf "token refresh failed" (http_error "token refresh failed" (http e req))),
         mkWorld (tokens w) (pkce w) h1 (rand_calls w)
           (trace w ++ [EvHTTP req; EvLog LError "token refresh failed"]))
    | Some tr =>
        let nt := token_of (now e) tr "" in
        match redis_fault e (SetEx key) with
        | Some err =>
            (Err (Wrapf "failed to save refreshed token" err),
             mkWorld (tokens w) (pkce w) (h1 ++ [nt]) (rand_calls w)
               (trace w ++ [EvHTTP req; EvRedis (SetEx key);
                            EvLog LError "failed to save refreshed token"]))
        | None =>
            (Ok (length (heap w)),
             mkWorld (<[key := JsonOf nt]> (tokens w)) (pkce w) (h1 ++ [nt]) (rand_calls w)
               (trace w ++ [EvHTTP req; EvRedis (SetEx key)]))
        end
    end.
Proof.
  intros Hc Ha Hs. unfold oauth.refreshToken.
  unfold bind at 1. unfold load at 1. rewrite Hc. simpl.
  destruct (String.eqb_spec (oauth2.AccessToken t) "") as [|_]; [contradiction|].
  rewrite (GetServerOAuthConfig_instagram _ _ _ _ Hs).
  unfold bind, store_RefreshToken, ret, load. simpl.
  rewrite list_lookup_alter_eq, Hc. simpl.
  rewrite RefreshToken_instagram by reflexivity.
  rewrite refreshTokenWithInstagram_run. simpl.
  destruct (reply_ok3 _) as [tr|]; simpl.
  - rewrite (SaveToken_run _ _ _ _ (token_of (now e) tr "")).
    2:{ simpl. apply lookup_snoc. }
    simpl. destruct (redis_fault e _); unfold logger.Error, emit; simpl;
      rewrite <- ?app_assoc; simpl; rewrite ?length_alter; reflexivity.
  - unfold logger.Error, emit. simpl. rewrite <- app_assoc. reflexivity.
Qed.

(** A stale Instagram token with an access token, for a configured tenant:
    the whole run of [GetValidToken], by the provider's reply and the
    outcome of the write. *)
Lemma GetValidToken_instagram_stale tm u s t sc e w :
  tokens w !! storage.TokenKey u "instagram" s = Some (JsonOf t) ->
  redis_fault e Ping = None ->
  redis_fault e (Get (storage.TokenKey u "instagram" s)) = None ->
  expiry.isTokenExpired (now e) (Some t) = true ->
  oauth2.AccessToken t <> "" ->
  config.Servers (oauth.tm_config tm) !! s = Some sc ->
  oauth.GetValidToken tm u "instagram" s e w =
    let req := instagram_refresh_request (oauth2.AccessToken t) in
    let key := storage.TokenKey u "instagram" s in
    let h1 := heap w ++ [oauth2.with_RefreshToken t (oauth2.AccessToken t)] in
    let pre := [EvRedis Ping; EvRedis (Get key); EvLog LInfo "token expired, attempting refresh"] in
    match reply_ok3 (http e req) with
    | None =>
        (Err (Wrapf "token refresh failed"
                (Wrapf "token refresh failed" (http_error "token refresh failed" (http e req)))),
         mkWorld (tokens w) (pkce w) h1 (rand_calls w)
           (trace w ++ pre ++ [EvHTTP req; EvLog LError "token refresh failed";
                               EvLog LError "token refresh failed"]))
    | Some tr =>
        let nt := token_of (now e) tr "" in
        match redis_fault e (SetEx key) with
        | Some err =>
            (Err (Wrapf "token refresh failed" (Wrapf "failed to save refreshed token" err)),
             mkWorld (tokens w) (pkce w) (h1 ++ [nt]) (rand_calls w)
               (trace w ++ pre ++ [EvHTTP req; EvRedis (SetEx key);
                                   EvLog LError "failed to save refreshed token";
                                   EvLog LError "token refresh failed"]))
        | None =>
            (Ok (S (length (heap w))),
             mkWorld (<[key := JsonOf nt]> (tokens w)) (pkce w) (h1 ++ [nt]) (rand_calls w)
               (trace w ++ pre ++ [EvHTTP req; EvRedis (SetEx key);
                                   EvLog LInfo "token refreshed successfully"]))
        end
    end.
Proof.
  intros Hfound Hping Hget Hstale Ha Hs.
  unfold oauth.GetValidToken. unfold bind at 1.
  rewrite (GetToken_found _ _ _ _ _ _ Hping Hget Hfound).
  unfold bind at 1. unfold oauth.isTokenExpired, bind, load, clock.Now, ask, ret. simpl.
  rewrite lookup_snoc. simpl. rewrite Hstale.
  unfold logger.Info, logger.Error, emit. simpl.
  rewrite (refreshToken_instagram_run tm u s _ t sc) by (auto; apply lookup_snoc).
  simpl. rewrite alter_snoc.
  destruct (reply_ok3 _) as [tr|]; simpl.
  - destruct (redis_fault e (SetEx _)); unfold logger.Info, logger.Error, emit; simpl;
      rewrite <- ?app_assoc; simpl; rewrite ?length_app; simpl;
      rewrite ?Nat.add_1_r; reflexivity.
  - unfold logger.Error, emit; simpl. rewrite <- ?app_assoc. reflexivity.
Qed.

Lemma GetValidToken_no_credential tm u p s t e w :
  tokens w !! storage.TokenKey u p s = Some (JsonOf t) ->
  redis_fault e Ping = None ->
  redis_fault e (Get (storage.TokenKey u p s)) = None ->
  expiry.isTokenExpired (now e) (Some t) = true ->
  p <> "instagram" ->
  oauth2.RefreshToken t = "" ->
  oauth.GetValidToken tm u p s e w =
    (Err (Wrapf "token refresh failed" (Errorf "refresh token not available")),
     mkWorld (tokens w) (pkce w) (heap w ++ [t]) (rand_calls w)
       (trace w ++ [EvRedis Ping; EvRedis (Get (storage.TokenKey u p s));
                    EvLog LInfo "token expired, attempting refresh";
                    EvLog LError "refresh token not found";
                    EvLog LError "token refresh failed"])).
Proof.
  intros Hfound Hping Hget Hstale Hp Hr.
  unfold oauth.GetValidToken. unfold bind at 1.
  rewrite (GetToken_found _ _ _ _ _ _ Hping Hget Hfound).
  unfold bind at 1. unfold oauth.isTokenExpired, bind, load, clock.Now, ask, ret. simpl.
  rewrite lookup_snoc. simpl. rewrite Hstale.
  unfold logger.Info, logger.Error, emit. simpl.
  rewrite (refreshToken_no_credential tm u p s _ t) by (auto; apply lookup_snoc).
  unfold logger.Error, emit, with_trace. simpl. rewrite <- ?app_assoc. reflexivity.
Qed.

(** C2. [GetValidToken] on a Stale cached token whose RefreshToken is
    empty: for Instagram with a non-empty AccessToken (and a configured
    tenant) the refresh proceeds, the one provider call being the refresh
    request that carries the AccessToken, it does not fail for want of a
    refresh credential, and when the provider answers with a token and the
    store takes it, the new token is returned and stored; for every other
    provider it fails with "refresh token not available", with no provider
    call and the stored tokens unchanged. *)
Theorem C2_refresh_credential_substitution
    (tm : oauth.TokenManager) (userID provider serverName : string) (t : oauth2.Token)
    (e : Env) (w : World)
    (Hfound : tokens w !! storage.TokenKey userID provider serverName = Some (JsonOf t))
    (Hping : redis_fault e Ping = None)
    (Hget : redis_fault e (Get (storage.TokenKey userID provider serverName)) = None)
    (Hstale : expiry.isTokenExpired (now e) (Some t) = true)
    (Hnoref : oauth2.RefreshToken t = "") :
  let '(r, w') := oauth.GetValidToken tm userID provider serverName e w in
  let req := instagram_refresh_request (oauth2.AccessToken t) in
  let key := storage.TokenKey userID provider serverName in
  (provider = "instagram" -> oauth2.AccessToken t <> "" ->
   is_Some (config.Servers (oauth.tm_config tm) !! serverName) ->
     network_calls w' = network_calls w ++ [EvHTTP req]
     /\ r <> Err (Wrapf "token refresh failed" (Errorf "refresh token not available"))
     /\ (forall tr, reply_ok3 (http e req) = Some tr -> redis_fault e (SetEx key) = None ->
           exists np, r = Ok np
             /\ heap w' !! np = Some (token_of (now e) tr "")
             /\ tokens w' !! key = Some (JsonOf (token_of (now e) tr ""))))
  /\ (provider <> "instagram" ->
        r = Err (Wrapf "token refresh failed" (Errorf "refresh token not available"))
        /\ network_calls w' = network_calls w
        /\ tokens w' = tokens w).
Proof.
  destruct (String.eqb_spec provider "instagram") as [->|Hp].
  - destruct (String.eqb_spec (oauth2.AccessToken t) "") as [Ha|Ha];
      destruct (config.Servers (oauth.tm_config tm) !! serverName) as [sc|] eqn:Hs.
    1,2,4: destruct (oauth.GetValidToken _ _ _ _ _ _) as [r w']; simpl;
      split; [intros _ H1 H2; try contradiction; destruct H2; discriminate
             | intros H; contradiction].
    rewrite (GetValidToken_instagram_stale tm userID serverName t sc e w) by assumption.
    simpl.
    destruct (reply_ok3 _) as [tr|] eqn:Hreply;
      [destruct (redis_fault e (SetEx _)) as [err|] eqn:Hset|];
      (split; [intros _ _ _ | intros H; contradiction]);
      (split; [rewrite network_calls_app; reflexivity|]);
      (split; [discriminate|]); intros tr' Htr' Hset'; try discriminate.
    injection Htr' as <-. exists (S (length (heap w))). split; [reflexivity|]. simpl. split.
    + rewrite <- app_assoc. apply lookup_snoc2.
    + apply lookup_insert_eq.
  - rewrite (GetValidToken_no_credential tm userID provider serverName t e w) by assumption.
    simpl. split; [intros H; contradiction|]. intros _.
    split; [reflexivity|]. split; [|reflexivity].
    rewrite network_calls_app. simpl. apply app_nil_r.
Qed.

Lemma C2_refresh_credential_substitution_witness :
  (network_calls (snd (oauth.GetValidToken scenario.tm "u1" "instagram" "tenantX"
                         scenario.env scenario.world))
   = [EvHTTP (instagram_refresh_request "tok123")]
   /\ is_Ok (fst (oauth.GetValidToken scenario.tm "u1" "instagram" "tenantX"
                    scenario.env scenario.world)) = true)
  /\ (fst (oauth.GetValidToken scenario.tm "u1" "youtube" "tenantX"
             scenario.env scenario.world)
      = Err (Wrapf "token refresh failed" (Errorf "refresh token not available"))
      /\ network_calls (snd (oauth.GetValidToken scenario.tm "u1" "youtube" "tenantX"
                               scenario.env scenario.world)) = []).
Proof.
  split.
  - pose proof (C2_refresh_credential_substitution scenario.tm "u1" "instagram" "tenantX"
                  scenario.stale_instagram scenario.env scenario.world
                  eq_refl eq_refl eq_refl eq_refl eq_refl) as H.
    destruct (oauth.GetValidToken _ _ _ _ _ _) as [r w'].
    destruct H as [H _].
    destruct (H eq_refl ltac:(discriminate) (ex_intro _ _ eq_refl)) as (Hn & _ & Hok).
    split; [exact Hn|].
    destruct (Hok _ eq_refl eq_refl) as (np & -> & _). reflexivity.
  - pose proof (C2_refresh_credential_substitution scenario.tm "u1" "youtube" "tenantX"
                  scenario.stale_youtube scenario.env scenario.world
                  eq_refl eq_refl eq_refl eq_refl eq_refl) as H.
    destruct (oauth.GetValidToken _ _ _ _ _ _) as [r w'].
    destruct H as [_ H]. destruct (H ltac:(discriminate)) as (Hr & Hn & _).
    split; [exact Hr | exact Hn].
Defined.
(** C3 (as amended). A successful Facebook refresh returns a token whose
    RefreshToken equals the newly returned access token.  A successful
    Instagram refresh returns a token with the new access token and an
    empty RefreshToken; so the token that [GetValidToken] returns and
    stores after refreshing a stale Instagram token has an empty
    RefreshToken (the manager substitutes the AccessToken only when it
    refreshes next). *)
Theorem C3_refresh_token_of_a_refreshed_token
    (cfg : oauth2cfg.Config) (credential : string) (e : Env) (w : World) :
  (oauth.TokenURL cfg = config.FacebookTokenURL ->
   let '(r, w') := oauth.RefreshToken cfg credential e w in
   match reply_ok3 (http e (facebook_exchange_request cfg credential)) with
   | Some tr =>
       exists np nt, r = Ok np /\ heap w' !! np = Some nt
         /\ oauth2.AccessToken nt = oauth.r_AccessToken tr
         /\ oauth2.RefreshToken nt = oauth.r_AccessToken tr
   | None => exists err, r = Err err
   end)
  /\ (oauth.TokenURL cfg = config.InstagramTokenURL ->
      let '(r, w') := oauth.RefreshToken cfg credential e w in
      match reply_ok3 (http e (instagram_refresh_request credential)) with
      | Some tr =>
          exists np nt, r = Ok np /\ heap w' !! np = Some nt
            /\ oauth2.AccessToken nt = oauth.r_AccessToken tr
            /\ oauth2.RefreshToken nt = ""
      | None => exists err, r = Err err
      end)
  /\ (forall tm userID serverName t tr,
        tokens w !! storage.TokenKey userID "instagram" serverName = Some (JsonOf t) ->
        redis_fault e Ping = None ->
        redis_fault e (Get (storage.TokenKey userID "instagram" serverName)) = None ->
        redis_fault e (SetEx (storage.TokenKey userID "instagram" serverName)) = None ->
        expiry.isTokenExpired (now e) (Some t) = true ->
        oauth2.AccessToken t <> "" ->
        is_Some (config.Servers (oauth.tm_config tm) !! serverName) ->
        reply_ok3 (http e (instagram_refresh_request (oauth2.AccessToken t))) = Some tr ->
        let '(r, w') := oauth.GetValidToken tm userID "instagram" serverName e w in
        exists np nt, r = Ok np /\ heap w' !! np = Some nt
          /\ tokens w' !! storage.TokenKey userID "instagram" serverName = Some (JsonOf nt)
          /\ oauth2.AccessToken nt = oauth.r_AccessToken tr
          /\ oauth2.RefreshToken nt = "").
Proof.
  split; [|split].
  - intros Hurl. rewrite RefreshToken_facebook by assumption.
    rewrite refreshTokenWithFacebook_run. simpl.
    destruct (reply_ok3 _) as [tr|]; [|eauto].
    eexists _, _. split; [reflexivity|]. simpl. rewrite lookup_snoc. auto.
  - intros Hurl. rewrite RefreshToken_instagram by assumption.
    rewrite refreshTokenWithInstagram_run. simpl.
    destruct (reply_ok3 _) as [tr|]; [|eauto].
    eexists _, _. split; [reflexivity|]. simpl. rewrite lookup_snoc. auto.
  - intros tm userID serverName t tr Hfound Hping Hget Hset Hstale Ha [sc Hs] Hreply.
    rewrite (GetValidToken_instagram_stale tm userID serverName t sc e w) by assumption.
    simpl. rewrite Hreply, Hset.
    eexists _, _. split; [reflexivity|]. simpl.
    split; [rewrite <- app_assoc; apply lookup_snoc2|].
    split; [apply lookup_insert_eq|]. auto.
Qed.

Lemma C3_refresh_token_of_a_refreshed_token_witness :
  (exists np nt,
      fst (oauth.RefreshToken
             (config.provider_config scenario.provider
                (oauth2cfg.mkEndpoint config.FacebookAuthURL config.FacebookTokenURL) "")
             "fb1" scenario.env scenario.world) = Ok np
      /\ oauth2.AccessToken nt = "fb789" /\ oauth2.RefreshToken nt = "fb789")
  /\ (exists np nt,
        fst (oauth.GetValidToken scenario.tm "u1" "instagram" "tenantX"
               scenario.env scenario.world) = Ok np
        /\ oauth2.AccessToken nt = "new456" /\ oauth2.RefreshToken nt = "").
Proof.
  pose proof (C3_refresh_token_of_a_refreshed_token
                (config.provider_config scenario.provider
                   (oauth2cfg.mkEndpoint config.FacebookAuthURL config.FacebookTokenURL) "")
                "fb1" scenario.env scenario.world) as (Hfb & _ & Hig).
  split.
  - specialize (Hfb eq_refl).
    destruct (oauth.RefreshToken _ _ _ _) as [r w'].
    destruct Hfb as (np & nt & -> & _ & Ha & Hr). exists np, nt. auto.
  - specialize (Hig scenario.tm "u1" "tenantX" scenario.stale_instagram _
                  eq_refl eq_refl eq_refl eq_refl eq_refl
                  ltac:(discriminate) (ex_intro _ _ eq_refl) eq_refl).
    destruct (oauth.GetValidToken _ _ _ _ _ _) as [r w'].
    destruct Hig as (np & nt & -> & _ & _ & Ha & Hr). exists np, nt. auto.
Defined.

(** C3 as stated fails for Instagram: the token that [GetValidToken]
    returns and stores after the refresh has the new access token and an
    empty RefreshToken. *)
Lemma C3_counterexample :
  let '(r, w') := oauth.GetValidToken scenario.tm "u1" "instagram" "tenantX"
                    scenario.env scenario.world in
  exists nt,
    r = Ok 1%nat /\ heap w' !! 1%nat = Some nt
    /\ tokens w' !! storage.TokenKey "u1" "instagram" "tenantX" = Some (JsonOf nt)
    /\ oauth2.AccessToken nt = "new456"
    /\ oauth2.RefreshToken nt = ""
    /\ oauth2.RefreshToken nt <> oauth2.AccessToken nt.
Proof.
  vm_compute. eexists. repeat split; try reflexivity. discriminate.
Qed.
(** ** The long-lived-token upgrade *)

(** C8. For Instagram and Facebook, when the code exchange of the oauth2
    library succeeds with a short-lived token and the long-lived-token
    upgrade call does not yield a token (the request fails, the status is
    not 200, or the body does not decode), [ExchangeCode] returns success
    with the short-lived token; the provider calls made are the exchange and
    the upgrade attempt. *)
Theorem C8_upgrade_failure_is_swallowed
    (cfg : oauth2cfg.Config) (code verifier : string) (t0 : oauth2.Token)
    (e : Env) (w : World)
    (Hprovider : oauth.TokenURL cfg = config.InstagramTokenURL
                 \/ oauth.TokenURL cfg = config.FacebookTokenURL)
    (Hexchange : oauth2_endpoint e (code_exchange cfg code verifier) = Ok t0)
    (Hupgrade : reply_ok3 (http e (upgrade_request cfg (oauth2.AccessToken t0))) = None) :
  let '(r, w') := oauth.ExchangeCode cfg code verifier e w in
  r = Ok (length (heap w))
  /\ heap w' !! length (heap w) = Some t0
  /\ network_calls w'
     = network_calls w ++ [EvOAuth2 (code_exchange cfg code verifier);
                           EvHTTP (upgrade_request cfg (oauth2.AccessToken t0))].
Proof.
  unfold oauth.ExchangeCode, code_exchange, upgrade_request in *.
  assert (Hx : String.eqb (oauth.TokenURL cfg) "https://api.x.com/2/oauth2/token" = false)
    by (destruct Hprovider as [-> | ->]; reflexivity).
  rewrite Hx.
  assert (Hfirst :
    (if negb (String.eqb verifier "")
     then oauth.lib_Exchange cfg code (Some verifier)
     else oauth.lib_Exchange cfg code None) e w
    = (Ok (length (heap w)),
       alloc w t0 [EvOAuth2 (LibExchange cfg code
                               (if String.eqb verifier "" then None else Some verifier))])).
  { unfold oauth.lib_Exchange, bind, emit, ask, new, ret.
    destruct (String.eqb verifier ""); simpl; rewrite Hexchange; unfold alloc; simpl; reflexivity. }
  unfold bind at 1. rewrite Hfirst. clear Hfirst.
  destruct Hprovider as [Hurl | Hurl]; rewrite Hurl in *; simpl in Hupgrade.
  - change (String.eqb config.InstagramTokenURL "https://api.instagram.com/oauth/access_token")
      with true.
    change (String.eqb config.InstagramTokenURL
              "https://graph.facebook.com/v18.0/oauth/access_token") with false.
    unfold bind at 1. unfold bind at 1. unfold load at 1. simpl heap. rewrite lookup_snoc.
    simpl default. unfold bind at 1. rewrite exchangeInstagramToken_run. simpl. rewrite Hupgrade.
    unfold bind, ret; simpl.
    split; [reflexivity|]. split; [apply lookup_snoc|].
    unfold with_trace, alloc; simpl. rewrite <- app_assoc. rewrite network_calls_app. reflexivity.
  - change (String.eqb config.FacebookTokenURL "https://api.instagram.com/oauth/access_token")
      with false.
    change (String.eqb config.FacebookTokenURL
              "https://graph.facebook.com/v18.0/oauth/access_token") with true.
    unfold bind at 1. unfold ret at 1.
    unfold bind at 1. unfold bind at 1. unfold load at 1. simpl heap. rewrite lookup_snoc.
    simpl default. unfold bind at 1. rewrite exchangeFacebookToken_run. simpl. rewrite Hupgrade.
    unfold bind, ret; simpl.
    split; [reflexivity|]. split; [apply lookup_snoc|].
    unfold with_trace, alloc; simpl. rewrite <- app_assoc. rewrite network_calls_app. reflexivity.
Qed.

Lemma C8_upgrade_failure_is_swallowed_witness :
  let cfg := config.provider_config scenario.provider
               (oauth2cfg.mkEndpoint config.FacebookAuthURL config.FacebookTokenURL)
               "https://app.example/callback" in
  let e := scenario.env_with scenario.upgrade_down (fun _ => None) in
  reply_ok3 (http e (upgrade_request cfg "short")) = None
  /\ fst (oauth.ExchangeCode cfg "abc" "" e scenario.world) = Ok 0%nat
  /\ heap (snd (oauth.ExchangeCode cfg "abc" "" e scenario.world)) !! 0%nat
     = Some scenario.short_lived.
Proof.
  intros cfg e. split; [reflexivity|].
  pose proof (C8_upgrade_failure_is_swallowed cfg "abc" "" scenario.short_lived e scenario.world
                (or_intror eq_refl) eq_refl eq_refl) as H.
  destruct (oauth.ExchangeCode cfg "abc" "" e scenario.world) as [r w'].
  destruct H as (Hr & Hh & _). split; [exact Hr | exact Hh].
Defined.
(** ** The callback handler *)

(** C6. When the state decodes and the tenant of the callback request
    differs from the tenant in the decoded state, [Callback] answers with
    the invalid-state error (logged as a server_name mismatch), which is
    how the handler reports TenantMismatch; no token is persisted, the PKCE
    verifiers are untouched, no provider call is made and no Redis command
    is sent. *)
Theorem C6_tenant_mismatch
    (h : handlers.AuthHandler) (req : handlers.CallbackRequest)
    (payload : oauth.StatePayload) (e : Env) (w : World)
    (Hstate : oauth.DecodeState (handlers.State req) = Ok payload)
    (Hmismatch : handlers.ServerName req <> oauth.ServerName payload) :
  let '(r, w') := handlers.Callback h req e w in
  r = handlers.Error errors.ErrInvalidState
  /\ trace w' = trace w ++ [EvLog LInfo "decoded state"; EvLog LError "server_name mismatch"]
  /\ tokens w' = tokens w
  /\ pkce w' = pkce w
  /\ heap w' = heap w
  /\ network_calls w' = network_calls w
  /\ redis_commands w' = redis_commands w.
Proof.
  unfold handlers.Callback. rewrite Hstate.
  destruct (String.eqb_spec (handlers.ServerName req) (oauth.ServerName payload)) as [|_];
    [contradiction|].
  unfold logger.Info, logger.Error, bind, emit, ret. simpl.
  rewrite <- app_assoc. simpl.
  repeat split.
  - rewrite network_calls_app. simpl. apply app_nil_r.
  - unfold redis_commands. simpl. rewrite List.filter_app. simpl. apply app_nil_r.
Qed.

Lemma C6_tenant_mismatch_witness :
  oauth.DecodeState login.state
    = Ok (oauth.mkStatePayload "user-at-start" "tenantX" "ABEiM0RVZneI")
  /\ fst (handlers.Callback scenario.h login.foreign_request scenario.env login.world)
     = handlers.Error errors.ErrInvalidState
  /\ tokens (snd (handlers.Callback scenario.h login.foreign_request scenario.env login.world))
     = ∅
  /\ network_calls (snd (handlers.Callback scenario.h login.foreign_request
                           scenario.env login.world)) = [].
Proof.
  split; [vm_compute; reflexivity|].
  pose proof (C6_tenant_mismatch scenario.h login.foreign_request
                (oauth.mkStatePayload "user-at-start" "tenantX" "ABEiM0RVZneI")
                scenario.env login.world
                ltac:(vm_compute; reflexivity) ltac:(discriminate)) as H.
  destruct (handlers.Callback _ _ _ _) as [r w'].
  destruct H as (Hr & _ & Ht & _ & _ & Hn & _).
  split; [exact Hr|]. split; [exact Ht | exact Hn].
Defined.
Lemma GetAndDeletePKCEVerifier_found state v e w :
  pkce w !! storage.PKCEKey state = Some v ->
  redis_fault e (Get (storage.PKCEKey state)) = None ->
  redis_fault e (Del (storage.PKCEKey state)) = None ->
  storage.GetAndDeletePKCEVerifier state e w =
    (Ok v,
     mkWorld (tokens w) (delete (storage.PKCEKey state) (pkce w)) (heap w) (rand_calls w)
       (trace w ++ [EvRedis (Get (storage.PKCEKey state));
                    EvRedis (Del (storage.PKCEKey state))])).
Proof.
  intros Hv Hg Hd.
  unfold storage.GetAndDeletePKCEVerifier, redis.get_pkce, redis.del_pkce,
    bind, emit, ask, get_world, put_pkce, ret. simpl.
  rewrite Hg, Hv, Hd. simpl. now rewrite <- app_assoc.
Qed.

Lemma ExchangeCode_x cfg code verifier e w :
  oauth.TokenURL cfg = config.XTokenURL ->
  verifier <> "" ->
  oauth.ExchangeCode cfg code verifier e w =
    let req := x_exchange_request cfg code verifier in
    match reply_ok5 (http e req) with
    | Some tr =>
        (Ok (length (heap w)),
         alloc w (token_of (now e) tr (oauth.r_RefreshToken tr)) [EvHTTP req])
    | None =>
        (Err (Wrapf "token exchange failed" (http_error "token exchange failed" (http e req))),
         with_trace w [EvHTTP req])
    end.
Proof.
  intros Hurl Hv. unfold oauth.ExchangeCode. rewrite Hurl.
  destruct (String.eqb_spec verifier "") as [|_]; [contradiction|].
  change (String.eqb config.XTokenURL "https://api.x.com/2/oauth2/token") with true.
  change (String.eqb config.XTokenURL "https://api.instagram.com/oauth/access_token") with false.
  change (String.eqb config.XTokenURL "https://graph.facebook.com/v18.0/oauth/access_token")
    with false.
  simpl negb. cbv iota.
  unfold bind at 1. rewrite exchangeCodeWithPKCE_run. simpl.
  destruct (reply_ok5 _); reflexivity.
Qed.

Lemma GetServerOAuthConfig_x c s sc redirect :
  config.Servers c !! s = Some sc ->
  config.GetServerOAuthConfig c "x" s redirect =
    Ok (config.provider_config (config.X sc)
          (oauth2cfg.mkEndpoint config.XAuthURL config.XTokenURL) redirect).
Proof. intros H. unfold config.GetServerOAuthConfig. now rewrite H. Qed.

Arguments storage.GetAndDeletePKCEVerifier : simpl never.
Arguments storage.SaveToken : simpl never.
Arguments storage.GetToken : simpl never.
Arguments oauth.ExchangeCode : simpl never.
Arguments config.GetServerOAuthConfig : simpl never.
Arguments x_exchange_request : simpl never.
Arguments token_of : simpl never.
Arguments storage.TokenKey : simpl never.
Arguments storage.PKCEKey : simpl never.

(** C4 (as amended). In a successful fresh-login callback for X, with a
    state of the same tenant and a PKCE verifier stored for it, the exchange
    request carries the stored verifier, the verifier is deleted, and the
    token with the access token of the provider's answer is persisted under
    the identity whose user id is that of the callback request; the user id
    in the decoded state takes no part in the key. *)
Theorem C4_fresh_login
    (h : handlers.AuthHandler) (req : handlers.CallbackRequest)
    (payload : oauth.StatePayload) (sc : config.ServerOAuthConfig)
    (verifier : string) (tr : oauth.tokenResponse) (e : Env) (w : World)
    (Hx : handlers.Provider req = "x")
    (Hstate : oauth.DecodeState (handlers.State req) = Ok payload)
    (Htenant : oauth.ServerName payload = handlers.ServerName req)
    (Hconf : config.Servers (handlers.h_config h) !! handlers.ServerName req = Some sc)
    (Hstored : pkce w !! storage.PKCEKey (handlers.State req) = Some verifier)
    (Hverifier : verifier <> "")
    (Hredis : forall c, redis_fault e c = None)
    (Hreply : reply_ok5 (http e (x_exchange_request (x_config sc (callback_redirect e req))
                                   (handlers.Code req) verifier)) = Some tr) :
  let '(r, w') := handlers.Callback h req e w in
  let exchange := x_exchange_request (x_config sc (callback_redirect e req))
                    (handlers.Code req) verifier in
  let tok := token_of (now e) tr (oauth.r_RefreshToken tr) in
  (exists data, r = handlers.SuccessWithMessage "OAuth callback completed successfully" data
                /\ handlers.cr_UserID data = handlers.UserID req)
  /\ network_calls w' = network_calls w ++ [EvHTTP exchange]
  /\ Values exchange !! "code_verifier" = Some verifier
  /\ pkce w' = delete (storage.PKCEKey (handlers.State req)) (pkce w)
  /\ tokens w'
     = <[storage.TokenKey (handlers.UserID req) "x" (handlers.ServerName req) := JsonOf tok]>
         (tokens w)
  /\ oauth2.AccessToken tok = oauth.r_AccessToken tr.
Proof.
  unfold handlers.Callback. rewrite Hstate, Htenant, String.eqb_refl. simpl negb. cbv iota.
  unfold callback_redirect in *. rewrite Hx in *. simpl String.eqb in *. cbv iota in *.
  set (redirect0 := if String.eqb (handlers.RedirectURI req) "" then _ else _) in *.
  unfold logger.Info, logger.Error, bind, emit, ask, ret, load. simpl.
  destruct (url_without_query e redirect0) as [cleaned|]; simpl.
  all: rewrite (GetServerOAuthConfig_x _ _ _ _ Hconf).
  all: unfold x_config in *.
  all: simpl.
  all: rewrite (GetAndDeletePKCEVerifier_found _ verifier) by (simpl; auto).
  all: simpl.
  all: rewrite ExchangeCode_x by (auto; reflexivity).
  all: simpl; rewrite Hreply.
  all: unfold alloc; simpl.
  all: rewrite (SaveToken_run _ _ _ _ (token_of (now e) tr (oauth.r_RefreshToken tr)))
         by (simpl; apply lookup_snoc).
  all: rewrite Hredis; simpl.
  all: rewrite (GetToken_found _ _ _ _ _ (token_of (now e) tr (oauth.r_RefreshToken tr)))
         by (simpl; first [apply Hredis | apply lookup_insert_eq]).
  all: simpl.
  all: rewrite lookup_snoc.
  all: rewrite (lookup_app_l_Some _ _ _ _ (lookup_snoc (heap w) _)).
  all: simpl; rewrite String.eqb_refl; simpl.
  all: split; [eexists; split; reflexivity|].
  all: split; [rewrite <- !app_assoc; rewrite network_calls_app; reflexivity|].
  all: split; [reflexivity|].
  all: repeat split.
Qed.

Lemma C4_fresh_login_witness :
  oauth.DecodeState login.state
    = Ok (oauth.mkStatePayload "user-at-start" "tenantX" "ABEiM0RVZneI")
  /\ pkce login.world !! storage.PKCEKey login.state = Some login.verifier
  /\ (exists data,
        fst (handlers.Callback scenario.h login.request scenario.env login.world)
        = handlers.SuccessWithMessage "OAuth callback completed successfully" data)
  /\ pkce (snd (handlers.Callback scenario.h login.request scenario.env login.world))
       !! storage.PKCEKey login.state = None
  /\ tokens (snd (handlers.Callback scenario.h login.request scenario.env login.world))
       !! storage.TokenKey "user-at-callback" "x" "tenantX"
     = Some (JsonOf (oauth2.mkToken "xtok" "bearer" "" (scenario.now0 + 2 * time.Hour))).
Proof.
  split; [vm_compute; reflexivity|]. split; [vm_compute; reflexivity|].
  pose proof (C4_fresh_login scenario.h login.request
                (oauth.mkStatePayload "user-at-start" "tenantX" "ABEiM0RVZneI")
                scenario.provider_set login.verifier
                (oauth.mkTokenResponse "xtok" "bearer" 7200 "" "")
                scenario.env login.world
                eq_refl ltac:(vm_compute; reflexivity) eq_refl eq_refl
                ltac:(vm_compute; reflexivity) ltac:(discriminate)
                (fun _ => eq_refl) ltac:(vm_compute; reflexivity)) as H.
  destruct (handlers.Callback _ _ _ _) as [r w'].
  destruct H as ((data & Hr & _) & _ & _ & Hp & Ht & _). cbn [fst snd].
  split; [exists data; exact Hr|]. split.
  - rewrite Hp. apply lookup_delete_eq.
  - rewrite Ht. apply lookup_insert_eq.
Defined.

(** C4 as stated fails: the token is stored under the user id of the
    request body, and nothing is stored under the user id that the state
    carries. *)
Lemma C4_counterexample :
  (exists payload,
     oauth.DecodeState (handlers.State login.request) = Ok payload
     /\ oauth.UserID payload = "user-at-start"
     /\ oauth.ServerName payload = handlers.ServerName login.request)
  /\ let '(r, w') := handlers.Callback scenario.h login.request scenario.env login.world in
     (exists data,
        r = handlers.SuccessWithMessage "OAuth callback completed successfully" data)
     /\ tokens w' !! storage.TokenKey "user-at-start" "x" "tenantX" = None
     /\ exists tok, tokens w' !! storage.TokenKey "user-at-callback" "x" "tenantX"
                    = Some (JsonOf tok)
                    /\ oauth2.AccessToken tok = "xtok".
Proof.
  split.
  - eexists. split; [vm_compute; reflexivity|]. split; reflexivity.
  - vm_compute. split; [eexists; reflexivity|]. split; [reflexivity|].
    eexists. split; reflexivity.
Qed.
(** ** base64: decoding undoes encoding *)

Lemma append_cons a s t : String a s +:+ t = String a (s +:+ t).
Proof. reflexivity. Qed.

Lemma append_nil t : "" +:+ t = t.
Proof. reflexivity. Qed.

Lemma append_nil_r s : s +:+ "" = s.
Proof. induction s as [|a s IH]; [reflexivity | now rewrite append_cons, IH]. Qed.

Lemma append_assoc s t u : (s +:+ t) +:+ u = s +:+ (t +:+ u).
Proof. induction s as [|a s IH]; [reflexivity | now rewrite !append_cons, IH]. Qed.

Ltac norm_append := rewrite ?append_assoc; rewrite ?append_cons, ?append_nil.

Section Base64.

Import base64.

Lemma index_of_enc_URL b5 b4 b3 b2 b1 b0 :
  bytes.index_of (enc encodeURL (sextet b5 b4 b3 b2 b1 b0)) encodeURL
  = Some (sextet b5 b4 b3 b2 b1 b0).
Proof. destruct b5, b4, b3, b2, b1, b0; reflexivity. Qed.

Lemma tb_sextet b5 b4 b3 b2 b1 b0 :
  let v := sextet b5 b4 b3 b2 b1 b0 in
  tb v 5 = b5 /\ tb v 4 = b4 /\ tb v 3 = b3 /\ tb v 2 = b2 /\ tb v 1 = b1 /\ tb v 0 = b0.
Proof. destruct b5, b4, b3, b2, b1, b0; repeat split. Qed.

(** no character of the alphabet is a line break, and all are ASCII *)
Lemma enc_URL_plain b5 b4 b3 b2 b1 b0 :
  let c := enc encodeURL (sextet b5 b4 b3 b2 b1 b0) in
  Ascii.eqb c bytes.CR || Ascii.eqb c bytes.LF = false
  /\ (bytes.byte c <? 0x80)%N = true
  /\ json.escape_byte c = String c "".
Proof. destruct b5, b4, b3, b2, b1, b0; repeat split. Qed.

Lemma decode_quantum3 a b c rest :
  decode_quanta encodeURL (quantum3 encodeURL a b c +:+ rest)
  = (r ← decode_quanta encodeURL rest; Some (String a (String b (String c r)))).
Proof.
  destruct a as [a0 a1 a2 a3 a4 a5 a6 a7], b as [b0 b1 b2 b3 b4 b5 b6 b7],
    c as [c0 c1 c2 c3 c4 c5 c6 c7].
  unfold quantum3. rewrite !append_cons, append_nil. cbn [decode_quanta].
  rewrite !index_of_enc_URL. cbn [mbind option_bind].
  unfold byte1, byte2, byte3.
  destruct (tb_sextet a7 a6 a5 a4 a3 a2) as (-> & -> & -> & -> & -> & ->).
  destruct (tb_sextet a1 a0 b7 b6 b5 b4) as (-> & -> & -> & -> & -> & ->).
  destruct (tb_sextet b3 b2 b1 b0 c7 c6) as (-> & -> & -> & -> & -> & ->).
  destruct (tb_sextet c5 c4 c3 c2 c1 c0) as (-> & -> & -> & -> & -> & ->).
  reflexivity.
Qed.

Lemma decode_quantum2 a b :
  decode_quanta encodeURL (quantum2 encodeURL a b) = Some (String a (String b "")).
Proof.
  destruct a as [a0 a1 a2 a3 a4 a5 a6 a7], b as [b0 b1 b2 b3 b4 b5 b6 b7].
  unfold quantum2. cbn [decode_quanta].
  rewrite !index_of_enc_URL. cbn [mbind option_bind].
  unfold byte1, byte2.
  destruct (tb_sextet a7 a6 a5 a4 a3 a2) as (-> & -> & -> & -> & -> & ->).
  destruct (tb_sextet a1 a0 b7 b6 b5 b4) as (-> & -> & -> & -> & -> & ->).
  destruct (tb_sextet b3 b2 b1 b0 false false) as (-> & -> & -> & -> & _ & _).
  reflexivity.
Qed.

Lemma decode_quantum1 a :
  decode_quanta encodeURL (quantum1 encodeURL a) = Some (String a "").
Proof.
  destruct a as [a0 a1 a2 a3 a4 a5 a6 a7].
  unfold quantum1. cbn [decode_quanta].
  rewrite !index_of_enc_URL. cbn [mbind option_bind].
  unfold byte1.
  destruct (tb_sextet a7 a6 a5 a4 a3 a2) as (-> & -> & -> & -> & -> & ->).
  destruct (tb_sextet a1 a0 false false false false) as (-> & -> & _).
  reflexivity.
Qed.

Lemma plain_app s t : plain s -> plain t -> plain (s +:+ t).
Proof.
  induction s as [|c s IH]; [auto|]. intros [Hc Hs] Ht. rewrite append_cons.
  split; auto.
Qed.

Lemma plain_quantum3 a b c : plain (base64.quantum3 encodeURL a b c).
Proof.
  destruct a as [a0 a1 a2 a3 a4 a5 a6 a7], b as [b0 b1 b2 b3 b4 b5 b6 b7],
    c as [c0 c1 c2 c3 c4 c5 c6 c7].
  unfold quantum3. cbn [plain]. repeat split; apply enc_URL_plain.
Qed.

Lemma plain_quantum2 a b : plain (base64.quantum2 encodeURL a b).
Proof.
  destruct a as [a0 a1 a2 a3 a4 a5 a6 a7], b as [b0 b1 b2 b3 b4 b5 b6 b7].
  unfold quantum2. cbn [plain]. repeat split; apply enc_URL_plain.
Qed.

Lemma plain_quantum1 a : plain (base64.quantum1 encodeURL a).
Proof.
  destruct a as [a0 a1 a2 a3 a4 a5 a6 a7].
  unfold quantum1. cbn [plain]. repeat split; apply enc_URL_plain.
Qed.

(** induction three bytes at a time *)
Lemma by_three (P : string -> Prop) :
  P "" ->
  (forall a, P (String a "")) ->
  (forall a b, P (String a (String b ""))) ->
  (forall a b c rest, P rest -> P (String a (String b (String c rest)))) ->
  forall s, P s.
Proof.
  intros H0 H1 H2 H3 s.
  assert (H : forall n s, (String.length s <= n)%nat -> P s).
  { clear s. induction n as [|n IH]; intros s Hn.
    - destruct s; [exact H0 | simpl in Hn; lia].
    - destruct s as [|a [|b [|c rest]]]; auto.
      apply H3, IH. simpl in Hn. lia. }
  now apply (H (String.length s)).
Qed.

Lemma plain_EncodeToString s : plain (RawURLEncoding.EncodeToString s).
Proof.
  unfold RawURLEncoding.EncodeToString.
  induction s as [| a | a b | a b c rest IH] using by_three; cbn [EncodeToString].
  - exact I.
  - rewrite append_nil_r. apply plain_quantum1.
  - rewrite append_nil_r. apply plain_quantum2.
  - apply plain_app; [apply plain_quantum3 | exact IH].
Qed.

Lemma strip_newlines_plain s : plain s -> strip_newlines s = s.
Proof.
  induction s as [|c s IH]; [reflexivity|]. intros [(Hc & _) Hs].
  cbn [strip_newlines]. rewrite Hc. now rewrite IH.
Qed.

Theorem DecodeString_EncodeToString s :
  RawURLEncoding.DecodeString (RawURLEncoding.EncodeToString s) = Some s.
Proof.
  unfold RawURLEncoding.DecodeString, DecodeString.
  rewrite strip_newlines_plain by apply plain_EncodeToString.
  unfold RawURLEncoding.EncodeToString.
  induction s as [| a | a b | a b c rest IH] using by_three; cbn [EncodeToString].
  - reflexivity.
  - rewrite append_nil_r. apply decode_quantum1.
  - rewrite append_nil_r. apply decode_quantum2.
  - rewrite decode_quantum3, IH. reflexivity.
Qed.

End Base64.
(** ** UTF-8: encoding undoes decoding of a valid sequence *)

(** [lia] with quotients and remainders by constants *)
Ltac dlia := zify; Z.to_euclidean_division_equations; lia.

Section Utf8.

Local Open Scope N_scope.
Import utf8 bytes.

Lemma lor_add a b k : b < 2 ^ k -> N.lor (a * 2 ^ k) b = a * 2 ^ k + b.
Proof.
  intros Hb. rewrite <- N.lxor_lor, N.add_nocarry_lxor; auto.
  all: apply N.bits_inj; intros m; rewrite N.land_spec, N.bits_0.
  all: destruct (N.lt_ge_cases m k) as [Hm|Hm];
    [now rewrite N.mul_pow2_bits_low | rewrite andb_comm].
  all: destruct (N.eq_dec b 0) as [->|Hb0]; [now rewrite N.bits_0|].
  all: rewrite N.bits_above_log2; [reflexivity|].
  all: apply N.lt_le_trans with k; [|exact Hm].
  all: now apply N.log2_lt_pow2; [apply N.neq_0_lt_0|].
Qed.

Lemma land_mod a k : N.land a (N.ones k) = a mod 2 ^ k.
Proof. apply N.land_ones. Qed.

Lemma chr_byte c : chr (byte c) = c.
Proof. apply ascii_N_embedding. Qed.

Lemma byte_lt c : byte c < 256.
Proof. apply N_ascii_bounded. Qed.


(** the runes of two, three and four bytes, in arithmetic *)
Lemma rune2 p0 b1 :
  N.lor (N.shiftl (N.land p0 0x1F) 6) (N.land b1 0x3F) = (p0 mod 32) * 64 + b1 mod 64.
Proof.
  change 0x1F with (N.ones 5). change 0x3F with (N.ones 6).
  rewrite !land_mod, N.shiftl_mul_pow2.
  rewrite lor_add by (apply N.mod_lt; discriminate). reflexivity.
Qed.

Lemma rune3 p0 b1 b2 :
  N.lor (N.lor (N.shiftl (N.land p0 0x0F) 12) (N.shiftl (N.land b1 0x3F) 6)) (N.land b2 0x3F)
  = (p0 mod 16) * 4096 + (b1 mod 64) * 64 + b2 mod 64.
Proof.
  change 0x0F with (N.ones 4). change 0x3F with (N.ones 6).
  rewrite !land_mod, !N.shiftl_mul_pow2.
  assert (H1 : b1 mod 2 ^ 6 < 2 ^ 6) by (apply N.mod_lt; discriminate).
  assert (H2 : b2 mod 2 ^ 6 < 2 ^ 6) by (apply N.mod_lt; discriminate).
  rewrite (lor_add _ (b1 mod 2 ^ 6 * 2 ^ 6) 12) by (change (2 ^ 6) with 64 in *; change (2 ^ 12) with 4096; lia).
  replace (p0 mod 2 ^ 4 * 2 ^ 12 + b1 mod 2 ^ 6 * 2 ^ 6)
    with ((p0 mod 2 ^ 4 * 2 ^ 6 + b1 mod 2 ^ 6) * 2 ^ 6)
    by (change (2 ^ 12) with (2 ^ 6 * 2 ^ 6); lia).
  rewrite lor_add by assumption.
  change (2 ^ 6) with 64. change (2 ^ 4) with 16. lia.
Qed.

Lemma rune4 p0 b1 b2 b3 :
  N.lor (N.lor (N.lor (N.shiftl (N.land p0 0x07) 18) (N.shiftl (N.land b1 0x3F) 12))
               (N.shiftl (N.land b2 0x3F) 6)) (N.land b3 0x3F)
  = (p0 mod 8) * 262144 + (b1 mod 64) * 4096 + (b2 mod 64) * 64 + b3 mod 64.
Proof.
  change 0x07 with (N.ones 3). change 0x3F with (N.ones 6).
  rewrite !land_mod, !N.shiftl_mul_pow2.
  assert (H1 : b1 mod 2 ^ 6 < 2 ^ 6) by (apply N.mod_lt; discriminate).
  assert (H2 : b2 mod 2 ^ 6 < 2 ^ 6) by (apply N.mod_lt; discriminate).
  assert (H3 : b3 mod 2 ^ 6 < 2 ^ 6) by (apply N.mod_lt; discriminate).
  rewrite (lor_add _ (b1 mod 2 ^ 6 * 2 ^ 12) 18)
    by (change (2 ^ 6) with 64 in *; change (2 ^ 12) with 4096; change (2 ^ 18) with 262144; lia).
  replace (p0 mod 2 ^ 3 * 2 ^ 18 + b1 mod 2 ^ 6 * 2 ^ 12)
    with ((p0 mod 2 ^ 3 * 2 ^ 6 + b1 mod 2 ^ 6) * 2 ^ 12)
    by (change (2 ^ 18) with (2 ^ 6 * 2 ^ 12); lia).
  rewrite (lor_add _ (b2 mod 2 ^ 6 * 2 ^ 6) 12)
    by (change (2 ^ 6) with 64 in *; change (2 ^ 12) with 4096; lia).
  replace ((p0 mod 2 ^ 3 * 2 ^ 6 + b1 mod 2 ^ 6) * 2 ^ 12 + b2 mod 2 ^ 6 * 2 ^ 6)
    with (((p0 mod 2 ^ 3 * 2 ^ 6 + b1 mod 2 ^ 6) * 2 ^ 6 + b2 mod 2 ^ 6) * 2 ^ 6)
    by (change (2 ^ 12) with (2 ^ 6 * 2 ^ 6); lia).
  rewrite lor_add by assumption.
  change (2 ^ 6) with 64. change (2 ^ 3) with 8. lia.
Qed.


Lemma lor_lead (l k x : N) : x < 2 ^ k -> N.lor (l * 2 ^ k) x = l * 2 ^ k + x.
Proof. apply lor_add. Qed.

Lemma low6 r : N.lor 0x80 (N.land r 0x3F) = 128 + r mod 64.
Proof.
  change 0x3F with (N.ones 6). rewrite land_mod.
  change 0x80 with (2 * 2 ^ 6). rewrite lor_add by (apply N.mod_lt; discriminate).
  reflexivity.
Qed.

Lemma EncodeRune2 r :
  0x80 <= r <= 0x7FF ->
  EncodeRune r = String (chr (192 + r / 64)) (String (chr (128 + r mod 64)) "").
Proof.
  intros [Hlo Hhi]. unfold EncodeRune.
  destruct (N.leb_spec r 0x7F); [lia|].
  destruct (N.leb_spec r 0x7FF); [|lia].
  rewrite low6, N.shiftr_div_pow2.
  change 0xC0 with (3 * 2 ^ 6).
  rewrite lor_add by (change (2 ^ 6) with 64; dlia).
  reflexivity.
Qed.

Lemma EncodeRune3 r :
  0x800 <= r <= 0xFFFF -> surrogate r = false ->
  EncodeRune r = String (chr (224 + r / 4096))
                   (String (chr (128 + (r / 64) mod 64)) (String (chr (128 + r mod 64)) "")).
Proof.
  intros [Hlo Hhi] Hs. unfold EncodeRune. rewrite Hs.
  destruct (N.leb_spec r 0x7F); [lia|].
  destruct (N.leb_spec r 0x7FF); [lia|].
  unfold MaxRune. destruct (N.ltb_spec 0x10FFFF r); [lia|]. cbn [orb].
  destruct (N.leb_spec r 0xFFFF); [|lia].
  rewrite !low6, !N.shiftr_div_pow2.
  change 0xE0 with (14 * 2 ^ 4).
  rewrite lor_add by (change (2 ^ 12) with 4096; change (2 ^ 4) with 16; dlia).
  reflexivity.
Qed.

Lemma EncodeRune4 r :
  0x10000 <= r <= 0x10FFFF ->
  EncodeRune r = String (chr (240 + r / 262144))
                   (String (chr (128 + (r / 4096) mod 64))
                      (String (chr (128 + (r / 64) mod 64)) (String (chr (128 + r mod 64)) ""))).
Proof.
  intros [Hlo Hhi]. unfold EncodeRune.
  destruct (N.leb_spec r 0x7F); [lia|].
  destruct (N.leb_spec r 0x7FF); [lia|].
  unfold MaxRune, surrogate. destruct (N.ltb_spec 0x10FFFF r); [lia|].
  destruct (N.leb_spec r 0xDFFF); [lia|]. rewrite andb_false_r. cbn [orb].
  destruct (N.leb_spec r 0xFFFF); [lia|].
  rewrite !low6, !N.shiftr_div_pow2.
  change 0xF0 with (30 * 2 ^ 3).
  rewrite lor_add by (change (2 ^ 18) with 262144; change (2 ^ 3) with 8; dlia).
  reflexivity.
Qed.


Lemma DecodeRuneInString_valid c0 r0 r size :
  RuneSelf <= byte c0 ->
  DecodeRuneInString (String c0 r0) = (r, size) ->
  size <> 1%nat ->
  exists prefix, decodes (String c0 r0) r size prefix.
Proof.
  intros Hc0 H Hsize. unfold DecodeRuneInString in H. unfold RuneSelf in *.
  set (p0 := byte c0) in *.
  assert (Hp0 : p0 < 256) by apply byte_lt.
  destruct (p0 <? 0x80) eqn:E0; [apply N.ltb_lt in E0; lia|].
  destruct ((p0 <? 0xC2) || (0xF4 <? p0)) eqn:E1; [congruence|].
  destruct (orb_false_elim _ _ E1) as [Hp1 Hp2].
  apply N.ltb_ge in Hp1, Hp2.
  destruct r0 as [|c1 r1]; [congruence|].
  set (b1 := byte c1) in *.
  assert (Hb1 : b1 < 256) by apply byte_lt.
  set (lo := if p0 =? 0xE0 then 0xA0 else if p0 =? 0xF0 then 0x90 else 0x80) in *.
  set (hi := if p0 =? 0xED then 0x9F else if p0 =? 0xF4 then 0x8F else 0xBF) in *.
  destruct ((lo <=? b1) && (b1 <=? hi)) eqn:E2; [|cbn in H; congruence].
  destruct (andb_prop _ _ E2) as [Hlo Hhi].
  apply N.leb_le in Hlo, Hhi.
  assert (Hlohi : 0x80 <= lo /\ hi <= 0xBF
                  /\ (p0 = 0xE0 -> lo = 0xA0) /\ (p0 = 0xF0 -> lo = 0x90)
                  /\ (p0 = 0xED -> hi = 0x9F) /\ (p0 = 0xF4 -> hi = 0x8F)).
  { subst lo hi.
    destruct (N.eqb_spec p0 0xE0), (N.eqb_spec p0 0xF0), (N.eqb_spec p0 0xED),
      (N.eqb_spec p0 0xF4); repeat split; intros; try lia; try reflexivity. }
  destruct Hlohi as (Hlo0 & Hhi0 & HE0 & HF0 & HED & HF4).
  cbn [negb] in H.
  destruct (p0 <? 0xE0) eqn:E3.
  { (* two bytes *)
    apply N.ltb_lt in E3 as Hp3. injection H as <- <-.
    exists (String c0 (String c1 "")). unfold decodes.
    split; [reflexivity|]. split; [reflexivity|]. split; [|split; [|split]].
    - rewrite rune2, EncodeRune2 by dlia.
      replace (192 + _ / 64) with p0 by dlia.
      replace (128 + _ mod 64) with b1 by dlia.
      subst p0 b1. now rewrite !chr_byte.
    - intros rest. rewrite !append_cons, append_nil.
      unfold DecodeRuneInString, RuneSelf. fold p0. rewrite E0, E1. fold b1 lo hi.
      rewrite E2, E3. reflexivity.
    - reflexivity.
    - exists r1. split; reflexivity. }
  destruct r1 as [|c2 r2]; [congruence|].
  set (b2 := byte c2) in *.
  assert (Hb2 : b2 < 256) by apply byte_lt.
  destruct (cont b2) eqn:E4; [|cbn in H; congruence].
  unfold cont in E4. destruct (andb_prop _ _ E4) as [Hc2lo Hc2hi].
  apply N.leb_le in Hc2lo, Hc2hi. fold (cont b2) in E4.
  apply N.ltb_ge in E3 as Hp3.
  cbn [negb] in H.
  destruct (p0 <? 0xF0) eqn:E5.
  { (* three bytes *)
    apply N.ltb_lt in E5 as Hp5. injection H as <- <-.
    exists (String c0 (String c1 (String c2 ""))). unfold decodes.
    split; [reflexivity|]. split; [reflexivity|]. split; [|split; [|split]].
    - rewrite rune3, EncodeRune3.
      + replace (224 + _ / 4096) with p0 by dlia.
        replace (128 + (_ / 64) mod 64) with b1 by dlia.
        replace (128 + _ mod 64) with b2 by dlia.
        subst p0 b1 b2. now rewrite !chr_byte.
      + dlia.
      + unfold surrogate. apply andb_false_iff.
        destruct (N.lt_ge_cases p0 0xED) as [Hc|Hc]; [left; apply N.leb_gt; dlia|].
        destruct (N.eq_dec p0 0xED) as [He|He];
          [left; apply N.leb_gt; specialize (HED He); dlia
          | right; apply N.leb_gt; dlia].
    - intros rest. rewrite !append_cons, append_nil.
      unfold DecodeRuneInString, RuneSelf. fold p0. rewrite E0, E1. fold b1 lo hi.
      rewrite E2, E3. fold b2. rewrite E4, E5. reflexivity.
    - reflexivity.
    - exists r2. split; reflexivity. }
  destruct r2 as [|c3 r3]; [congruence|].
  set (b3 := byte c3) in *.
  assert (Hb3 : b3 < 256) by apply byte_lt.
  destruct (cont b3) eqn:E6; [|cbn in H; congruence].
  unfold cont in E6. destruct (andb_prop _ _ E6) as [Hc3lo Hc3hi].
  apply N.leb_le in Hc3lo, Hc3hi. fold (cont b3) in E6.
  apply N.ltb_ge in E5 as Hp5.
  cbn [negb] in H. injection H as <- <-.
  exists (String c0 (String c1 (String c2 (String c3 "")))). unfold decodes.
  split; [reflexivity|]. split; [reflexivity|]. split; [|split; [|split]].
  - rewrite rune4, EncodeRune4.
    + replace (240 + _ / 262144) with p0 by dlia.
      replace (128 + (_ / 4096) mod 64) with b1 by dlia.
      replace (128 + (_ / 64) mod 64) with b2 by dlia.
      replace (128 + _ mod 64) with b3 by dlia.
      subst p0 b1 b2 b3. now rewrite !chr_byte.
    + destruct (N.eq_dec p0 0xF0) as [He|He]; [specialize (HF0 He); dlia|].
      destruct (N.eq_dec p0 0xF4) as [He'|He']; [specialize (HF4 He'); dlia|]. dlia.
  - intros rest. rewrite !append_cons, append_nil.
    unfold DecodeRuneInString, RuneSelf. fold p0. rewrite E0, E1. fold b1 lo hi.
    rewrite E2, E3. fold b2. rewrite E4, E5. fold b3. rewrite E6. reflexivity.
  - reflexivity.
  - exists r3. split; reflexivity.
Qed.

End Utf8.
(** ** JSON strings: unquoting undoes quoting of valid UTF-8 *)

Section JsonString.

Import bytes json.

Lemma length_append s t : String.length (s +:+ t) = (String.length s + String.length t)%nat.
Proof. induction s as [|a s IH]; [reflexivity|]. rewrite append_cons. simpl. now rewrite IH. Qed.

Lemma parse_string_escape_byte c fuel rest :
  (byte c <? utf8.RuneSelf)%N = true ->
  parse_string (S fuel) (escape_byte c +:+ rest)
  = prepend (String c "") (parse_string fuel rest).
Proof.
  destruct c as [b0 b1 b2 b3 b4 b5 b6 b7]. destruct b7.
  { destruct b0, b1, b2, b3, b4, b5, b6; discriminate. }
  intros _.
  destruct b0, b1, b2, b3, b4, b5, b6; reflexivity.
Qed.


Lemma EncodeRune_nonempty r : utf8.EncodeRune r <> "".
Proof.
  unfold utf8.EncodeRune.
  destruct (r <=? 0x7F)%N; [discriminate|].
  destruct (r <=? 0x7FF)%N; [discriminate|].
  destruct ((utf8.MaxRune <? r)%N || utf8.surrogate r); [discriminate|].
  destruct (r <=? 0xFFFF)%N; discriminate.
Qed.

Lemma escape_byte_nonempty c : (1 <= String.length (escape_byte c))%nat.
Proof.
  unfold escape_byte.
  destruct (htmlSafeSet (byte c)); [simpl; lia|].
  destruct ((byte c =? 0x5C) || (byte c =? 0x22))%N; [simpl; lia|].
  destruct (byte c =? 0x08)%N; [simpl; lia|].
  destruct (byte c =? 0x0C)%N; [simpl; lia|].
  destruct (byte c =? 0x0A)%N; [simpl; lia|].
  destruct (byte c =? 0x0D)%N; [simpl; lia|].
  destruct (byte c =? 0x09)%N; [simpl; lia|].
  rewrite length_append. simpl. lia.
Qed.

Lemma high_byte_plain c :
  (byte c <? utf8.RuneSelf)%N = false ->
  Ascii.eqb c dquote = false /\ Ascii.eqb c backslash = false
  /\ (byte c <? 0x20)%N = false.
Proof.
  destruct c as [b0 b1 b2 b3 b4 b5 b6 b7]. destruct b7.
  - intros _. destruct b0, b1, b2, b3, b4, b5, b6; repeat split.
  - destruct b0, b1, b2, b3, b4, b5, b6; discriminate.
Qed.

(** one step of the parser over a valid sequence of several bytes *)
Lemma parse_string_rune c0 r0 r size prefix fuel rest :
  (byte c0 <? utf8.RuneSelf)%N = false ->
  decodes (String c0 r0) r size prefix ->
  parse_string (S fuel) (prefix +:+ rest)
  = prepend prefix (parse_string fuel rest).
Proof.
  intros Hc (Htake & Hlen & Henc & Hdec & Hdrop & _).
  assert (Hp : exists p', prefix = String c0 p').
  { destruct size as [|size].
    - destruct prefix; [|simpl in Hlen; discriminate].
      exfalso. now apply (EncodeRune_nonempty r).
    - simpl in Htake. rewrite <- Htake. eauto. }
  destruct Hp as [p' ->]. rewrite append_cons.
  destruct (high_byte_plain c0 Hc) as (Hq & Hb & Hl).
  cbn [parse_string]. rewrite Hq, Hb, Hl, Hc.
  rewrite <- append_cons, Hdec, Henc, Hdrop. reflexivity.
Qed.

Lemma parse_string_u2028 fuel rest :
  parse_string (S fuel) ("\u202" +:+ String (hexdigit (N.land 0x2028 0xF)) "" +:+ rest)
  = prepend (utf8.EncodeRune 0x2028) (parse_string fuel rest).
Proof. reflexivity. Qed.

Lemma parse_string_u2029 fuel rest :
  parse_string (S fuel) ("\u202" +:+ String (hexdigit (N.land 0x2029 0xF)) "" +:+ rest)
  = prepend (utf8.EncodeRune 0x2029) (parse_string fuel rest).
Proof. reflexivity. Qed.

Theorem parse_string_appendString n :
  forall s, (String.length s <= n)%nat -> utf8.valid_loop n s = true ->
  forall fuel rest, (String.length (appendString_loop n s) < fuel)%nat ->
    parse_string fuel (appendString_loop n s +:+ String dquote rest) = Some (s, rest).
Proof.
  induction n as [|n IH]; intros s Hlen Hvalid fuel rest Hfuel.
  { destruct s; [|simpl in Hlen; lia]. destruct fuel; [simpl in Hfuel; lia|]. reflexivity. }
  destruct s as [|c0 r0].
  { destruct fuel; [simpl in Hfuel; lia|]. reflexivity. }
  cbn [appendString_loop utf8.valid_loop] in *.
  destruct (byte c0 <? utf8.RuneSelf)%N eqn:Hc.
  - (* one byte *)
    rewrite length_append in Hfuel.
    assert (Hesc : (1 <= String.length (escape_byte c0))%nat).
    { apply escape_byte_nonempty. }
    destruct fuel as [|fuel]; [lia|].
    rewrite append_assoc, parse_string_escape_byte by assumption.
    rewrite IH; [reflexivity | simpl in Hlen; lia | assumption | lia].
  - (* several bytes *)
    destruct (utf8.DecodeRuneInString (String c0 r0)) as [r size] eqn:Hd.
    destruct (Nat.eqb_spec size 1) as [|Hsize]; [discriminate|].
    rewrite andb_false_r in *.
    destruct (DecodeRuneInString_valid c0 r0 r size) as [prefix Hdec]; auto.
    { apply N.ltb_ge. exact Hc. }
    pose proof Hdec as (Htake & Hplen & Henc & _ & _ & (rest' & Hs & Hdrop)).
    rewrite Hdrop in *.
    assert (Hsz : (2 <= size)%nat).
    { destruct size as [|[|size]]; [|congruence|lia].
      exfalso. destruct prefix; [|simpl in Hplen; discriminate].
      now apply (EncodeRune_nonempty r). }
    assert (Hlen' : (String.length rest' <= n)%nat).
    { rewrite Hs, length_append in Hlen. lia. }
    destruct ((r =? 0x2028) || (r =? 0x2029))%N eqn:Hsep.
    + (* the separators are written as escapes *)
      rewrite <- Henc in Hs.
      destruct (N.eqb_spec r 0x2028) as [->|_];
        [|destruct (N.eqb_spec r 0x2029) as [->|_]; [|discriminate]].
      * rewrite !length_append in Hfuel. simpl in Hfuel.
        destruct fuel as [|fuel]; [lia|].
        rewrite !append_assoc, parse_string_u2028.
        rewrite IH; [rewrite Hs; reflexivity | assumption | assumption | simpl in Hfuel; lia].
      * rewrite !length_append in Hfuel. simpl in Hfuel.
        destruct fuel as [|fuel]; [lia|].
        rewrite !append_assoc, parse_string_u2029.
        rewrite IH; [rewrite Hs; reflexivity | assumption | assumption | simpl in Hfuel; lia].
    + rewrite Htake in *. rewrite length_append in Hfuel.
      destruct fuel as [|fuel]; [lia|].
      rewrite append_assoc, (parse_string_rune c0 r0 r size prefix) by assumption.
      rewrite IH; [rewrite Hs; reflexivity | assumption | assumption | lia].
Qed.

End JsonString.
(** ** The state codec *)

Section StateCodec.

Import bytes json.

Lemma plain_valid s : plain s -> forall n, utf8.valid_loop n s = true.
Proof.
  induction s as [|c s IH]; intros Hp n; destruct n; try reflexivity.
  destruct Hp as [(_ & Hc & _) Hs]. cbn [utf8.valid_loop].
  unfold utf8.RuneSelf. rewrite Hc. now apply IH.
Qed.

Lemma plain_take s : plain s -> forall n, plain (take n s).
Proof.
  induction s as [|c s IH]; intros Hp n; destruct n; try exact I.
  destruct Hp as [Hc Hs]. cbn [take plain]. split; [exact Hc | now apply IH].
Qed.

Lemma parse_value_dquote fuel depth r :
  parse_value (S fuel) depth (String dquote r)
  = '(t, r') ← parse_string (String.length r) r; Some (Str t, r').
Proof. reflexivity. Qed.

Lemma parse_appendString s rest :
  utf8.ValidString s = true ->
  parse_string (String.length (appendString_loop (String.length s) s +:+ String dquote rest))
    (appendString_loop (String.length s) s +:+ String dquote rest) = Some (s, rest).
Proof.
  intros Hv. apply parse_string_appendString; [lia | exact Hv |].
  rewrite length_append. simpl. lia.
Qed.

Lemma parse_value_appendString fuel depth s rest :
  utf8.ValidString s = true ->
  parse_value (S fuel) depth (appendString s +:+ rest) = Some (Str s, rest).
Proof.
  intros Hv. unfold appendString.
  rewrite append_cons, append_assoc, append_cons, append_nil.
  rewrite parse_value_dquote, parse_appendString by assumption. reflexivity.
Qed.

Lemma parse_members_dquote fuel depth r :
  parse_members (S fuel) depth (String dquote r)
  = '(k, r1) ← parse_string (String.length r) r;
    match skip_ws r1 with
    | String ":" r2 =>
        '(v, r3) ← parse_value fuel depth r2;
        match skip_ws r3 with
        | String "," r4 =>
            '(ms, r5) ← parse_members fuel depth r4; Some ((k, v) :: ms, r5)
        | String "}" r4 => Some ([(k, v)], r4)
        | _ => None
        end
    | _ => None
    end.
Proof. reflexivity. Qed.

Lemma parse_member fuel depth name s rest :
  utf8.ValidString name = true -> utf8.ValidString s = true ->
  parse_members (S (S fuel)) depth (appendString name +:+ ":" +:+ appendString s +:+ rest)
  = match skip_ws rest with
    | String "," r4 =>
        '(ms, r5) ← parse_members (S fuel) depth r4; Some ((name, Str s) :: ms, r5)
    | String "}" r4 => Some ([(name, Str s)], r4)
    | _ => None
    end.
Proof.
  intros Hn Hs. unfold appendString at 1.
  rewrite append_cons, append_assoc, append_cons, append_nil.
  rewrite parse_members_dquote, parse_appendString by assumption.
  rewrite append_cons, append_nil.
  cbn [mbind option_bind skip_ws].
  change (isSpace ":") with false. cbn iota.
  rewrite parse_value_appendString by assumption. reflexivity.
Qed.

(** a member that is followed by another, and the last member *)
Lemma parse_members_more fuel depth name s rest :
  utf8.ValidString name = true -> utf8.ValidString s = true ->
  parse_members (S (S fuel)) depth
    (appendString name +:+ ":" +:+ appendString s +:+ "," +:+ rest)
  = '(ms, r) ← parse_members (S fuel) depth rest; Some ((name, Str s) :: ms, r).
Proof. intros Hn Hs. now rewrite parse_member. Qed.

Lemma parse_members_last fuel depth name s :
  utf8.ValidString name = true -> utf8.ValidString s = true ->
  parse_members (S (S fuel)) depth (appendString name +:+ ":" +:+ appendString s +:+ "}")
  = Some ([(name, Str s)], "").
Proof. intros Hn Hs. now rewrite parse_member. Qed.

Lemma parse_value_object fuel name rest :
  parse_value (S fuel) 0 ("{" +:+ appendString name +:+ rest)
  = '(ms, r) ← parse_members fuel 1 (appendString name +:+ rest); Some (Object ms, r).
Proof. reflexivity. Qed.

Import oauth.

Lemma parse_value_StatePayload fuel p b :
  valid_payload p -> marshal_StatePayload p = Ok b ->
  parse_value (5 + fuel) 0 b = Some (Object (state_members p), "").
Proof.
  intros (Hu & Hs & Hn) [= <-].
  change (key "uid") with (appendString "uid" +:+ ":").
  change (key "server") with (appendString "server" +:+ ":").
  change (key "n") with (appendString "n" +:+ ":").
  rewrite !append_assoc.
  change (5 + fuel)%nat with (S (S (S (S (S fuel))))).
  rewrite parse_value_object.
  rewrite parse_members_more, parse_members_more, parse_members_last
    by (assumption || reflexivity).
  reflexivity.
Qed.

Lemma marshal_length p b :
  marshal_StatePayload p = Ok b -> (2 <= String.length b)%nat.
Proof.
  intros [= <-]. rewrite append_cons, append_nil. unfold key at 1.
  rewrite append_cons. simpl. lia.
Qed.

Theorem unmarshal_marshal p b :
  valid_payload p -> marshal_StatePayload p = Ok b -> unmarshal_StatePayload b = Ok p.
Proof.
  intros Hv Hb. unfold unmarshal_StatePayload, Unmarshal, parse.
  pose proof (marshal_length p b Hb) as Hlen.
  replace (2 * String.length b + 2)%nat with (5 + (2 * String.length b - 3))%nat by lia.
  rewrite (parse_value_StatePayload _ p b Hv Hb).
  destruct p as [u s n]. reflexivity.
Qed.

End StateCodec.
(** ** The state round trip *)

Section StateRoundTrip.

Import bytes base64 oauth.

Lemma RandStringURLSafe_run n e w :
  rand_fault e (rand_calls w) = None ->
  fst (RandStringURLSafe n e w)
  = Ok (take n (RawURLEncoding.EncodeToString (drawn e (rand_calls w) n))).
Proof.
  intros Hr. unfold RandStringURLSafe, rand.Read, bind, ret. now rewrite Hr.
Qed.

Lemma RandStringURLSafe_fault n e w err :
  rand_fault e (rand_calls w) = Some err ->
  fst (RandStringURLSafe n e w) = Err err.
Proof.
  intros Hr. unfold RandStringURLSafe, rand.Read, bind, ret. now rewrite Hr.
Qed.

Lemma EncodeState_run userID serverName e w :
  fst (EncodeState userID serverName e w)
  = match fst (RandStringURLSafe 12 e w) with
    | Err err => Err (Wrapf "failed to generate nonce" err)
    | Ok nonce =>
        match marshal_StatePayload (mkStatePayload userID serverName nonce) with
        | Err err => Err (Wrapf "failed to marshal state payload" err)
        | Ok b => Ok (RawURLEncoding.EncodeToString b)
        end
    end.
Proof.
  unfold EncodeState, bind.
  destruct (RandStringURLSafe 12 e w) as [[nonce|err] w']; reflexivity.
Qed.

Lemma nonce_valid n s : utf8.ValidString (take n (RawURLEncoding.EncodeToString s)) = true.
Proof. apply plain_valid, plain_take, plain_EncodeToString. Qed.

Theorem DecodeState_marshal p b :
  valid_payload p -> marshal_StatePayload p = Ok b ->
  DecodeState (RawURLEncoding.EncodeToString b) = Ok p.
Proof.
  intros Hv Hb. unfold DecodeState.
  rewrite DecodeString_EncodeToString, (unmarshal_marshal p b Hv Hb). reflexivity.
Qed.

Lemma EncodeToString_inj s t :
  RawURLEncoding.EncodeToString s = RawURLEncoding.EncodeToString t -> s = t.
Proof.
  intros H. apply (f_equal RawURLEncoding.DecodeString) in H.
  rewrite !DecodeString_EncodeToString in H. congruence.
Qed.

Lemma take_quantum3 n a b c r :
  take (4 + n) (quantum3 encodeURL a b c +:+ r) = quantum3 encodeURL a b c +:+ take n r.
Proof.
  destruct a, b, c. unfold quantum3. rewrite !append_cons, !append_nil. reflexivity.
Qed.

(** twelve characters of the encoding are the encoding of nine bytes *)
Lemma nonce_nine_bytes e k :
  take 12 (RawURLEncoding.EncodeToString (drawn e k 12))
  = RawURLEncoding.EncodeToString (drawn e k 9).
Proof.
  unfold RawURLEncoding.EncodeToString, drawn.
  cbn [seq List.map string_of_list_ascii EncodeToString].
  change 12%nat with (4 + (4 + (4 + 0)))%nat.
  rewrite !take_quantum3. reflexivity.
Qed.

Lemma drawn_nine e k e' k' :
  drawn e' k' 9 = drawn e k 9
  <-> forall i, (i < 9)%nat -> entropy e' k' i = entropy e k i.
Proof.
  unfold drawn. cbn [seq List.map string_of_list_ascii]. split.
  - intros [= H0 H1 H2 H3 H4 H5 H6 H7 H8] i Hi.
    do 9 (destruct i as [|i]; [assumption|]). lia.
  - intros H. rewrite !H by lia. reflexivity.
Qed.

End StateRoundTrip.

(** C9 (as amended): for a user id and a tenant name that are valid UTF-8,
    and a random source that answers, [EncodeState] returns a string that
    [DecodeState] decodes to the payload of the two inputs and the nonce
    drawn.  Another call with the same inputs returns the same string
    exactly when it draws the same nonce, and it draws the same nonce
    exactly when the first nine of its twelve random bytes are the same. *)
Theorem C9_state_round_trip
    (userID serverName : string) (e : Env) (w : World)
    (Huser : utf8.ValidString userID = true)
    (Hserver : utf8.ValidString serverName = true)
    (Hrand : rand_fault e (rand_calls w) = None) :
  exists state nonce,
    fst (oauth.RandStringURLSafe 12 e w) = Ok nonce
    /\ fst (oauth.EncodeState userID serverName e w) = Ok state
    /\ oauth.DecodeState state = Ok (oauth.mkStatePayload userID serverName nonce)
    /\ (forall e' w' state',
          fst (oauth.EncodeState userID serverName e' w') = Ok state' ->
          (state' = state <-> fst (oauth.RandStringURLSafe 12 e' w') = Ok nonce))
    /\ (forall e' w',
          rand_fault e' (rand_calls w') = None ->
          (fst (oauth.RandStringURLSafe 12 e' w') = Ok nonce
           <-> forall i, (i < 9)%nat ->
                 entropy e' (rand_calls w') i = entropy e (rand_calls w) i)).
Proof.
  pose proof (RandStringURLSafe_run 12 e w Hrand) as Hnonce.
  set (nonce := bytes.take 12 _) in Hnonce.
  assert (Hround : forall e' w' n',
             fst (oauth.RandStringURLSafe 12 e' w') = Ok n' ->
             utf8.ValidString n' = true ->
             exists b, oauth.marshal_StatePayload (oauth.mkStatePayload userID serverName n') = Ok b
               /\ fst (oauth.EncodeState userID serverName e' w')
                  = Ok (base64.RawURLEncoding.EncodeToString b)
               /\ oauth.DecodeState (base64.RawURLEncoding.EncodeToString b)
                  = Ok (oauth.mkStatePayload userID serverName n')).
  { intros e' w' n' Hn' Hv. eexists. split; [reflexivity|].
    split; [rewrite EncodeState_run, Hn'; reflexivity|].
    apply DecodeState_marshal; [|reflexivity]. repeat split; assumption. }
  destruct (Hround e w nonce Hnonce (nonce_valid _ _)) as (b & Hb & Henc & Hdec).
  exists (base64.RawURLEncoding.EncodeToString b), nonce.
  split; [exact Hnonce|]. split; [exact Henc|]. split; [exact Hdec|]. split.
  - intros e' w' state' Henc'.
    destruct (rand_fault e' (rand_calls w')) as [err|] eqn:Hrand'.
    { rewrite EncodeState_run, (RandStringURLSafe_fault _ _ _ _ Hrand') in Henc'.
      discriminate. }
    pose proof (RandStringURLSafe_run 12 e' w' Hrand') as Hnonce'.
    destruct (Hround e' w' _ Hnonce' (nonce_valid _ _)) as (b' & Hb' & Henc2 & Hdec').
    rewrite Henc2 in Henc'. injection Henc' as <-. split.
    + intros Heq. rewrite Heq, Hdec in Hdec'. rewrite Hnonce'. congruence.
    + intros Hsame. rewrite Hnonce' in Hsame. congruence.
  - intros e' w' Hrand'.
    rewrite (RandStringURLSafe_run 12 e' w' Hrand'). unfold nonce.
    rewrite !nonce_nine_bytes, <- drawn_nine. split.
    + intros H. apply EncodeToString_inj. congruence.
    + intros ->. reflexivity.
Qed.

Lemma C9_state_round_trip_witness :
  utf8.ValidString "user-at-start" = true
  /\ utf8.ValidString "tenantX" = true
  /\ exists state nonce,
       fst (oauth.RandStringURLSafe 12 scenario.env scenario.world) = Ok nonce
       /\ fst (oauth.EncodeState "user-at-start" "tenantX" scenario.env scenario.world)
          = Ok state
       /\ oauth.DecodeState state = Ok (oauth.mkStatePayload "user-at-start" "tenantX" nonce).
Proof.
  split; [reflexivity|]. split; [reflexivity|].
  destruct (C9_state_round_trip "user-at-start" "tenantX" scenario.env scenario.world
              eq_refl eq_refl eq_refl) as (state & nonce & Hn & He & Hd & _).
  exists state, nonce. auto.
Defined.

(** C9 as stated fails for a user id that is not valid UTF-8: the encoder
    writes the byte FF as the escape of U+FFFD, and the decoded payload
    holds the three bytes EF BF BD in its place. *)
Lemma C9_counterexample :
  exists state,
    fst (oauth.EncodeState (String "255" "") "tenantX" scenario.env scenario.world) = Ok state
    /\ oauth.DecodeState state
       = Ok (oauth.mkStatePayload (String "239" (String "191" (String "189" "")))
               "tenantX" "ABEiM0RVZneI")
    /\ String "239" (String "191" (String "189" "")) <> String "255" "".
Proof.
  eexists. split; [vm_compute; reflexivity|]. split; [vm_compute; reflexivity|]. discriminate.
Qed.
(** * More of the code: the Credential Store *)

Ltac split_all :=
  repeat match goal with
         | |- _ /\ _ => split
         | |- forall _, _ => intro
         end.

(** the provider calls of a trace that grew by other events only *)
Ltac same_calls :=
  unfold network_calls, redis_commands; simpl;
  rewrite ?List.filter_app; simpl; rewrite <- ?app_assoc; simpl;
  rewrite ?app_nil_r; reflexivity.

Ltac run_redis :=
  unfold storage.GetToken, storage.SaveToken, storage.DeleteToken,
    storage.SavePKCEVerifier, storage.GetAndDeletePKCEVerifier,
    redis.ping, redis.get_token, redis.set_token, redis.del_token,
    redis.get_pkce, redis.set_pkce, redis.del_pkce,
    bind, emit, ask, get_world, put_tokens, put_pkce, ret, new, load; simpl.



(** X2. After [DeleteToken], [GetToken] for the same identity fails with
    "token not found", whether or not a token was stored; the deletion
    removes that key only and makes no new object. *)
Theorem X2_DeleteToken_then_GetToken
    (userID provider serverName : string) (e : Env) (w : World)
    (Hdel : redis_fault e (Del (storage.TokenKey userID provider serverName)) = None)
    (Hping : redis_fault e Ping = None)
    (Hget : redis_fault e (Get (storage.TokenKey userID provider serverName)) = None) :
  let '(err, w1) := storage.DeleteToken userID provider serverName e w in
  let '(r, w2) := storage.GetToken userID provider serverName e w1 in
  err = None
  /\ r = Err (Errorf "token not found")
  /\ tokens w2 = delete (storage.TokenKey userID provider serverName) (tokens w)
  /\ heap w2 = heap w
  /\ pkce w2 = pkce w.
Proof.
  run_redis. rewrite Hdel. simpl. rewrite Hping. simpl. rewrite Hget.
  rewrite lookup_delete_eq. simpl. repeat split.
Qed.

Lemma X2_DeleteToken_then_GetToken_witness :
  let '(err, w1) := storage.DeleteToken "u1" "instagram" "tenantX" scenario.env scenario.world in
  let '(r, w2) := storage.GetToken "u1" "instagram" "tenantX" scenario.env w1 in
  err = None /\ r = Err (Errorf "token not found").
Proof.
  pose proof (X2_DeleteToken_then_GetToken "u1" "instagram" "tenantX" scenario.env
                scenario.world eq_refl eq_refl eq_refl) as H.
  destruct (storage.DeleteToken _ _ _ _ _) as [err w1].
  destruct (storage.GetToken _ _ _ _ _) as [r w2].
  destruct H as (H1 & H2 & _). auto.
Defined.

(** ** Keys *)

Lemma index_of_cons_None c d r :
  bytes.index_of c (String d r) = None -> Ascii.eqb c d = false /\ bytes.index_of c r = None.
Proof.
  cbn [bytes.index_of]. destruct (Ascii.eqb c d); [discriminate|].
  destruct (bytes.index_of c r); [discriminate | auto].
Qed.

(** a separator splits in one way when the first part does not hold it *)
Lemma split_at_separator c a a' r r' :
  bytes.index_of c a = None -> bytes.index_of c a' = None ->
  a +:+ String c r = a' +:+ String c r' -> a = a' /\ r = r'.
Proof.
  revert a'. induction a as [|x a IH]; intros [|x' a'] Ha Ha'.
  - rewrite !append_nil. intros [= ->]. auto.
  - rewrite append_nil, append_cons. intros [= <- _].
    apply index_of_cons_None in Ha' as [Hc _]. now rewrite Ascii.eqb_refl in Hc.
  - rewrite append_nil, append_cons. intros [= -> _].
    apply index_of_cons_None in Ha as [Hc _]. now rewrite Ascii.eqb_refl in Hc.
  - rewrite !append_cons. intros [= -> H].
    apply index_of_cons_None in Ha as [_ Ha]. apply index_of_cons_None in Ha' as [_ Ha'].
    destruct (IH a' Ha Ha' H) as [-> ->]. auto.
Qed.

(** X3. The token key: an empty tenant name is the tenant "default"; and
    for tenant and provider names that hold no colon, two identities have
    the same key only when their user ids and providers are equal and
    their tenants are equal up to that default. *)
Theorem X3_TokenKey_injective
    (userID provider serverName userID' provider' serverName' : string)
    (Hp : bytes.index_of ":" provider = None)
    (Hp' : bytes.index_of ":" provider' = None)
    (Hs : bytes.index_of ":" serverName = None)
    (Hs' : bytes.index_of ":" serverName' = None) :
  storage.TokenKey userID provider "" = storage.TokenKey userID provider "default"
  /\ (storage.TokenKey userID provider serverName
      = storage.TokenKey userID' provider' serverName' ->
      userID = userID' /\ provider = provider'
      /\ (if String.eqb serverName "" then "default" else serverName)
         = (if String.eqb serverName' "" then "default" else serverName')).
Proof.
  split; [reflexivity|].
  unfold storage.TokenKey.
  set (s := if String.eqb serverName "" then _ else _).
  set (s' := if String.eqb serverName' "" then _ else _).
  assert (Hsn : bytes.index_of ":" s = None)
    by (subst s; destruct (String.eqb serverName ""); [reflexivity | assumption]).
  assert (Hsn' : bytes.index_of ":" s' = None)
    by (subst s'; destruct (String.eqb serverName' ""); [reflexivity | assumption]).
  rewrite !append_cons, !append_nil. intros [= H].
  apply split_at_separator in H as [Hs1 H]; [|assumption..].
  apply split_at_separator in H as [Hp1 H]; [|assumption..].
  auto.
Qed.

Lemma X3_TokenKey_injective_witness :
  storage.TokenKey "u:1" "x" "" = storage.TokenKey "u:1" "x" "default"
  /\ (storage.TokenKey "u:1" "x" "tenantX" = storage.TokenKey "u:1" "x" "tenantX" ->
      "u:1" = "u:1" /\ "x" = "x" /\ "tenantX" = "tenantX").
Proof.
  exact (X3_TokenKey_injective "u:1" "x" "tenantX" "u:1" "x" "tenantX"
           eq_refl eq_refl eq_refl eq_refl).
Defined.

(** ** PKCE verifiers *)

(** X4. A PKCE verifier is handed out once: after [SavePKCEVerifier] the
    first [GetAndDeletePKCEVerifier] for the state returns the verifier
    saved, and the second fails with "PKCE verifier not found or expired";
    in the end the key is gone and the tokens are untouched. *)
Theorem X4_PKCE_verifier_single_use
    (state verifier : string) (e : Env) (w : World)
    (Hping : redis_fault e Ping = None)
    (Hset : redis_fault e (SetEx (storage.PKCEKey state)) = None)
    (Hget : redis_fault e (Get (storage.PKCEKey state)) = None)
    (Hdel : redis_fault e (Del (storage.PKCEKey state)) = None) :
  let '(err, w1) := storage.SavePKCEVerifier state verifier e w in
  let '(r1, w2) := storage.GetAndDeletePKCEVerifier state e w1 in
  let '(r2, w3) := storage.GetAndDeletePKCEVerifier state e w2 in
  err = None
  /\ pkce w1 !! storage.PKCEKey state = Some verifier
  /\ r1 = Ok verifier
  /\ pkce w2 !! storage.PKCEKey state = None
  /\ r2 = Err (Errorf "PKCE verifier not found or expired")
  /\ pkce w3 = delete (storage.PKCEKey state) (pkce w)
  /\ tokens w3 = tokens w.
Proof.
  run_redis. rewrite Hping, Hset, Hget, Hdel. simpl.
  rewrite lookup_insert_eq. simpl. rewrite String.eqb_refl. simpl.
  rewrite lookup_insert_eq. simpl. rewrite !lookup_delete_eq. simpl.
  repeat split; auto using lookup_insert_eq.
  now rewrite delete_delete_eq, delete_insert_eq.
Qed.

Lemma X4_PKCE_verifier_single_use_witness :
  let '(err, w1) := storage.SavePKCEVerifier "st" "verif" scenario.env scenario.world in
  let '(r1, w2) := storage.GetAndDeletePKCEVerifier "st" scenario.env w1 in
  let '(r2, w3) := storage.GetAndDeletePKCEVerifier "st" scenario.env w2 in
  err = None /\ r1 = Ok "verif" /\ r2 = Err (Errorf "PKCE verifier not found or expired").
Proof.
  pose proof (X4_PKCE_verifier_single_use "st" "verif" scenario.env scenario.world
                eq_refl eq_refl eq_refl eq_refl) as H.
  destruct (storage.SavePKCEVerifier _ _ _ _) as [err w1].
  destruct (storage.GetAndDeletePKCEVerifier _ _ w1) as [r1 w2].
  destruct (storage.GetAndDeletePKCEVerifier _ _ w2) as [r2 w3].
  destruct H as (H1 & _ & H2 & _ & H3 & _). auto.
Defined.

(** X5. What the result of [SavePKCEVerifier] tells: nil means that the
    verifier is stored under the key of the state.  A failing connection
    test or a failing write returns an error with nothing written; a
    failing read-back returns an error although the verifier is stored.
    Tokens are never touched and no provider is called. *)
Theorem X5_SavePKCEVerifier_outcomes (state verifier : string) (e : Env) (w : World) :
  let '(err, w1) := storage.SavePKCEVerifier state verifier e w in
  let key := storage.PKCEKey state in
  tokens w1 = tokens w
  /\ heap w1 = heap w
  /\ network_calls w1 = network_calls w
  /\ (err = None -> pkce w1 !! key = Some verifier)
  /\ (forall ep, redis_fault e Ping = Some ep ->
        err = Some (Wrapf "redis connection failed" ep) /\ pkce w1 = pkce w
        /\ trace w1 = trace w ++ [EvRedis Ping])
  /\ (forall es, redis_fault e Ping = None -> redis_fault e (SetEx key) = Some es ->
        err = Some es /\ pkce w1 = pkce w)
  /\ (forall eg, redis_fault e Ping = None -> redis_fault e (SetEx key) = None ->
        redis_fault e (Get key) = Some eg ->
        err = Some (Wrapf "failed to verify PKCE verifier save" eg)
        /\ pkce w1 !! key = Some verifier).
Proof.
  run_redis.
  destruct (redis_fault e Ping) as [ep|] eqn:Hping; simpl;
    [|destruct (redis_fault e (SetEx (storage.PKCEKey state))) as [es|] eqn:Hset; simpl;
      [|destruct (redis_fault e (Get (storage.PKCEKey state))) as [eg|] eqn:Hget; simpl;
        [|rewrite lookup_insert_eq; simpl; rewrite String.eqb_refl; simpl]]].
  all: split_all; try discriminate; try congruence; try apply lookup_insert_eq;
    try same_calls.
Qed.

Lemma X5_SavePKCEVerifier_outcomes_witness :
  fst (storage.SavePKCEVerifier "st" "verif"
         (scenario.env_with scenario.providers_up scenario.redis_down) scenario.world)
  = Some (Wrapf "redis connection failed" (Lib "dial tcp: connection refused"))
  /\ pkce (snd (storage.SavePKCEVerifier "st" "verif"
                  (scenario.env_with scenario.providers_up scenario.redis_down)
                  scenario.world)) = ∅.
Proof.
  pose proof (X5_SavePKCEVerifier_outcomes "st" "verif"
                (scenario.env_with scenario.providers_up scenario.redis_down)
                scenario.world) as H.
  destruct (storage.SavePKCEVerifier _ _ _ _) as [err w1].
  destruct H as (_ & _ & _ & _ & H & _).
  destruct (H _ eq_refl) as (H1 & H2 & _). auto.
Defined.

(** X6. [GetToken] only reads: whatever Redis answers, the stored tokens
    and verifiers are as they were and no provider is called.  A failing
    connection test fails the read before any [Get] is sent; an absent key
    is "token not found"; any other failure of the [Get] and a record that
    does not deserialize are reported as such; a record that deserializes
    is returned in a new object. *)
Theorem X6_GetToken_outcomes
    (userID provider serverName : string) (e : Env) (w : World) :
  let '(r, w1) := storage.GetToken userID provider serverName e w in
  let key := storage.TokenKey userID provider serverName in
  tokens w1 = tokens w
  /\ pkce w1 = pkce w
  /\ network_calls w1 = network_calls w
  /\ (forall ep, redis_fault e Ping = Some ep ->
        r = Err (Wrapf "redis connection failed" ep)
        /\ redis_commands w1 = redis_commands w ++ [EvRedis Ping])
  /\ (redis_fault e Ping = None ->
        redis_commands w1 = redis_commands w ++ [EvRedis Ping; EvRedis (Get key)]
        /\ (forall eg, redis_fault e (Get key) = Some eg -> eg <> RedisNil ->
              r = Err (Wrapf "failed to get token" eg))
        /\ (redis_fault e (Get key) = Some RedisNil -> r = Err (Errorf "token not found"))
        /\ (redis_fault e (Get key) = None ->
              match tokens w !! key with
              | None => r = Err (Errorf "token not found") /\ heap w1 = heap w
              | Some Garbled =>
                  r = Err (Wrapf "failed to unmarshal token" (Lib "json: cannot unmarshal"))
                  /\ heap w1 = heap w
              | Some (JsonOf t) => r = Ok (length (heap w)) /\ heap w1 = heap w ++ [t]
              end)).
Proof.
  run_redis.
  destruct (redis_fault e Ping) as [ep|] eqn:Hping; simpl.
  { split_all; try discriminate; try congruence; try same_calls. }
  destruct (redis_fault e (Get (storage.TokenKey userID provider serverName)))
    as [eg|] eqn:Hget; simpl.
  { destruct eg; simpl; split_all; try discriminate; try congruence; try same_calls. }
  destruct (tokens w !! storage.TokenKey userID provider serverName) as [[t|]|]; simpl;
    split_all; try discriminate; try congruence; try same_calls.
Qed.

Lemma X6_GetToken_outcomes_witness :
  fst (storage.GetToken "u1" "tiktok" "tenantX" scenario.env scenario.world)
  = Err (Wrapf "failed to unmarshal token" (Lib "json: cannot unmarshal"))
  /\ fst (storage.GetToken "u1" "facebook" "tenantX"
            (scenario.env_with scenario.providers_up scenario.redis_down) scenario.world)
     = Err (Wrapf "redis connection failed" (Lib "dial tcp: connection refused")).
Proof.
  split.
  - pose proof (X6_GetToken_outcomes "u1" "tiktok" "tenantX" scenario.env scenario.world) as H.
    destruct (storage.GetToken _ _ _ _ _) as [r w1].
    destruct H as (_ & _ & _ & _ & H). destruct (H eq_refl) as (_ & _ & _ & H1).
    exact (proj1 (H1 eq_refl)).
  - pose proof (X6_GetToken_outcomes "u1" "facebook" "tenantX"
                  (scenario.env_with scenario.providers_up scenario.redis_down)
                  scenario.world) as H.
    destruct (storage.GetToken _ _ _ _ _) as [r w1].
    destruct H as (_ & _ & _ & H & _). exact (proj1 (H _ eq_refl)).
Defined.
(** * More of the code: the exchange and refresh engine *)

(** The whole run of [RefreshToken]. *)
Lemma RefreshToken_run cfg a e w :
  oauth.RefreshToken cfg a e w =
    if custom_refresh cfg then
      match refresh_outcome e cfg a with
      | Ok t => (Ok (length (heap w)), alloc w t [refresh_call cfg a])
      | Err err => (Err err, with_trace w [refresh_call cfg a])
      end
    else
      let arg := oauth2.mkToken "" "" a 0 in
      match refresh_outcome e cfg a with
      | Ok t =>
          (Ok (S (length (heap w))),
           mkWorld (tokens w) (pkce w) (heap w ++ [arg; t]) (rand_calls w)
             (trace w ++ refresh_calls cfg a))
      | Err err =>
          (Err err,
           mkWorld (tokens w) (pkce w) (heap w ++ [arg]) (rand_calls w)
             (trace w ++ refresh_calls cfg a))
      end.
Proof.
  unfold oauth.RefreshToken, custom_refresh, refresh_outcome, refresh_calls, refresh_call,
    custom_refresh.
  change config.XTokenURL with "https://api.x.com/2/oauth2/token".
  change config.InstagramTokenURL with "https://api.instagram.com/oauth/access_token".
  change config.FacebookTokenURL with "https://graph.facebook.com/v18.0/oauth/access_token".
  destruct (String.eqb _ "https://api.x.com/2/oauth2/token").
  { rewrite refreshTokenWithX_run. simpl. destruct (reply_ok5 _); reflexivity. }
  destruct (String.eqb _ "https://api.instagram.com/oauth/access_token").
  { rewrite refreshTokenWithInstagram_run. simpl. destruct (reply_ok3 _); reflexivity. }
  destruct (String.eqb _ "https://graph.facebook.com/v18.0/oauth/access_token").
  { rewrite refreshTokenWithFacebook_run. simpl. destruct (reply_ok3 _); reflexivity. }
  run_oauth. destruct (String.eqb a ""); simpl.
  - now rewrite app_nil_r.
  - destruct (oauth2_endpoint e _) as [t|err]; simpl.
    + rewrite length_app, <- app_assoc. simpl. now rewrite Nat.add_1_r.
    + reflexivity.
Qed.

(** X7. [RefreshToken] makes one provider call and never touches the
    Credential Store.  For X, Instagram and Facebook the request is sent
    even with an empty credential; for the other providers the oauth2
    library is asked, and refuses without any call when the credential is
    empty.  The token of the provider's answer is returned in a new object;
    objects that existed before are as they were. *)
Theorem X7_RefreshToken_one_call
    (cfg : oauth2cfg.Config) (credential : string) (e : Env) (w : World) :
  let '(r, w') := oauth.RefreshToken cfg credential e w in
  tokens w' = tokens w
  /\ pkce w' = pkce w
  /\ redis_commands w' = redis_commands w
  /\ network_calls w' = network_calls w ++ refresh_calls cfg credential
  /\ (custom_refresh cfg = true -> refresh_calls cfg credential = [refresh_call cfg credential])
  /\ (custom_refresh cfg = false -> credential = "" ->
        refresh_calls cfg credential = []
        /\ r = Err (Wrapf "token refresh failed"
                      (Lib "oauth2: token expired and refresh token is not set")))
  /\ (forall q, (q < length (heap w))%nat -> heap w' !! q = heap w !! q)
  /\ match refresh_outcome e cfg credential with
     | Ok t => exists np, r = Ok np /\ (length (heap w) <= np)%nat /\ heap w' !! np = Some t
     | Err err => r = Err err
     end.
Proof.
  rewrite RefreshToken_run.
  assert (Hcalls : List.filter is_network (refresh_calls cfg credential)
                   = refresh_calls cfg credential
                   /\ List.filter is_redis (refresh_calls cfg credential) = []).
  { unfold refresh_calls, refresh_call.
    destruct (negb (custom_refresh cfg) && String.eqb credential ""); [auto|].
    repeat destruct (String.eqb _ _); auto. }
  destruct Hcalls as [Hnet Hredis].
  assert (Hone : custom_refresh cfg = true ->
                 refresh_calls cfg credential = [refresh_call cfg credential])
    by (unfold refresh_calls; now intros ->).
  assert (Hnone : custom_refresh cfg = false -> credential = "" ->
                  refresh_calls cfg credential = []
                  /\ refresh_outcome e cfg credential
                     = Err (Wrapf "token refresh failed"
                              (Lib "oauth2: token expired and refresh token is not set"))).
  { unfold refresh_calls, refresh_outcome, custom_refresh. intros Hc ->.
    apply orb_false_elim in Hc as [Hc Hf]. apply orb_false_elim in Hc as [Hx Hi].
    rewrite Hx, Hi, Hf. auto. }
  assert (Hr : forall tk pk hp,
             redis_commands (mkWorld tk pk hp (rand_calls w)
                               (trace w ++ refresh_calls cfg credential))
             = redis_commands w).
  { intros. unfold redis_commands. simpl. now rewrite List.filter_app, Hredis, app_nil_r. }
  assert (Hn : forall tk pk hp,
             network_calls (mkWorld tk pk hp (rand_calls w)
                              (trace w ++ refresh_calls cfg credential))
             = network_calls w ++ refresh_calls cfg credential).
  { intros. unfold network_calls. simpl. now rewrite List.filter_app, Hnet. }
  destruct (custom_refresh cfg) eqn:Hcustom.
  - rewrite <- (Hone eq_refl).
    destruct (refresh_outcome e cfg credential) as [t|err]; unfold alloc, with_trace; simpl;
      split_all; try discriminate; auto using lookup_app_l.
    exists (length (heap w)). split; [reflexivity|]. split; [lia | apply lookup_snoc].
  - destruct (refresh_outcome e cfg credential) as [t|err] eqn:Hout; simpl;
      split_all; auto using lookup_app_l;
      try (now apply Hnone);
      try (edestruct Hnone as [_ H']; [reflexivity | eassumption | congruence]).
    exists (S (length (heap w))). split; [reflexivity|]. split; [lia | apply lookup_snoc2].
Qed.

Lemma X7_RefreshToken_one_call_witness :
  let cfg := config.provider_config scenario.provider config.googleEndpoint "" in
  fst (oauth.RefreshToken cfg "" scenario.env scenario.world)
  = Err (Wrapf "token refresh failed" (Lib "oauth2: token expired and refresh token is not set"))
  /\ network_calls (snd (oauth.RefreshToken cfg "" scenario.env scenario.world)) = [].
Proof.
  cbv zeta.
  pose proof (X7_RefreshToken_one_call
                (config.provider_config scenario.provider config.googleEndpoint "")
                "" scenario.env scenario.world) as H.
  destruct (oauth.RefreshToken _ _ _ _) as [r w'].
  destruct H as (_ & _ & _ & Hn & _ & H & _).
  destruct (H eq_refl eq_refl) as [Hc Hr]. rewrite Hc in Hn. auto.
Defined.

(** The whole run of [ExchangeCode]. *)
Lemma ExchangeCode_run cfg code verifier e w :
  oauth.ExchangeCode cfg code verifier e w =
    let first := exchange_call cfg code verifier in
    match exchange_outcome e cfg code verifier with
    | Err err => (Err (Wrapf "token exchange failed" err), with_trace w [first])
    | Ok t0 =>
        if upgrades cfg then
          let up := EvHTTP (upgrade_request cfg (oauth2.AccessToken t0)) in
          match reply_ok3 (http e (upgrade_request cfg (oauth2.AccessToken t0))) with
          | Some tr =>
              (Ok (S (length (heap w))),
               mkWorld (tokens w) (pkce w)
                 (heap w ++ [t0; token_of (now e) tr (oauth.r_AccessToken tr)])
                 (rand_calls w) (trace w ++ [first; up]))
          | None => (Ok (length (heap w)), alloc w t0 [first; up])
          end
        else (Ok (length (heap w)), alloc w t0 [first])
    end.
Proof.
  unfold oauth.ExchangeCode, exchange_call, exchange_outcome, upgrades, upgrade_request,
    code_exchange.
  change config.XTokenURL with "https://api.x.com/2/oauth2/token".
  change config.InstagramTokenURL with "https://api.instagram.com/oauth/access_token".
  change config.FacebookTokenURL with "https://graph.facebook.com/v18.0/oauth/access_token".
  set (first_call := if negb (String.eqb verifier "") then _ else _).
  assert (Hfirst :
    first_call e w =
      let ev := if negb (String.eqb verifier "")
                   && String.eqb (oauth.TokenURL cfg) "https://api.x.com/2/oauth2/token"
                then EvHTTP (x_exchange_request cfg code verifier)
                else EvOAuth2 (LibExchange cfg code
                                 (if String.eqb verifier "" then None else Some verifier)) in
      match (if negb (String.eqb verifier "")
                && String.eqb (oauth.TokenURL cfg) "https://api.x.com/2/oauth2/token"
             then match reply_ok5 (http e (x_exchange_request cfg code verifier)) with
                  | Some tr => Ok (token_of (now e) tr (oauth.r_RefreshToken tr))
                  | None => Err (http_error "token exchange failed"
                                   (http e (x_exchange_request cfg code verifier)))
                  end
             else oauth2_endpoint e
                    (LibExchange cfg code
                       (if String.eqb verifier "" then None else Some verifier)))
      with
      | Ok t0 => (Ok (length (heap w)), alloc w t0 [ev])
      | Err err => (Err err, with_trace w [ev])
      end).
  { subst first_call. destruct (String.eqb verifier ""); simpl.
    - unfold oauth.lib_Exchange, bind, emit, ask, new, ret. simpl.
      destruct (oauth2_endpoint e _); reflexivity.
    - destruct (String.eqb (oauth.TokenURL cfg) "https://api.x.com/2/oauth2/token").
      + rewrite exchangeCodeWithPKCE_run. simpl. destruct (reply_ok5 _); reflexivity.
      + unfold oauth.lib_Exchange, bind, emit, ask, new, ret. simpl.
        destruct (oauth2_endpoint e _); reflexivity. }
  unfold bind at 1. rewrite Hfirst. clear Hfirst first_call. cbv zeta.
  match goal with |- context [match ?o with Ok _ => _ | Err _ => _ end] =>
    destruct o as [t0|err] eqn:Hout end.
  2:{ reflexivity. }
  destruct (String.eqb (oauth.TokenURL cfg) "https://api.instagram.com/oauth/access_token")
    eqn:Hig.
  - apply String.eqb_eq in Hig. rewrite Hig.
    change (String.eqb "https://api.instagram.com/oauth/access_token"
              "https://graph.facebook.com/v18.0/oauth/access_token") with false.
    simpl orb. cbv iota.
    unfold bind at 1. unfold bind at 1. unfold load at 1. simpl heap. rewrite lookup_snoc.
    simpl default. unfold bind at 1. rewrite exchangeInstagramToken_run. simpl.
    destruct (reply_ok3 _) as [tr|]; unfold bind, ret, alloc, with_trace; simpl;
      rewrite <- ?app_assoc; simpl; rewrite ?length_app; simpl; rewrite ?Nat.add_1_r;
      reflexivity.
  - simpl orb.
    destruct (String.eqb (oauth.TokenURL cfg)
                "https://graph.facebook.com/v18.0/oauth/access_token") eqn:Hfb.
    + unfold bind at 1. unfold ret at 1.
      unfold bind at 1. unfold bind at 1. unfold load at 1. simpl heap. rewrite lookup_snoc.
      simpl default. unfold bind at 1. rewrite exchangeFacebookToken_run. simpl.
      destruct (reply_ok3 _) as [tr|]; unfold bind, ret, alloc, with_trace; simpl;
        rewrite <- ?app_assoc; simpl; rewrite ?length_app; simpl; rewrite ?Nat.add_1_r;
        reflexivity.
    + reflexivity.
Qed.

(** X8. When the code exchange itself fails, [ExchangeCode] fails with the
    error wrapped as "token exchange failed"; one provider call was made,
    also for Instagram and Facebook (no upgrade is attempted), no token
    object is made and the Credential Store is not touched. *)
Theorem X8_ExchangeCode_failure
    (cfg : oauth2cfg.Config) (code verifier : string) (err : error) (e : Env) (w : World)
    (Hfail : exchange_outcome e cfg code verifier = Err err) :
  let '(r, w') := oauth.ExchangeCode cfg code verifier e w in
  r = Err (Wrapf "token exchange failed" err)
  /\ network_calls w' = network_calls w ++ [exchange_call cfg code verifier]
  /\ heap w' = heap w
  /\ tokens w' = tokens w
  /\ pkce w' = pkce w
  /\ redis_commands w' = redis_commands w.
Proof.
  rewrite ExchangeCode_run. cbv zeta. rewrite Hfail.
  unfold with_trace, exchange_call.
  destruct (negb (String.eqb verifier "") && String.eqb _ _); split_all; auto; same_calls.
Qed.

Lemma X8_ExchangeCode_failure_witness :
  let cfg := config.provider_config scenario.provider
               (oauth2cfg.mkEndpoint config.XAuthURL config.XTokenURL) "" in
  let e := scenario.env_with scenario.upgrade_down (fun _ => None) in
  fst (oauth.ExchangeCode cfg "abc" "verif" e scenario.world)
  = Err (Wrapf "token exchange failed"
           (StatusErr "token exchange failed" 503 "service unavailable")).
Proof.
  cbv zeta.
  pose proof (X8_ExchangeCode_failure
                (config.provider_config scenario.provider
                   (oauth2cfg.mkEndpoint config.XAuthURL config.XTokenURL) "")
                "abc" "verif" (StatusErr "token exchange failed" 503 "service unavailable")
                (scenario.env_with scenario.upgrade_down (fun _ => None)) scenario.world
                eq_refl) as H.
  destruct (oauth.ExchangeCode _ _ _ _ _) as [r w'].
  exact (proj1 H).
Defined.

(** X9. For Instagram and Facebook, when the code exchange succeeds and
    the upgrade call is answered with a token, [ExchangeCode] returns the
    long-lived token: its access token is that of the answer, its refresh
    token is the same access token, and nothing of the short-lived token is
    kept.  Two provider calls were made and the store is not touched. *)
Theorem X9_ExchangeCode_upgrade
    (cfg : oauth2cfg.Config) (code verifier : string) (t0 : oauth2.Token)
    (tr : oauth.tokenResponse) (e : Env) (w : World)
    (Hprovider : upgrades cfg = true)
    (Hexchange : exchange_outcome e cfg code verifier = Ok t0)
    (Hupgrade : reply_ok3 (http e (upgrade_request cfg (oauth2.AccessToken t0))) = Some tr) :
  let '(r, w') := oauth.ExchangeCode cfg code verifier e w in
  exists np,
    r = Ok np
    /\ heap w' !! np = Some (token_of (now e) tr (oauth.r_AccessToken tr))
    /\ oauth2.AccessToken (token_of (now e) tr (oauth.r_AccessToken tr)) = oauth.r_AccessToken tr
    /\ oauth2.RefreshToken (token_of (now e) tr (oauth.r_AccessToken tr))
       = oauth.r_AccessToken tr
    /\ network_calls w'
       = network_calls w ++ [exchange_call cfg code verifier;
                             EvHTTP (upgrade_request cfg (oauth2.AccessToken t0))]
    /\ tokens w' = tokens w
    /\ pkce w' = pkce w.
Proof.
  rewrite ExchangeCode_run. cbv zeta. rewrite Hexchange, Hprovider, Hupgrade.
  exists (S (length (heap w))). split; [reflexivity|]. simpl.
  split; [apply lookup_snoc2|]. split; [reflexivity|]. split; [reflexivity|].
  split; [|auto].
  unfold exchange_call.
  destruct (negb (String.eqb verifier "") && String.eqb _ _); same_calls.
Qed.

Lemma X9_ExchangeCode_upgrade_witness :
  let cfg := config.provider_config scenario.provider
               (oauth2cfg.mkEndpoint config.FacebookAuthURL config.FacebookTokenURL) "" in
  exists np t,
    fst (oauth.ExchangeCode cfg "abc" "" scenario.env scenario.world) = Ok np
    /\ heap (snd (oauth.ExchangeCode cfg "abc" "" scenario.env scenario.world)) !! np = Some t
    /\ oauth2.AccessToken t = "fb789" /\ oauth2.RefreshToken t = "fb789".
Proof.
  cbv zeta.
  pose proof (X9_ExchangeCode_upgrade
                (config.provider_config scenario.provider
                   (oauth2cfg.mkEndpoint config.FacebookAuthURL config.FacebookTokenURL) "")
                "abc" "" scenario.short_lived
                (oauth.mkTokenResponse "fb789" "bearer" 5184000 "" "")
                scenario.env scenario.world eq_refl eq_refl
                ltac:(vm_compute; reflexivity)) as H.
  destruct (oauth.ExchangeCode _ _ _ _ _) as [r w'].
  destruct H as (np & Hr & Hh & Ha & Hrf & _).
  eexists np, _. split; [exact Hr|]. split; [exact Hh|]. split; [exact Ha | exact Hrf].
Defined.

(** X10. For the providers without an upgrade (all but Instagram and
    Facebook), a successful code exchange is one provider call and its
    token is returned as it is.  The package's own request is used only for
    X with a non-empty verifier; with an empty verifier the oauth2 library
    exchanges the code without a code_verifier, also for X. *)
Theorem X10_ExchangeCode_plain
    (cfg : oauth2cfg.Config) (code verifier : string) (t0 : oauth2.Token)
    (e : Env) (w : World)
    (Hprovider : upgrades cfg = false)
    (Hexchange : exchange_outcome e cfg code verifier = Ok t0) :
  let '(r, w') := oauth.ExchangeCode cfg code verifier e w in
  r = Ok (length (heap w))
  /\ heap w' !! length (heap w) = Some t0
  /\ network_calls w' = network_calls w ++ [exchange_call cfg code verifier]
  /\ (verifier = "" -> exchange_call cfg code verifier = EvOAuth2 (LibExchange cfg code None))
  /\ (verifier <> "" -> oauth.TokenURL cfg = config.XTokenURL ->
        exchange_call cfg code verifier = EvHTTP (x_exchange_request cfg code verifier))
  /\ (verifier <> "" -> oauth.TokenURL cfg <> config.XTokenURL ->
        exchange_call cfg code verifier = EvOAuth2 (LibExchange cfg code (Some verifier)))
  /\ tokens w' = tokens w
  /\ pkce w' = pkce w.
Proof.
  rewrite ExchangeCode_run. cbv zeta. rewrite Hexchange, Hprovider.
  unfold alloc, exchange_call, code_exchange. simpl.
  split; [reflexivity|]. split; [apply lookup_snoc|].
  destruct (String.eqb_spec verifier "") as [->|Hv]; simpl.
  - split_all; auto; try contradiction; same_calls.
  - destruct (String.eqb_spec (oauth.TokenURL cfg) config.XTokenURL) as [Hx|Hx];
      split_all; auto; try contradiction; same_calls.
Qed.

Lemma X10_ExchangeCode_plain_witness :
  let cfg := config.provider_config scenario.provider
               (oauth2cfg.mkEndpoint config.XAuthURL config.XTokenURL) "" in
  fst (oauth.ExchangeCode cfg "abc" "" scenario.env scenario.world) = Ok 0%nat
  /\ network_calls (snd (oauth.ExchangeCode cfg "abc" "" scenario.env scenario.world))
     = [EvOAuth2 (LibExchange cfg "abc" None)].
Proof.
  cbv zeta.
  pose proof (X10_ExchangeCode_plain
                (config.provider_config scenario.provider
                   (oauth2cfg.mkEndpoint config.XAuthURL config.XTokenURL) "")
                "abc" "" scenario.short_lived scenario.env scenario.world
                eq_refl eq_refl) as H.
  destruct (oauth.ExchangeCode _ _ _ _ _) as [r w'].
  destruct H as (Hr & _ & Hn & Hc & _).
  cbn [fst snd]. split; [exact Hr|]. rewrite Hn, (Hc eq_refl). reflexivity.
Defined.

(** ** The expiry of a new token *)

(** X11. The expiry that the exchange and refresh functions give a new
    token, against the manager's classification at the same clock reading:
    an [expires_in] that is absent, zero or negative leaves the Expiry
    unset, so the token is Stale at every time; less than 300 seconds is
    Stale at once; from 300 seconds up to 9223372036 seconds is Valid; and
    from 9223372037 up to 18446744073 seconds the 64-bit duration wraps
    around to a negative one and the token is Stale at once. *)
Theorem X11_new_token_expiry
    (access type_ refresh : string) (expiresIn : Z) (e : Env) (w : World)
    (Hclock : 0 <= now e) :
  let '(p, w') := oauth.new_token access type_ refresh expiresIn e w in
  exists tok,
    heap w' !! p = Some tok
    /\ oauth2.AccessToken tok = access
    /\ oauth2.TokenType tok = type_
    /\ oauth2.RefreshToken tok = refresh
    /\ (expiresIn <= 0 ->
          oauth2.Expiry tok = 0 /\ forall t, expiry.isTokenExpired t (Some tok) = true)
    /\ (0 < expiresIn < 300 -> expiry.isTokenExpired (now e) (Some tok) = true)
    /\ (300 <= expiresIn <= 9223372036 ->
          oauth2.Expiry tok = now e + expiresIn * time.Second
          /\ expiry.isTokenExpired (now e) (Some tok) = false)
    /\ (9223372037 <= expiresIn <= 18446744073 ->
          expiry.isTokenExpired (now e) (Some tok) = true).
Proof.
  unfold oauth.new_token, clock.Now, bind, ask, new. simpl.
  eexists. split; [apply lookup_snoc|]. simpl.
  split; [reflexivity|]. split; [reflexivity|]. split; [reflexivity|].
  unfold time.Add, time.wrap64, time.Second, time.Nanosecond.
  split; [|split; [|split]]; intros Hn.
  - destruct (Z.ltb_spec 0 expiresIn); [lia|]. split; [reflexivity|].
    intros t. now apply isTokenExpired_unset.
  - destruct (Z.ltb_spec 0 expiresIn); [|lia].
    apply isTokenExpired_spec. right. simpl oauth2.Expiry.
    unfold time.Minute, time.Second, time.Nanosecond.
    rewrite Z.mod_small by lia. lia.
  - destruct (Z.ltb_spec 0 expiresIn); [|lia].
    rewrite Z.mod_small by lia. split; [f_equal; lia|].
    apply not_true_is_false. rewrite isTokenExpired_spec. simpl oauth2.Expiry.
    unfold time.Minute, time.Second, time.Nanosecond. lia.
  - destruct (Z.ltb_spec 0 expiresIn); [|lia].
    apply isTokenExpired_spec. simpl oauth2.Expiry.
    unfold time.Minute, time.Second, time.Nanosecond.
    assert (Hw : (expiresIn * (1000000000 * 1) + 2 ^ 63) mod 2 ^ 64
                 = expiresIn * (1000000000 * 1) + 2 ^ 63 - 2 ^ 64).
    { symmetry. apply (Z.mod_unique _ _ 1); lia. }
    rewrite Hw. lia.
Qed.

Lemma X11_new_token_expiry_witness :
  0 <= now scenario.env
  /\ exists tok,
       heap (snd (oauth.new_token "a" "bearer" "r" 120 scenario.env scenario.world))
         !! fst (oauth.new_token "a" "bearer" "r" 120 scenario.env scenario.world) = Some tok
       /\ expiry.isTokenExpired (now scenario.env) (Some tok) = true.
Proof.
  split; [vm_compute; discriminate|].
  pose proof (X11_new_token_expiry "a" "bearer" "r" 120 scenario.env scenario.world
                ltac:(vm_compute; discriminate)) as H.
  destruct (oauth.new_token _ _ _ _ _ _) as [p w'].
  destruct H as (tok & Hh & _ & _ & _ & _ & H & _).
  exists tok. split; [exact Hh|]. apply H. lia.
Defined.
(** * More of the code: the lifecycle manager *)

Lemma filter_network_refresh_calls cfg a :
  List.filter is_network (refresh_calls cfg a) = refresh_calls cfg a
  /\ List.filter is_redis (refresh_calls cfg a) = [].
Proof.
  unfold refresh_calls, refresh_call.
  destruct (negb (custom_refresh cfg) && String.eqb a ""); [auto|].
  repeat destruct (String.eqb _ _); auto.
Qed.

(** The refresh step when the credential is there and the tenant and the
    provider are configured. *)
Lemma refreshToken_outcome tm u p s cur t cfg e w :
  heap w !! cur = Some t ->
  credential p t <> "" ->
  config.GetServerOAuthConfig (oauth.tm_config tm) p s "" = Ok cfg ->
  let '(r, w') := oauth.refreshToken tm u p s cur e w in
  let key := storage.TokenKey u p s in
  pkce w' = pkce w
  /\ network_calls w' = network_calls w ++ refresh_calls cfg (credential p t)
  /\ match refresh_outcome e cfg (credential p t) with
     | Err err =>
         r = Err (Wrapf "token refresh failed" err)
         /\ tokens w' = tokens w /\ redis_commands w' = redis_commands w
     | Ok nt =>
         redis_commands w' = redis_commands w ++ [EvRedis (SetEx key)]
         /\ match redis_fault e (SetEx key) with
            | Some err =>
                r = Err (Wrapf "failed to save refreshed token" err) /\ tokens w' = tokens w
            | None =>
                exists np, r = Ok np /\ heap w' !! np = Some nt
                           /\ (length (heap w) <= np)%nat
                           /\ tokens w' = <[key := JsonOf nt]> (tokens w)
            end
     end.
Proof.
  intros Hc Hcred Hcfg. unfold oauth.refreshToken.
  unfold bind at 1. unfold load at 1. rewrite Hc. simpl default.
  unfold bind at 1.
  match goal with |- context [let '(a, w') := ?g e w in _] =>
    destruct (g e w) as [a w1] eqn:HG end.
  assert (Hguard : a = None /\ tokens w1 = tokens w /\ pkce w1 = pkce w
                   /\ trace w1 = trace w /\ rand_calls w1 = rand_calls w
                   /\ length (heap w1) = length (heap w)
                   /\ exists t1, heap w1 !! cur = Some t1
                                 /\ oauth2.RefreshToken t1 = credential p t).
  { revert HG Hcred. unfold credential. run_oauth.
    destruct (String.eqb p "instagram"); simpl.
    - destruct (String.eqb_spec (oauth2.AccessToken t) ""); simpl; [contradiction|].
      intros [= <- <-] _. simpl. repeat split; auto using length_alter.
      eexists. rewrite list_lookup_alter_eq, Hc. simpl. split; reflexivity.
    - destruct (String.eqb_spec (oauth2.RefreshToken t) ""); simpl; [contradiction|].
      intros [= <- <-] _. repeat split; eauto. }
  destruct Hguard as (-> & Htok & Hpk & Htr & Hrc & Hlen & t1 & Hcur & Hrt).
  rewrite Hcfg.
  unfold bind at 1. unfold load at 1. rewrite Hcur. simpl default. rewrite Hrt.
  unfold bind at 1. rewrite RefreshToken_run.
  destruct (filter_network_refresh_calls cfg (credential p t)) as [Hnet Hredis].
  assert (Hone : custom_refresh cfg = true ->
                 [refresh_call cfg (credential p t)] = refresh_calls cfg (credential p t))
    by (unfold refresh_calls; now intros ->).
  set (key := storage.TokenKey u p s).
  destruct (custom_refresh cfg) eqn:Hcustom;
    [rewrite (Hone eq_refl)|];
    destruct (refresh_outcome e cfg (credential p t)) as [nt|err]; cbv zeta.
  - unfold bind at 1. rewrite (SaveToken_run _ _ _ _ nt) by (simpl; apply lookup_snoc).
    fold key. destruct (redis_fault e (SetEx key)); run_oauth; rewrite Htr; split_all; auto.
    all: try (unfold network_calls, redis_commands; simpl;
              rewrite !List.filter_app, ?Hnet, ?Hredis; simpl;
              rewrite <- ?app_assoc, ?app_nil_r; reflexivity).
    exists (length (heap w1)). split; [reflexivity|].
    split; [apply lookup_snoc|]. split; [lia | congruence].
  - run_oauth. rewrite Htr. split_all; auto.
    all: try (unfold network_calls, redis_commands; simpl;
              rewrite !List.filter_app, ?Hnet, ?Hredis; simpl;
              rewrite <- ?app_assoc, ?app_nil_r; reflexivity).
  - unfold bind at 1. rewrite (SaveToken_run _ _ _ _ nt) by (simpl; apply lookup_snoc2).
    fold key. destruct (redis_fault e (SetEx key)); run_oauth; rewrite Htr; split_all; auto.
    all: try (unfold network_calls, redis_commands; simpl;
              rewrite !List.filter_app, ?Hnet, ?Hredis; simpl;
              rewrite <- ?app_assoc, ?app_nil_r; reflexivity).
    exists (S (length (heap w1))). split; [reflexivity|].
    split; [apply lookup_snoc2|]. split; [lia | congruence].
  - run_oauth. rewrite Htr. split_all; auto.
    all: try (unfold network_calls, redis_commands; simpl;
              rewrite !List.filter_app, ?Hnet, ?Hredis; simpl;
              rewrite <- ?app_assoc, ?app_nil_r; reflexivity).
Qed.

Lemma redis_commands_app w evs tk pk hp rc :
  redis_commands (mkWorld tk pk hp rc (trace w ++ evs))
  = redis_commands w ++ List.filter is_redis evs.
Proof. unfold redis_commands. simpl. apply List.filter_app. Qed.

(** The two operations that refresh, after the read of the token: what the
    refresh step did, with the error wrapped once more. *)
Lemma refresh_after_found tm u p s t cfg e w (evs : list Event) :
  credential p t <> "" ->
  config.GetServerOAuthConfig (oauth.tm_config tm) p s "" = Ok cfg ->
  List.filter is_network evs = [] ->
  let w1 := mkWorld (tokens w) (pkce w) (heap w ++ [t]) (rand_calls w) (trace w ++ evs) in
  let '(r, w') := oauth.refreshToken tm u p s (length (heap w)) e w1 in
  let key := storage.TokenKey u p s in
  pkce w' = pkce w
  /\ network_calls w' = network_calls w ++ refresh_calls cfg (credential p t)
  /\ match refresh_outcome e cfg (credential p t) with
     | Err err =>
         r = Err (Wrapf "token refresh failed" err) /\ tokens w' = tokens w
         /\ redis_commands w' = redis_commands w ++ List.filter is_redis evs
     | Ok nt =>
         redis_commands w'
         = redis_commands w ++ List.filter is_redis evs ++ [EvRedis (SetEx key)]
         /\ match redis_fault e (SetEx key) with
            | Some err =>
                r = Err (Wrapf "failed to save refreshed token" err) /\ tokens w' = tokens w
            | None =>
                exists np, r = Ok np /\ heap w' !! np = Some nt
                           /\ (length (heap w) < np)%nat
                           /\ tokens w' = <[key := JsonOf nt]> (tokens w)
            end
     end.
Proof.
  intros Hcred Hcfg Hevs w1.
  pose proof (refreshToken_outcome tm u p s (length (heap w)) t cfg e w1
                (lookup_snoc _ _) Hcred Hcfg) as H.
  destruct (oauth.refreshToken _ _ _ _ _ _ _) as [r w']. cbv zeta in *.
  destruct H as (Hpk & Hnet & Hout). subst w1.
  rewrite network_calls_app, Hevs, app_nil_r in Hnet.
  rewrite redis_commands_app in Hout. simpl in *.
  split; [exact Hpk|]. split; [exact Hnet|].
  destruct (refresh_outcome e cfg (credential p t)) as [nt|err].
  - destruct Hout as [Hred Hout]. split; [now rewrite Hred, <- app_assoc|].
    destruct (redis_fault e (SetEx _)); [exact Hout|].
    destruct Hout as (np & Hr & Hh & Hge & Htok). exists np.
    rewrite length_app in Hge. simpl in Hge. repeat split; auto. lia.
  - exact Hout.
Qed.

(** X12. A cached token that is Valid is returned as it is stored:
    [GetValidToken] sends the connection test and the read to Redis and
    nothing else; no provider is called and nothing is written. *)
Theorem X12_GetValidToken_valid_token
    (tm : oauth.TokenManager) (userID provider serverName : string) (t : oauth2.Token)
    (e : Env) (w : World)
    (Hfound : tokens w !! storage.TokenKey userID provider serverName = Some (JsonOf t))
    (Hping : redis_fault e Ping = None)
    (Hget : redis_fault e (Get (storage.TokenKey userID provider serverName)) = None)
    (Hvalid : expiry.isTokenExpired (now e) (Some t) = false) :
  let '(r, w') := oauth.GetValidToken tm userID provider serverName e w in
  r = Ok (length (heap w))
  /\ heap w' !! length (heap w) = Some t
  /\ network_calls w' = network_calls w
  /\ redis_commands w'
     = redis_commands w
       ++ [EvRedis Ping; EvRedis (Get (storage.TokenKey userID provider serverName))]
  /\ tokens w' = tokens w
  /\ pkce w' = pkce w.
Proof.
  unfold oauth.GetValidToken. unfold bind at 1.
  rewrite (GetToken_found _ _ _ _ _ _ Hping Hget Hfound).
  unfold bind at 1. unfold oauth.isTokenExpired, bind, load, clock.Now, ask, ret. simpl.
  rewrite lookup_snoc. simpl. rewrite Hvalid.
  unfold logger.Info, emit. simpl.
  split; [reflexivity|]. split; [apply lookup_snoc|].
  split_all; auto; same_calls.
Qed.

Lemma X12_GetValidToken_valid_token_witness :
  let tok := oauth2.mkToken "live" "bearer" "r1" (scenario.now0 + time.Hour) in
  let w := mkWorld {[ storage.TokenKey "u1" "x" "tenantX" := JsonOf tok ]} ∅ [] 0 [] in
  fst (oauth.GetValidToken scenario.tm "u1" "x" "tenantX" scenario.env w) = Ok 0%nat
  /\ network_calls (snd (oauth.GetValidToken scenario.tm "u1" "x" "tenantX" scenario.env w))
     = [].
Proof.
  cbv zeta.
  pose proof (X12_GetValidToken_valid_token scenario.tm "u1" "x" "tenantX"
                (oauth2.mkToken "live" "bearer" "r1" (scenario.now0 + time.Hour))
                scenario.env
                (mkWorld {[ storage.TokenKey "u1" "x" "tenantX" :=
                              JsonOf (oauth2.mkToken "live" "bearer" "r1"
                                        (scenario.now0 + time.Hour)) ]} ∅ [] 0 [])
                ltac:(apply lookup_singleton_eq) eq_refl eq_refl eq_refl) as H.
  destruct (oauth.GetValidToken _ _ _ _ _ _) as [r w'].
  destruct H as (Hr & _ & Hn & _). auto.
Defined.

(** X13. Whenever the read of the Credential Store fails, [GetValidToken]
    answers with the TOKEN_NOT_FOUND error: an unreachable Redis, a failing
    read and a record that does not deserialize are reported as a missing
    token.  No provider is called and nothing is written. *)
Theorem X13_GetValidToken_read_failure
    (tm : oauth.TokenManager) (userID provider serverName : string) (e : Env) (w : World)
    (Hfail : storage_read_fails e w (storage.TokenKey userID provider serverName)) :
  let '(r, w') := oauth.GetValidToken tm userID provider serverName e w in
  r = Err (App errors.ErrTokenNotFound)
  /\ errors.Code errors.ErrTokenNotFound = "TOKEN_NOT_FOUND"
  /\ network_calls w' = network_calls w
  /\ tokens w' = tokens w
  /\ pkce w' = pkce w
  /\ heap w' = heap w.
Proof.
  destruct (GetToken_fails _ _ _ _ _ Hfail) as (err & evs & Hg & Hn).
  unfold oauth.GetValidToken, bind. rewrite Hg.
  unfold logger.Error, emit, ret, with_trace. simpl.
  split_all; auto.
  unfold network_calls. simpl. now rewrite !List.filter_app, Hn, !app_nil_r.
Qed.

Lemma X13_GetValidToken_read_failure_witness :
  fst (oauth.GetValidToken scenario.tm "u1" "facebook" "tenantX"
         (scenario.env_with scenario.providers_up scenario.redis_down) scenario.world)
  = Err (App errors.ErrTokenNotFound).
Proof.
  pose proof (X13_GetValidToken_read_failure scenario.tm "u1" "facebook" "tenantX"
                (scenario.env_with scenario.providers_up scenario.redis_down)
                scenario.world ltac:(left; discriminate)) as H.
  destruct (oauth.GetValidToken _ _ _ _ _ _) as [r w'].
  exact (proj1 H).
Defined.

Lemma GetValidToken_stale_outcome tm u p s t cfg e w :
  tokens w !! storage.TokenKey u p s = Some (JsonOf t) ->
  redis_fault e Ping = None ->
  redis_fault e (Get (storage.TokenKey u p s)) = None ->
  expiry.isTokenExpired (now e) (Some t) = true ->
  credential p t <> "" ->
  config.GetServerOAuthConfig (oauth.tm_config tm) p s "" = Ok cfg ->
  let '(r, w') := oauth.GetValidToken tm u p s e w in
  let key := storage.TokenKey u p s in
  pkce w' = pkce w
  /\ network_calls w' = network_calls w ++ refresh_calls cfg (credential p t)
  /\ match refresh_outcome e cfg (credential p t) with
     | Err err =>
         r = Err (Wrapf "token refresh failed" (Wrapf "token refresh failed" err))
         /\ tokens w' = tokens w
         /\ redis_commands w' = redis_commands w ++ [EvRedis Ping; EvRedis (Get key)]
     | Ok nt =>
         redis_commands w'
         = redis_commands w ++ [EvRedis Ping; EvRedis (Get key); EvRedis (SetEx key)]
         /\ match redis_fault e (SetEx key) with
            | Some err =>
                r = Err (Wrapf "token refresh failed"
                           (Wrapf "failed to save refreshed token" err))
                /\ tokens w' = tokens w
            | None =>
                exists np, r = Ok np /\ heap w' !! np = Some nt
                           /\ (length (heap w) < np)%nat
                           /\ tokens w' = <[key := JsonOf nt]> (tokens w)
            end
     end.
Proof.
  intros Hfound Hping Hget Hstale Hcred Hcfg.
  unfold oauth.GetValidToken. unfold bind at 1.
  rewrite (GetToken_found _ _ _ _ _ _ Hping Hget Hfound).
  unfold bind at 1. unfold oauth.isTokenExpired, bind, load, clock.Now, ask, ret. simpl.
  rewrite lookup_snoc. simpl. rewrite Hstale.
  unfold logger.Info, emit. simpl. rewrite <- app_assoc.
  pose proof (refresh_after_found tm u p s t cfg e w
                ([EvRedis Ping; EvRedis (Get (storage.TokenKey u p s))]
                 ++ [EvLog LInfo "token expired, attempting refresh"])
                Hcred Hcfg eq_refl) as H.
  cbv zeta in H. simpl in H.
  destruct (oauth.refreshToken _ _ _ _ _ _ _) as [r w'].
  destruct H as (Hpk & Hnet & Hout).
  destruct (refresh_outcome e cfg (credential p t)) as [nt|err].
  - destruct Hout as [Hred Hout].
    destruct (redis_fault e (SetEx _)) as [es|].
    + destruct Hout as [-> Htok]. unfold logger.Error, emit. simpl.
      rewrite network_calls_app, redis_commands_app. simpl.
      rewrite !app_nil_r. auto.
    + destruct Hout as (np & -> & Hh & Hlt & Htok). unfold logger.Info, emit. simpl.
      rewrite network_calls_app, redis_commands_app. simpl.
      rewrite !app_nil_r. split_all; auto. exists np. auto.
  - destruct Hout as (-> & Htok & Hred). unfold logger.Error, emit. simpl.
    rewrite network_calls_app, redis_commands_app. simpl.
    rewrite !app_nil_r. auto.
Qed.

(** X14. A Stale cached token whose refresh credential is there, for a
    configured tenant and provider: when the provider answers the refresh
    with a token and Redis takes the write, [GetValidToken] returns that
    token in a new object and the record of the identity is that token;
    the provider calls made are those of the refresh. *)
Theorem X14_GetValidToken_refreshes
    (tm : oauth.TokenManager) (userID provider serverName : string)
    (t nt : oauth2.Token) (cfg : oauth2cfg.Config) (e : Env) (w : World)
    (Hfound : tokens w !! storage.TokenKey userID provider serverName = Some (JsonOf t))
    (Hping : redis_fault e Ping = None)
    (Hget : redis_fault e (Get (storage.TokenKey userID provider serverName)) = None)
    (Hset : redis_fault e (SetEx (storage.TokenKey userID provider serverName)) = None)
    (Hstale : expiry.isTokenExpired (now e) (Some t) = true)
    (Hcred : credential provider t <> "")
    (Hcfg : config.GetServerOAuthConfig (oauth.tm_config tm) provider serverName "" = Ok cfg)
    (Hanswer : refresh_outcome e cfg (credential provider t) = Ok nt) :
  let '(r, w') := oauth.GetValidToken tm userID provider serverName e w in
  exists np,
    r = Ok np
    /\ heap w' !! np = Some nt
    /\ (length (heap w) < np)%nat
    /\ tokens w' = <[storage.TokenKey userID provider serverName := JsonOf nt]> (tokens w)
    /\ network_calls w' = network_calls w ++ refresh_calls cfg (credential provider t)
    /\ pkce w' = pkce w.
Proof.
  pose proof (GetValidToken_stale_outcome tm userID provider serverName t cfg e w
                Hfound Hping Hget Hstale Hcred Hcfg) as H.
  destruct (oauth.GetValidToken _ _ _ _ _ _) as [r w']. cbv zeta in H.
  rewrite Hanswer, Hset in H. destruct H as (Hpk & Hnet & _ & np & Hr & Hh & Hlt & Htok).
  exists np. repeat split; assumption.
Qed.

Lemma X14_GetValidToken_refreshes_witness :
  let tok := oauth2.mkToken "old" "bearer" "r1" (scenario.now0 - time.Second) in
  let w := mkWorld {[ storage.TokenKey "u1" "x" "tenantX" := JsonOf tok ]} ∅ [] 0 [] in
  exists np nt,
    fst (oauth.GetValidToken scenario.tm "u1" "x" "tenantX" scenario.env w) = Ok np
    /\ tokens (snd (oauth.GetValidToken scenario.tm "u1" "x" "tenantX" scenario.env w))
         !! storage.TokenKey "u1" "x" "tenantX" = Some (JsonOf nt)
    /\ oauth2.AccessToken nt = "xtok".
Proof.
  cbv zeta.
  pose proof (X14_GetValidToken_refreshes scenario.tm "u1" "x" "tenantX"
                (oauth2.mkToken "old" "bearer" "r1" (scenario.now0 - time.Second))
                (oauth2.mkToken "xtok" "bearer" "" (scenario.now0 + 7200 * time.Second))
                (x_config scenario.provider_set "")
                scenario.env
                (mkWorld {[ storage.TokenKey "u1" "x" "tenantX" :=
                              JsonOf (oauth2.mkToken "old" "bearer" "r1"
                                        (scenario.now0 - time.Second)) ]} ∅ [] 0 [])
                ltac:(apply lookup_singleton_eq) eq_refl eq_refl eq_refl eq_refl
                ltac:(discriminate) eq_refl ltac:(vm_compute; reflexivity)) as H.
  destruct (oauth.GetValidToken _ _ _ _ _ _) as [r w'].
  destruct H as (np & Hr & _ & _ & Htok & _).
  eexists np, _. cbn [fst snd]. split; [exact Hr|].
  split; [rewrite Htok; apply lookup_insert_eq | reflexivity].
Defined.

(** X15. The same read when the refresh does not go through: if the
    provider's answer is an error, or if the answer is a token and the
    write to Redis fails, [GetValidToken] fails and the record of the
    identity stays the old token; in the second case the provider has been
    called and its new token is not kept anywhere in the store. *)
Theorem X15_GetValidToken_refresh_fails
    (tm : oauth.TokenManager) (userID provider serverName : string)
    (t : oauth2.Token) (cfg : oauth2cfg.Config) (e : Env) (w : World)
    (Hfound : tokens w !! storage.TokenKey userID provider serverName = Some (JsonOf t))
    (Hping : redis_fault e Ping = None)
    (Hget : redis_fault e (Get (storage.TokenKey userID provider serverName)) = None)
    (Hstale : expiry.isTokenExpired (now e) (Some t) = true)
    (Hcred : credential provider t <> "")
    (Hcfg : config.GetServerOAuthConfig (oauth.tm_config tm) provider serverName "" = Ok cfg) :
  let '(r, w') := oauth.GetValidToken tm userID provider serverName e w in
  network_calls w' = network_calls w ++ refresh_calls cfg (credential provider t)
  /\ (forall err, refresh_outcome e cfg (credential provider t) = Err err ->
        r = Err (Wrapf "token refresh failed" (Wrapf "token refresh failed" err))
        /\ tokens w' = tokens w)
  /\ (forall nt es, refresh_outcome e cfg (credential provider t) = Ok nt ->
        redis_fault e (SetEx (storage.TokenKey userID provider serverName)) = Some es ->
        r = Err (Wrapf "token refresh failed" (Wrapf "failed to save refreshed token" es))
        /\ tokens w' = tokens w
        /\ tokens w' !! storage.TokenKey userID provider serverName = Some (JsonOf t)).
Proof.
  pose proof (GetValidToken_stale_outcome tm userID provider serverName t cfg e w
                Hfound Hping Hget Hstale Hcred Hcfg) as H.
  destruct (oauth.GetValidToken _ _ _ _ _ _) as [r w']. cbv zeta in H.
  destruct H as (Hpk & Hnet & Hout). split; [exact Hnet|]. split.
  - intros err Herr. rewrite Herr in Hout. destruct Hout as (Hr & Htok & _). auto.
  - intros nt es Hok Hes. rewrite Hok, Hes in Hout. destruct Hout as (_ & Hr & Htok).
    split; [exact Hr|]. split; [exact Htok|]. now rewrite Htok.
Qed.

Lemma X15_GetValidToken_refresh_fails_witness :
  let tok := oauth2.mkToken "old" "bearer" "r1" (scenario.now0 - time.Second) in
  let w := mkWorld {[ storage.TokenKey "u1" "x" "tenantX" := JsonOf tok ]} ∅ [] 0 [] in
  let e := scenario.env_with scenario.upgrade_down (fun _ => None) in
  fst (oauth.GetValidToken scenario.tm "u1" "x" "tenantX" e w)
  = Err (Wrapf "token refresh failed"
           (Wrapf "token refresh failed"
              (StatusErr "token refresh failed" 503 "service unavailable")))
  /\ tokens (snd (oauth.GetValidToken scenario.tm "u1" "x" "tenantX" e w))
     = {[ storage.TokenKey "u1" "x" "tenantX" := JsonOf tok ]}.
Proof.
  cbv zeta.
  pose proof (X15_GetValidToken_refresh_fails scenario.tm "u1" "x" "tenantX"
                (oauth2.mkToken "old" "bearer" "r1" (scenario.now0 - time.Second))
                (x_config scenario.provider_set "")
                (scenario.env_with scenario.upgrade_down (fun _ => None))
                (mkWorld {[ storage.TokenKey "u1" "x" "tenantX" :=
                              JsonOf (oauth2.mkToken "old" "bearer" "r1"
                                        (scenario.now0 - time.Second)) ]} ∅ [] 0 [])
                ltac:(apply lookup_singleton_eq) eq_refl eq_refl eq_refl
                ltac:(discriminate) eq_refl) as H.
  destruct (oauth.GetValidToken _ _ _ _ _ _) as [r w'].
  destruct H as (_ & H & _). cbn [fst snd]. exact (H _ eq_refl).
Defined.

(** X16. [ForceRefreshToken] refreshes whatever the expiry of the cached
    token, so also a Valid one: with the credential there and the tenant
    and provider configured, the refresh call is made; a token answered and
    written is returned and becomes the record; an error of the provider is
    returned wrapped as "force token refresh failed" and the record stays. *)
Theorem X16_ForceRefreshToken_ignores_expiry
    (tm : oauth.TokenManager) (userID provider serverName : string)
    (t : oauth2.Token) (cfg : oauth2cfg.Config) (e : Env) (w : World)
    (Hfound : tokens w !! storage.TokenKey userID provider serverName = Some (JsonOf t))
    (Hping : redis_fault e Ping = None)
    (Hget : redis_fault e (Get (storage.TokenKey userID provider serverName)) = None)
    (Hcred : credential provider t <> "")
    (Hcfg : config.GetServerOAuthConfig (oauth.tm_config tm) provider serverName "" = Ok cfg) :
  let '(r, w') := oauth.ForceRefreshToken tm userID provider serverName e w in
  let key := storage.TokenKey userID provider serverName in
  network_calls w' = network_calls w ++ refresh_calls cfg (credential provider t)
  /\ (forall nt, refresh_outcome e cfg (credential provider t) = Ok nt ->
        redis_fault e (SetEx key) = None ->
        exists np, r = Ok np /\ heap w' !! np = Some nt
                   /\ tokens w' = <[key := JsonOf nt]> (tokens w))
  /\ (forall err, refresh_outcome e cfg (credential provider t) = Err err ->
        r = Err (Wrapf "force token refresh failed" (Wrapf "token refresh failed" err))
        /\ tokens w' = tokens w).
Proof.
  unfold oauth.ForceRefreshToken. unfold bind at 1.
  rewrite (GetToken_found _ _ _ _ _ _ Hping Hget Hfound).
  unfold logger.Info, emit, bind, ret. simpl. rewrite <- app_assoc.
  pose proof (refresh_after_found tm userID provider serverName t cfg e w
                ([EvRedis Ping; EvRedis (Get (storage.TokenKey userID provider serverName))]
                 ++ [EvLog LInfo "force refreshing token"])
                Hcred Hcfg eq_refl) as H.
  cbv zeta in H. simpl in H.
  destruct (oauth.refreshToken _ _ _ _ _ _ _) as [r w'].
  destruct H as (Hpk & Hnet & Hout).
  destruct (refresh_outcome e cfg (credential provider t)) as [nt|err].
  - destruct Hout as [Hred Hout].
    destruct (redis_fault e (SetEx _)) as [es|].
    + destruct Hout as [-> Htok]. unfold logger.Error, emit. simpl.
      rewrite network_calls_app. simpl. rewrite app_nil_r.
      split_all; try discriminate; auto.
    + destruct Hout as (np & -> & Hh & Hlt & Htok). unfold logger.Info, emit. simpl.
      rewrite network_calls_app. simpl. rewrite app_nil_r.
      split_all; try discriminate; auto.
      exists np. repeat split; congruence.
  - destruct Hout as (-> & Htok & Hred). unfold logger.Error, emit. simpl.
    rewrite network_calls_app. simpl. rewrite app_nil_r.
    split_all; try discriminate; auto; congruence.
Qed.

Lemma X16_ForceRefreshToken_ignores_expiry_witness :
  let tok := oauth2.mkToken "live" "bearer" "r1" (scenario.now0 + time.Hour) in
  let w := mkWorld {[ storage.TokenKey "u1" "x" "tenantX" := JsonOf tok ]} ∅ [] 0 [] in
  expiry.isTokenExpired (now scenario.env) (Some tok) = false
  /\ network_calls (snd (oauth.ForceRefreshToken scenario.tm "u1" "x" "tenantX" scenario.env w))
     = [EvHTTP (x_refresh_request (x_config scenario.provider_set "") "r1")].
Proof.
  cbv zeta. split; [reflexivity|].
  pose proof (X16_ForceRefreshToken_ignores_expiry scenario.tm "u1" "x" "tenantX"
                (oauth2.mkToken "live" "bearer" "r1" (scenario.now0 + time.Hour))
                (x_config scenario.provider_set "")
                scenario.env
                (mkWorld {[ storage.TokenKey "u1" "x" "tenantX" :=
                              JsonOf (oauth2.mkToken "live" "bearer" "r1"
                                        (scenario.now0 + time.Hour)) ]} ∅ [] 0 [])
                ltac:(apply lookup_singleton_eq) eq_refl eq_refl
                ltac:(discriminate) eq_refl) as H.
  destruct (oauth.ForceRefreshToken _ _ _ _ _ _) as [r w'].
  exact (proj1 H).
Defined.

(** X17. [IsTokenValid] answers true exactly when the record of the
    identity can be read, deserializes, and holds a token that is not
    within five minutes of its expiry; in every case it only reads: the
    store is as it was and no provider is called. *)
Theorem X17_IsTokenValid_meaning
    (tm : oauth.TokenManager) (userID provider serverName : string) (e : Env) (w : World) :
  let '((valid, err), w') := oauth.IsTokenValid tm userID provider serverName e w in
  let key := storage.TokenKey userID provider serverName in
  (valid = true <->
   exists t, tokens w !! key = Some (JsonOf t)
             /\ redis_fault e Ping = None /\ redis_fault e (Get key) = None
             /\ expiry.isTokenExpired (now e) (Some t) = false)
  /\ tokens w' = tokens w
  /\ pkce w' = pkce w
  /\ network_calls w' = network_calls w.
Proof.
  unfold oauth.IsTokenValid. unfold bind at 1.
  destruct (GetToken_cases userID provider serverName e w)
    as [(t & Ht & Hp & Hg & Hrun)|(Hfail & err & evs & Hrun & Hn)]; rewrite Hrun.
  - unfold oauth.isTokenExpired, bind, load, clock.Now, ask, ret. simpl.
    rewrite lookup_snoc. simpl.
    split; [|split_all; auto; same_calls].
    split.
    + intros Hv. exists t. repeat split; auto. now apply negb_true_iff.
    + intros (t' & Ht' & _ & _ & Hv). rewrite Ht in Ht'. injection Ht' as <-.
      now apply negb_true_iff.
  - unfold ret, with_trace. simpl. split; [|split_all; auto].
    + split; [discriminate|]. intros (t & Ht & Hp & Hg & _).
      destruct Hfail as [?|[?|[?|?]]]; congruence.
    + unfold network_calls. simpl. now rewrite List.filter_app, Hn, app_nil_r.
Qed.

Lemma X17_IsTokenValid_meaning_witness :
  fst (fst (oauth.IsTokenValid scenario.tm "u1" "instagram" "tenantX"
              scenario.env scenario.world)) = false.
Proof.
  pose proof (X17_IsTokenValid_meaning scenario.tm "u1" "instagram" "tenantX"
                scenario.env scenario.world) as H.
  destruct (oauth.IsTokenValid _ _ _ _ _ _) as [[valid err] w'].
  destruct H as [[H _] _]. cbn [fst]. destruct valid; [|reflexivity].
  destruct (H eq_refl) as (t & Ht & _ & _ & Hv).
  vm_compute in Ht. injection Ht as <-. vm_compute in Hv. discriminate.
Defined.

(** X18. A Stale cached token with its credential, for a tenant or a
    provider that the configuration does not know: the refresh fails with
    "failed to get OAuth config" before any provider call, and the record
    stays as it was. *)
Theorem X18_GetValidToken_unconfigured
    (tm : oauth.TokenManager) (userID provider serverName : string)
    (t : oauth2.Token) (cause : error) (e : Env) (w : World)
    (Hfound : tokens w !! storage.TokenKey userID provider serverName = Some (JsonOf t))
    (Hping : redis_fault e Ping = None)
    (Hget : redis_fault e (Get (storage.TokenKey userID provider serverName)) = None)
    (Hstale : expiry.isTokenExpired (now e) (Some t) = true)
    (Hcred : credential provider t <> "")
    (Hcfg : config.GetServerOAuthConfig (oauth.tm_config tm) provider serverName ""
            = Err cause) :
  let '(r, w') := oauth.GetValidToken tm userID provider serverName e w in
  r = Err (Wrapf "token refresh failed" (Wrapf "failed to get OAuth config" cause))
  /\ network_calls w' = network_calls w
  /\ tokens w' = tokens w
  /\ pkce w' = pkce w.
Proof.
  unfold oauth.GetValidToken. unfold bind at 1.
  rewrite (GetToken_found _ _ _ _ _ _ Hping Hget Hfound).
  unfold bind at 1. unfold oauth.isTokenExpired, bind, load, clock.Now, ask, ret. simpl.
  rewrite lookup_snoc. simpl. rewrite Hstale.
  unfold logger.Info, emit. simpl.
  unfold oauth.refreshToken. unfold bind, load. simpl. rewrite lookup_snoc. simpl.
  revert Hcred. unfold credential.
  destruct (String.eqb provider "instagram"); intros Hcred.
  - destruct (String.eqb_spec (oauth2.AccessToken t) ""); [contradiction|].
    unfold store_RefreshToken, ret. simpl. rewrite Hcfg.
    unfold logger.Error, emit. simpl. split_all; auto; same_calls.
  - destruct (String.eqb_spec (oauth2.RefreshToken t) ""); [contradiction|].
    unfold ret. simpl. rewrite Hcfg.
    unfold logger.Error, emit. simpl. split_all; auto; same_calls.
Qed.

Lemma X18_GetValidToken_unconfigured_witness :
  let tok := oauth2.mkToken "old" "bearer" "r1" (scenario.now0 - time.Second) in
  let w := mkWorld {[ storage.TokenKey "u1" "x" "tenantZ" := JsonOf tok ]} ∅ [] 0 [] in
  fst (oauth.GetValidToken scenario.tm "u1" "x" "tenantZ" scenario.env w)
  = Err (Wrapf "token refresh failed"
           (Wrapf "failed to get OAuth config"
              (Errorf "server configuration not found: tenantZ"))).
Proof.
  cbv zeta.
  pose proof (X18_GetValidToken_unconfigured scenario.tm "u1" "x" "tenantZ"
                (oauth2.mkToken "old" "bearer" "r1" (scenario.now0 - time.Second))
                (Errorf "server configuration not found: tenantZ")
                scenario.env
                (mkWorld {[ storage.TokenKey "u1" "x" "tenantZ" :=
                              JsonOf (oauth2.mkToken "old" "bearer" "r1"
                                        (scenario.now0 - time.Second)) ]} ∅ [] 0 [])
                ltac:(apply lookup_singleton_eq) eq_refl eq_refl eq_refl
                ltac:(discriminate) eq_refl) as H.
  destruct (oauth.GetValidToken _ _ _ _ _ _) as [r w'].
  exact (proj1 H).
Defined.
(** * More of the code: the state codec and the nonce *)

Section Alphabet.

Import bytes base64.

Lemma within_app al s t : within al s -> within al t -> within al (s +:+ t).
Proof.
  unfold within. induction s as [|c s IH]; [auto|]. rewrite append_cons. simpl.
  intros Hs Ht. inversion Hs; subst. constructor; auto.
Qed.

Lemma within_enc b5 b4 b3 b2 b1 b0 :
  is_Some (index_of (enc encodeURL (sextet b5 b4 b3 b2 b1 b0)) encodeURL).
Proof. rewrite index_of_enc_URL. eauto. Qed.

Lemma within_quantum3 a b c : within encodeURL (quantum3 encodeURL a b c).
Proof.
  destruct a, b, c. unfold quantum3, within. simpl.
  repeat constructor; apply within_enc.
Qed.

Lemma within_quantum2 a b : within encodeURL (quantum2 encodeURL a b).
Proof.
  destruct a, b. unfold quantum2, within. simpl. repeat constructor; apply within_enc.
Qed.

Lemma within_quantum1 a : within encodeURL (quantum1 encodeURL a).
Proof.
  destruct a. unfold quantum1, within. simpl. repeat constructor; apply within_enc.
Qed.

Lemma within_EncodeToString s : within encodeURL (RawURLEncoding.EncodeToString s).
Proof.
  unfold RawURLEncoding.EncodeToString.
  induction s as [| a | a b | a b c rest IH] using by_three; cbn [EncodeToString].
  - constructor.
  - rewrite append_nil_r. apply within_quantum1.
  - rewrite append_nil_r. apply within_quantum2.
  - apply within_app; [apply within_quantum3 | exact IH].
Qed.

Lemma within_take al s n : within al s -> within al (take n s).
Proof.
  unfold within. revert n. induction s as [|c s IH]; intros [|n] H; simpl; try constructor.
  - now inversion H.
  - apply IH. now inversion H.
Qed.

Lemma length_quantum3 a b c r :
  String.length (quantum3 encodeURL a b c +:+ r) = (4 + String.length r)%nat.
Proof. destruct a, b, c. reflexivity. Qed.

Lemma length_EncodeToString s :
  (String.length s <= String.length (RawURLEncoding.EncodeToString s))%nat.
Proof.
  unfold RawURLEncoding.EncodeToString.
  induction s as [| a | a b | a b c rest IH] using by_three; cbn [EncodeToString].
  - simpl. lia.
  - destruct a. simpl. lia.
  - destruct a, b. simpl. lia.
  - rewrite length_quantum3. simpl. lia.
Qed.

Lemma length_take n s : (n <= String.length s)%nat -> String.length (take n s) = n.
Proof.
  revert s. induction n as [|n IH]; intros [|c s] H; simpl in *; try lia.
  now rewrite IH by lia.
Qed.

Lemma length_drawn e k n : String.length (drawn e k n) = n.
Proof.
  unfold drawn. generalize 0%nat. induction n as [|n IH]; intros i; simpl; [reflexivity|].
  now rewrite IH.
Qed.

Lemma nonce_length e k n :
  String.length (take n (RawURLEncoding.EncodeToString (drawn e k n))) = n.
Proof.
  apply length_take. etransitivity; [|apply length_EncodeToString].
  now rewrite length_drawn.
Qed.

Lemma nonce_within e k n :
  within encodeURL (take n (RawURLEncoding.EncodeToString (drawn e k n))).
Proof. apply within_take, within_EncodeToString. Qed.

(** a character outside the alphabet makes the decoder fail *)
Lemma decode_quanta_within al s b : decode_quanta al s = Some b -> within al s.
Proof.
  assert (H : forall n s b, (String.length s <= n)%nat ->
                            decode_quanta al s = Some b -> within al s).
  { clear s b. unfold within. induction n as [|n IH]; intros s b Hn.
    - destruct s; [constructor | simpl in Hn; lia].
    - destruct s as [|c0 [|c1 [|c2 [|c3 rest]]]]; cbn [decode_quanta]; try discriminate.
      + constructor.
      + destruct (index_of c0 al) eqn:H0; [|discriminate].
        destruct (index_of c1 al) eqn:H1; [|discriminate].
        intros _. simpl. repeat constructor; rewrite ?H0, ?H1; eauto.
      + destruct (index_of c0 al) eqn:H0; [|discriminate].
        destruct (index_of c1 al) eqn:H1; [|discriminate].
        destruct (index_of c2 al) eqn:H2; [|discriminate].
        intros _. simpl. repeat constructor; rewrite ?H0, ?H1, ?H2; eauto.
      + destruct (index_of c0 al) eqn:H0; [|discriminate].
        destruct (index_of c1 al) eqn:H1; [|discriminate].
        destruct (index_of c2 al) eqn:H2; [|discriminate].
        destruct (index_of c3 al) eqn:H3; [|discriminate].
        cbn [mbind option_bind].
        destruct (decode_quanta al rest) as [r|] eqn:Hr; [|discriminate].
        intros _. simpl. repeat constructor; rewrite ?H0, ?H1, ?H2, ?H3; eauto.
        apply (IH rest r); [simpl in Hn; lia | exact Hr]. }
  now apply (H (String.length s)).
Qed.

Lemma In_strip_newlines c s :
  In c (list_ascii_of_string s) -> c <> CR -> c <> LF ->
  In c (list_ascii_of_string (strip_newlines s)).
Proof.
  intros Hin Hcr Hlf. induction s as [|d s IH]; [contradiction|].
  cbn [strip_newlines]. destruct Hin as [->|Hin].
  - destruct (Ascii.eqb_spec c CR); [contradiction|].
    destruct (Ascii.eqb_spec c LF); [contradiction|]. simpl. auto.
  - destruct (Ascii.eqb d CR || Ascii.eqb d LF); simpl; auto.
Qed.

Lemma DecodeString_outside s c :
  In c (list_ascii_of_string s) -> c <> CR -> c <> LF ->
  index_of c encodeURL = None ->
  RawURLEncoding.DecodeString s = None.
Proof.
  intros Hin Hcr Hlf Hout. unfold RawURLEncoding.DecodeString, DecodeString.
  destruct (decode_quanta encodeURL (strip_newlines s)) as [b|] eqn:Hd; [|reflexivity].
  apply decode_quanta_within in Hd. unfold within in Hd.
  rewrite List.Forall_forall in Hd.
  specialize (Hd c (In_strip_newlines _ _ Hin Hcr Hlf)). rewrite Hout in Hd.
  now destruct Hd.
Qed.

End Alphabet.

(** X19. [DecodeState] refuses what is not unpadded URL-safe base64: a
    state that holds a character outside the alphabet (a padding "=", the
    "+" and "/" of the standard alphabet, a space), line breaks apart,
    fails with "failed to decode state"; and the empty state, which the
    base64 decoder accepts, fails in the JSON decoder. *)
Theorem X19_DecodeState_rejects (raw : string) (c : ascii)
    (Hin : In c (list_ascii_of_string raw))
    (Hcr : c <> bytes.CR) (Hlf : c <> bytes.LF)
    (Hout : bytes.index_of c base64.encodeURL = None) :
  oauth.DecodeState raw = Err (Wrapf "failed to decode state" (Lib "illegal base64 data"))
  /\ oauth.DecodeState ""
     = Err (Wrapf "failed to unmarshal state payload" (Lib "json: cannot unmarshal")).
Proof.
  split; [|reflexivity].
  unfold oauth.DecodeState. now rewrite (DecodeString_outside raw c).
Qed.

Lemma X19_DecodeState_rejects_witness :
  oauth.DecodeState "eyJ1aWQiOiJ1In0="
  = Err (Wrapf "failed to decode state" (Lib "illegal base64 data")).
Proof.
  refine (proj1 (X19_DecodeState_rejects "eyJ1aWQiOiJ1In0=" "=" _ _ _ _)).
  - simpl. auto 20.
  - discriminate.
  - discriminate.
  - reflexivity.
Defined.

(** X20. [RandStringURLSafe(n)] reads [n] random bytes once.  When the
    random source answers, the result has exactly [n] characters, all of
    the URL-safe alphabet: the encoding of [n] bytes is never shorter than
    [n], so the slice [[:n]] is within bounds for every [n].  When the
    source fails, its error is returned.  Nothing else is touched. *)
Theorem X20_RandStringURLSafe_length (n : nat) (e : Env) (w : World) :
  let '(r, w') := oauth.RandStringURLSafe n e w in
  rand_calls w' = S (rand_calls w)
  /\ trace w' = trace w ++ [EvRand n]
  /\ tokens w' = tokens w /\ pkce w' = pkce w /\ heap w' = heap w
  /\ (n <= String.length (base64.RawURLEncoding.EncodeToString (drawn e (rand_calls w) n)))%nat
  /\ match rand_fault e (rand_calls w) with
     | Some err => r = Err err
     | None =>
         exists s, r = Ok s /\ String.length s = n /\ within base64.encodeURL s
     end.
Proof.
  unfold oauth.RandStringURLSafe, rand.Read, bind, ret. simpl.
  assert (Hlen : (n <= String.length (base64.RawURLEncoding.EncodeToString
                                        (drawn e (rand_calls w) n)))%nat).
  { etransitivity; [|apply length_EncodeToString]. now rewrite length_drawn. }
  destruct (rand_fault e (rand_calls w)) as [err|]; simpl; split_all; auto.
  eexists. split; [reflexivity|]. split; [apply nonce_length | apply nonce_within].
Qed.

Lemma X20_RandStringURLSafe_length_witness :
  fst (oauth.RandStringURLSafe 12 scenario.env scenario.world) = Ok "ABEiM0RVZneI".
Proof.
  pose proof (X20_RandStringURLSafe_length 12 scenario.env scenario.world) as H.
  destruct (oauth.RandStringURLSafe 12 scenario.env scenario.world) as [r w'] eqn:E.
  destruct H as (_ & _ & _ & _ & _ & _ & H). simpl in H.
  destruct H as (s & -> & _ & _). vm_compute in E. injection E as <- _. reflexivity.
Defined.

(** X21. [EncodeState] touches nothing but the random source, which it
    reads once for twelve bytes; it fails only when that read fails, with
    "failed to generate nonce"; and the state it returns is made of
    characters of the URL-safe alphabet only, whatever bytes the user id
    and the tenant name hold. *)
Theorem X21_EncodeState_url_safe (userID serverName : string) (e : Env) (w : World) :
  let '(r, w') := oauth.EncodeState userID serverName e w in
  trace w' = trace w ++ [EvRand 12]
  /\ rand_calls w' = S (rand_calls w)
  /\ tokens w' = tokens w /\ pkce w' = pkce w /\ heap w' = heap w
  /\ match rand_fault e (rand_calls w) with
     | Some err => r = Err (Wrapf "failed to generate nonce" err)
     | None => exists state, r = Ok state /\ within base64.encodeURL state
     end.
Proof.
  unfold oauth.EncodeState, oauth.RandStringURLSafe, rand.Read, bind, ret. simpl.
  destruct (rand_fault e (rand_calls w)) as [err|]; simpl; split_all; auto.
  eexists. split; [reflexivity | apply within_EncodeToString].
Qed.

Lemma X21_EncodeState_url_safe_witness :
  exists state,
    fst (oauth.EncodeState (String "255" "") "tenant X" scenario.env scenario.world) = Ok state
    /\ within base64.encodeURL state.
Proof.
  pose proof (X21_EncodeState_url_safe (String "255" "") "tenant X"
                scenario.env scenario.world) as H.
  destruct (oauth.EncodeState _ _ _ _) as [r w'].
  destruct H as (_ & _ & _ & _ & _ & H). exact H.
Defined.
(** * More of the code: the handlers *)

Ltac run_handler :=
  unfold logger.Info, logger.Error, bind, emit, ask, ret, load; simpl.

(** X22. A callback whose state does not decode is answered with the
    invalid-state error at once: nothing is sent to Redis, no provider is
    called, and the world is as before but for the error log. *)
Theorem X22_Callback_undecodable_state
    (h : handlers.AuthHandler) (req : handlers.CallbackRequest) (err : error)
    (e : Env) (w : World)
    (Hstate : oauth.DecodeState (handlers.State req) = Err err) :
  let '(r, w') := handlers.Callback h req e w in
  r = handlers.Error errors.ErrInvalidState
  /\ errors.Status errors.ErrInvalidState = 400
  /\ trace w' = trace w ++ [EvLog LError "failed to decode state"]
  /\ tokens w' = tokens w /\ pkce w' = pkce w /\ heap w' = heap w
  /\ rand_calls w' = rand_calls w.
Proof.
  unfold handlers.Callback. rewrite Hstate. run_handler. repeat split.
Qed.

Lemma X22_Callback_undecodable_state_witness :
  fst (handlers.Callback scenario.h
         (handlers.mkCallbackRequest "x" "tenantX" "u1" "not base64!" "abc" "")
         scenario.env scenario.world)
  = handlers.Error errors.ErrInvalidState.
Proof.
  pose proof (X22_Callback_undecodable_state scenario.h
                (handlers.mkCallbackRequest "x" "tenantX" "u1" "not base64!" "abc" "")
                (Wrapf "failed to decode state" (Lib "illegal base64 data"))
                scenario.env scenario.world ltac:(vm_compute; reflexivity)) as H.
  destruct (handlers.Callback _ _ _ _) as [r w'].
  exact (proj1 H).
Defined.

(** X23. A callback for a tenant or a provider that the configuration does
    not know is answered with the invalid-provider error and the message of
    the lookup as detail, after the state check and before anything is sent
    to Redis or to a provider. *)
Theorem X23_Callback_unconfigured
    (h : handlers.AuthHandler) (req : handlers.CallbackRequest)
    (payload : oauth.StatePayload) (cause : error) (e : Env) (w : World)
    (Hstate : oauth.DecodeState (handlers.State req) = Ok payload)
    (Htenant : oauth.ServerName payload = handlers.ServerName req)
    (Hcfg : config.GetServerOAuthConfig (handlers.h_config h) (handlers.Provider req)
              (handlers.ServerName req) (callback_redirect e req) = Err cause) :
  let '(r, w') := handlers.Callback h req e w in
  r = handlers.ErrorWithDetail errors.ErrInvalidProvider (error_string cause)
  /\ redis_commands w' = redis_commands w
  /\ network_calls w' = network_calls w
  /\ tokens w' = tokens w /\ pkce w' = pkce w /\ heap w' = heap w.
Proof.
  unfold handlers.Callback. rewrite Hstate, Htenant, String.eqb_refl. simpl negb. cbv iota.
  unfold callback_redirect in Hcfg.
  set (redirect0 := if String.eqb (handlers.RedirectURI req) "" then _ else _) in *.
  destruct (String.eqb (handlers.Provider req) "x"); run_handler.
  - destruct (url_without_query e redirect0) as [cleaned|]; simpl; rewrite Hcfg; simpl;
      split_all; auto; same_calls.
  - rewrite Hcfg. simpl. split_all; auto; same_calls.
Qed.

Lemma X23_Callback_unconfigured_witness :
  fst (handlers.Callback scenario.h
         (handlers.mkCallbackRequest "x" "tenantZ" "u1"
            (login.state_for "u1" "tenantZ") "abc" "")
         scenario.env scenario.world)
  = handlers.ErrorWithDetail errors.ErrInvalidProvider
      "server configuration not found: tenantZ".
Proof.
  pose proof (X23_Callback_unconfigured scenario.h
                (handlers.mkCallbackRequest "x" "tenantZ" "u1"
                   (login.state_for "u1" "tenantZ") "abc" "")
                (oauth.mkStatePayload "u1" "tenantZ" "ABEiM0RVZneI")
                (Errorf "server configuration not found: tenantZ")
                scenario.env scenario.world
                ltac:(vm_compute; reflexivity) eq_refl ltac:(vm_compute; reflexivity)) as H.
  destruct (handlers.Callback _ _ _ _) as [r w'].
  exact (proj1 H).
Defined.

Lemma GetAndDeletePKCEVerifier_missing state e w :
  pkce w !! storage.PKCEKey state = None ->
  redis_fault e (Get (storage.PKCEKey state)) = None ->
  redis_fault e (Del (storage.PKCEKey state)) = None ->
  storage.GetAndDeletePKCEVerifier state e w =
    (Err (Errorf "PKCE verifier not found or expired"),
     mkWorld (tokens w) (pkce w) (heap w) (rand_calls w)
       (trace w ++ [EvRedis (Get (storage.PKCEKey state));
                    EvRedis (Del (storage.PKCEKey state))])).
Proof.
  intros Hv Hg Hd.
  unfold storage.GetAndDeletePKCEVerifier, redis.get_pkce, redis.del_pkce,
    bind, emit, ask, get_world, put_pkce, ret. simpl.
  rewrite Hg, Hv, Hd. simpl. rewrite <- app_assoc. simpl.
  now rewrite delete_id.
Qed.

(** X24. A callback for X whose state has no verifier stored (never
    saved, expired, or handed out before) is answered with the
    invalid-state error and the detail "PKCE verifier not found or
    expired": the code is not exchanged, no provider is called and no token
    is stored. *)
Theorem X24_Callback_x_without_verifier
    (h : handlers.AuthHandler) (req : handlers.CallbackRequest)
    (payload : oauth.StatePayload) (sc : config.ServerOAuthConfig)
    (e : Env) (w : World)
    (Hx : handlers.Provider req = "x")
    (Hstate : oauth.DecodeState (handlers.State req) = Ok payload)
    (Htenant : oauth.ServerName payload = handlers.ServerName req)
    (Hconf : config.Servers (handlers.h_config h) !! handlers.ServerName req = Some sc)
    (Hnone : pkce w !! storage.PKCEKey (handlers.State req) = None)
    (Hget : redis_fault e (Get (storage.PKCEKey (handlers.State req))) = None)
    (Hdel : redis_fault e (Del (storage.PKCEKey (handlers.State req))) = None) :
  let '(r, w') := handlers.Callback h req e w in
  r = handlers.ErrorWithDetail errors.ErrInvalidState "PKCE verifier not found or expired"
  /\ network_calls w' = network_calls w
  /\ tokens w' = tokens w /\ pkce w' = pkce w /\ heap w' = heap w.
Proof.
  unfold handlers.Callback. rewrite Hstate, Htenant, String.eqb_refl. simpl negb. cbv iota.
  rewrite Hx. simpl String.eqb. cbv iota.
  set (redirect0 := if String.eqb (handlers.RedirectURI req) "" then _ else _) in *.
  run_handler.
  destruct (url_without_query e redirect0) as [cleaned|]; simpl.
  all: rewrite (GetServerOAuthConfig_x _ _ _ _ Hconf); simpl.
  all: rewrite GetAndDeletePKCEVerifier_missing by (simpl; auto).
  all: simpl; split_all; auto; same_calls.
Qed.

Lemma X24_Callback_x_without_verifier_witness :
  fst (handlers.Callback scenario.h login.request scenario.env scenario.world)
  = handlers.ErrorWithDetail errors.ErrInvalidState "PKCE verifier not found or expired".
Proof.
  pose proof (X24_Callback_x_without_verifier scenario.h login.request
                (oauth.mkStatePayload "user-at-start" "tenantX" "ABEiM0RVZneI")
                scenario.provider_set scenario.env scenario.world
                eq_refl ltac:(vm_compute; reflexivity) eq_refl eq_refl eq_refl
                eq_refl eq_refl) as H.
  destruct (handlers.Callback _ _ _ _) as [r w'].
  exact (proj1 H).
Defined.

(** X25. A callback for X whose code the provider refuses: the answer is
    the internal-server error with the exchange error as detail, no token
    is stored, and the verifier is gone from Redis all the same, so the
    login has to be started again. *)
Theorem X25_Callback_x_exchange_fails
    (h : handlers.AuthHandler) (req : handlers.CallbackRequest)
    (payload : oauth.StatePayload) (sc : config.ServerOAuthConfig)
    (verifier : string) (e : Env) (w : World)
    (Hx : handlers.Provider req = "x")
    (Hstate : oauth.DecodeState (handlers.State req) = Ok payload)
    (Htenant : oauth.ServerName payload = handlers.ServerName req)
    (Hconf : config.Servers (handlers.h_config h) !! handlers.ServerName req = Some sc)
    (Hstored : pkce w !! storage.PKCEKey (handlers.State req) = Some verifier)
    (Hverifier : verifier <> "")
    (Hget : redis_fault e (Get (storage.PKCEKey (handlers.State req))) = None)
    (Hdel : redis_fault e (Del (storage.PKCEKey (handlers.State req))) = None)
    (Hreply : reply_ok5 (http e (x_exchange_request (x_config sc (callback_redirect e req))
                                   (handlers.Code req) verifier)) = None) :
  let '(r, w') := handlers.Callback h req e w in
  let exchange := x_exchange_request (x_config sc (callback_redirect e req))
                    (handlers.Code req) verifier in
  r = handlers.ErrorWithDetail errors.ErrInternalServer
        ("token exchange failed: "
         +:+ error_string (Wrapf "token exchange failed"
                             (http_error "token exchange failed" (http e exchange))))
  /\ network_calls w' = network_calls w ++ [EvHTTP exchange]
  /\ tokens w' = tokens w
  /\ pkce w' = delete (storage.PKCEKey (handlers.State req)) (pkce w)
  /\ pkce w' !! storage.PKCEKey (handlers.State req) = None.
Proof.
  unfold handlers.Callback. rewrite Hstate, Htenant, String.eqb_refl. simpl negb. cbv iota.
  unfold callback_redirect in *. rewrite Hx in *. simpl String.eqb in *. cbv iota in *.
  set (redirect0 := if String.eqb (handlers.RedirectURI req) "" then _ else _) in *.
  run_handler.
  destruct (url_without_query e redirect0) as [cleaned|]; simpl.
  all: rewrite (GetServerOAuthConfig_x _ _ _ _ Hconf).
  all: unfold x_config in *.
  all: simpl.
  all: rewrite (GetAndDeletePKCEVerifier_found _ verifier) by (simpl; auto).
  all: simpl.
  all: rewrite ExchangeCode_x by (auto; reflexivity).
  all: simpl; rewrite Hreply.
  all: unfold with_trace; simpl.
  all: split; [reflexivity|].
  all: split; [same_calls|].
  all: split; [reflexivity|]. 
  all: split; [reflexivity | apply lookup_delete_eq].
Qed.

Lemma X25_Callback_x_exchange_fails_witness :
  let e := scenario.env_with scenario.upgrade_down (fun _ => None) in
  (exists detail,
     fst (handlers.Callback scenario.h login.request e login.world)
     = handlers.ErrorWithDetail errors.ErrInternalServer detail)
  /\ pkce (snd (handlers.Callback scenario.h login.request e login.world)) = ∅
  /\ tokens (snd (handlers.Callback scenario.h login.request e login.world)) = ∅.
Proof.
  cbv zeta.
  pose proof (X25_Callback_x_exchange_fails scenario.h login.request
                (oauth.mkStatePayload "user-at-start" "tenantX" "ABEiM0RVZneI")
                scenario.provider_set login.verifier
                (scenario.env_with scenario.upgrade_down (fun _ => None)) login.world
                eq_refl ltac:(vm_compute; reflexivity) eq_refl eq_refl
                ltac:(apply lookup_singleton_eq) ltac:(discriminate) eq_refl eq_refl
                eq_refl) as H.
  destruct (handlers.Callback _ _ _ _) as [r w'].
  destruct H as (Hr & _ & Ht & Hp & _). cbn [fst snd].
  split; [eexists; exact Hr|]. split; [|exact Ht].
  rewrite Hp. apply delete_singleton_eq.
Defined.
Lemma ExchangeCode_frame cfg code verifier e w :
  let '(r, w') := oauth.ExchangeCode cfg code verifier e w in
  tokens w' = tokens w /\ pkce w' = pkce w
  /\ rand_calls w' = rand_calls w
  /\ (exists rest, network_calls w'
                   = network_calls w ++ exchange_call cfg code verifier :: rest)
  /\ redis_commands w' = redis_commands w
  /\ match r with
     | Ok p => is_Some (heap w' !! p)
     | Err _ => True
     end.
Proof.
  rewrite ExchangeCode_run. cbv zeta.
  assert (Hn : is_network (exchange_call cfg code verifier) = true
               /\ is_redis (exchange_call cfg code verifier) = false).
  { unfold exchange_call. destruct (negb _ && _); auto. }
  destruct Hn as [Hn Hr].
  destruct (exchange_outcome e cfg code verifier) as [t0|err].
  - destruct (upgrades cfg).
    + destruct (reply_ok3 _) as [tr|]; unfold alloc; simpl; split_all; auto.
      all: try (unfold redis_commands; simpl; rewrite List.filter_app; simpl;
                rewrite Hr; simpl; now rewrite app_nil_r).
      all: try (eexists; unfold network_calls; simpl; rewrite List.filter_app; simpl;
                rewrite Hn; reflexivity).
      * rewrite lookup_snoc2. eauto.
      * rewrite lookup_snoc. eauto.
    + unfold alloc; simpl; split_all; auto.
      * eexists; unfold network_calls; simpl; rewrite List.filter_app; simpl;
          rewrite Hn; reflexivity.
      * unfold redis_commands; simpl; rewrite List.filter_app; simpl;
          rewrite Hr; simpl; now rewrite app_nil_r.
      * rewrite lookup_snoc. eauto.
  - unfold with_trace; simpl; split_all; auto.
    + eexists; unfold network_calls; simpl; rewrite List.filter_app; simpl;
        rewrite Hn; reflexivity.
    + unfold redis_commands; simpl; rewrite List.filter_app; simpl;
        rewrite Hr; simpl; now rewrite app_nil_r.
Qed.

(** X26. For a provider other than X the callback never reads or deletes a
    PKCE verifier: whatever its outcome, the verifiers in Redis are as they
    were, also the one stored under the state of the request.  When the
    request passes the state check and its tenant and provider are
    configured, the first provider call is the oauth2 library's exchange of
    the code without a code_verifier. *)
Theorem X26_Callback_without_PKCE
    (h : handlers.AuthHandler) (req : handlers.CallbackRequest) (e : Env) (w : World)
    (Hother : handlers.Provider req <> "x") :
  let '(r, w') := handlers.Callback h req e w in
  pkce w' = pkce w
  /\ (forall payload cfg,
        oauth.DecodeState (handlers.State req) = Ok payload ->
        oauth.ServerName payload = handlers.ServerName req ->
        config.GetServerOAuthConfig (handlers.h_config h) (handlers.Provider req)
          (handlers.ServerName req) (callback_redirect e req) = Ok cfg ->
        exists rest,
          network_calls w'
          = network_calls w ++ EvOAuth2 (LibExchange cfg (handlers.Code req) None) :: rest).
Proof.
  unfold handlers.Callback, callback_redirect.
  destruct (String.eqb_spec (handlers.Provider req) "x") as [|_]; [contradiction|].
  destruct (oauth.DecodeState (handlers.State req)) as [payload|err].
  2:{ run_handler. split; [reflexivity|]. discriminate. }
  destruct (String.eqb_spec (handlers.ServerName req) (oauth.ServerName payload)) as [Hs|Hs].
  2:{ run_handler. split; [reflexivity|]. intros p cfg [= <-] Hp. congruence. }
  simpl negb. cbv iota.
  set (redirect0 := if String.eqb (handlers.RedirectURI req) "" then _ else _) in *.
  run_handler.
  destruct (config.GetServerOAuthConfig _ _ _ redirect0) as [cfg|err].
  2:{ simpl. split; [reflexivity|]. intros ? ? _ _ [=]. }
  simpl.
  match goal with |- context [oauth.ExchangeCode ?c ?code ?v e ?w0] =>
    pose proof (ExchangeCode_frame c code v e w0) as HE;
    destruct (oauth.ExchangeCode c code v e w0) as [r1 w1] end.
  destruct HE as (Ht1 & Hp1 & _ & [rest Hn1] & _ & Hh1). simpl in *.
  rewrite <- app_assoc, network_calls_app, app_nil_r in Hn1. simpl in Hn1.
  change (exchange_call cfg (handlers.Code req) "")
    with (EvOAuth2 (LibExchange cfg (handlers.Code req) None)) in Hn1.
  assert (Hgoal : forall tk hp rc evs,
             List.filter is_network evs = [] ->
             pkce w1 = pkce w
             /\ (forall (payload0 : oauth.StatePayload) (cfg0 : oauth2cfg.Config),
                   Ok payload = Ok payload0 ->
                   oauth.ServerName payload0 = handlers.ServerName req ->
                   Ok cfg = Ok cfg0 ->
                   exists rest0,
                     network_calls (mkWorld tk (pkce w1) hp rc (trace w1 ++ evs))
                     = network_calls w
                       ++ EvOAuth2 (LibExchange cfg0 (handlers.Code req) None) :: rest0)).
  { intros tk hp rc evs Hevs. split; [congruence|]. intros p0 c0 _ _ [= <-].
    exists rest. unfold network_calls in *. simpl.
    now rewrite List.filter_app, Hevs, app_nil_r. }
  destruct r1 as [token|err1].
  2:{ run_handler. eapply Hgoal. reflexivity. }
  destruct Hh1 as [tok Htok].
  run_handler.
  rewrite (SaveToken_run _ _ _ _ tok) by (simpl; exact Htok).
  destruct (redis_fault e (SetEx _)) as [es|]; simpl.
  { unfold with_trace. simpl. rewrite <- !app_assoc. eapply Hgoal. reflexivity. }
  match goal with |- context [storage.GetToken ?u ?p ?s e ?w0] =>
    pose proof (Hread := GetToken_cases u p s e w0);
    destruct (storage.GetToken u p s e w0) as [r2 w2] end.
  destruct Hread as [(t2 & _ & _ & _ & [= -> ->])|(_ & err2 & evs & [= -> ->] & Hevs)].
  - simpl. rewrite lookup_snoc.
    rewrite (lookup_app_l_Some _ _ _ _ Htok). simpl.
    destruct (negb (String.eqb _ _)); simpl.
    { rewrite <- !app_assoc. eapply Hgoal. reflexivity. }
    destruct (platforms.GetPlatform (handlers.Provider req)) as [pl|perr]; simpl.
    2:{ rewrite <- !app_assoc. eapply Hgoal. reflexivity. }
    destruct (platforms.HandleOAuthCallback pl _ _); simpl;
      rewrite <- !app_assoc; eapply Hgoal; reflexivity.
  - unfold with_trace. simpl. rewrite <- !app_assoc. eapply Hgoal.
    rewrite !List.filter_app, Hevs. reflexivity.
Qed.

Lemma X26_Callback_without_PKCE_witness :
  let req := handlers.mkCallbackRequest "facebook" "tenantX" "u1" login.state "abc" "" in
  pkce (snd (handlers.Callback scenario.h req scenario.env login.world))
  = {[ storage.PKCEKey login.state := login.verifier ]}.
Proof.
  cbv zeta.
  pose proof (X26_Callback_without_PKCE scenario.h
                (handlers.mkCallbackRequest "facebook" "tenantX" "u1" login.state "abc" "")
                scenario.env login.world ltac:(discriminate)) as H.
  destruct (handlers.Callback _ _ _ _) as [r w'].
  exact (proj1 H).
Defined.

(** ** IsAuthorized and RefreshToken *)

(** X27. [IsAuthorized] answers success exactly when the token of the
    identity can be read and is Valid; in every other case, a missing
    token and an unreachable Redis included, the answer is the
    TOKEN_EXPIRED error, and never the internal-server error.  The handler
    only reads. *)
Theorem X27_IsAuthorized_answers
    (h : handlers.AuthHandler) (req : AuthHandler.IsAuthorizedRequest) (e : Env) (w : World) :
  let '(r, w') := AuthHandler.IsAuthorized h req e w in
  let key := storage.TokenKey (AuthHandler.ia_UserID req) (AuthHandler.ia_Provider req)
               (AuthHandler.ia_ServerName req) in
  (r = AuthHandler.Success (AuthHandler.mkIsAuthorizedResponse true)
   \/ r = AuthHandler.Error errors.ErrTokenExpired)
  /\ (r = AuthHandler.Success (AuthHandler.mkIsAuthorizedResponse true) <->
      exists t, tokens w !! key = Some (JsonOf t)
                /\ redis_fault e Ping = None /\ redis_fault e (Get key) = None
                /\ expiry.isTokenExpired (now e) (Some t) = false)
  /\ errors.Status errors.ErrTokenExpired = 401
  /\ tokens w' = tokens w
  /\ pkce w' = pkce w
  /\ network_calls w' = network_calls w.
Proof.
  unfold AuthHandler.IsAuthorized, oauth.IsTokenValid. unfold bind at 1. unfold bind at 1.
  match goal with |- context [storage.GetToken ?u ?p ?s e w] =>
    destruct (GetToken_cases u p s e w)
      as [(t & Ht & Hp & Hg & Hrun)|(Hfail & err & evs & Hrun & Hn)]; rewrite Hrun end.
  - unfold oauth.isTokenExpired, bind, load, clock.Now, ask, ret. simpl.
    rewrite lookup_snoc. simpl.
    destruct (expiry.isTokenExpired (now e) (Some t)) eqn:Hexp; run_handler.
    + split; [now right|]. split; [|split_all; auto; same_calls].
      split; [discriminate|]. intros (t' & Ht' & _ & _ & Hv). congruence.
    + split; [now left|]. split; [|split_all; auto; same_calls].
      split; [|reflexivity]. intros _. exists t. auto.
  - run_handler. split; [now right|]. split; [|split_all; auto].
    + split; [discriminate|]. intros (t & Ht & Hp & Hg & _).
      destruct Hfail as [?|[?|[?|?]]]; congruence.
    + unfold network_calls. simpl. now rewrite !List.filter_app, Hn, !app_nil_r.
Qed.

Lemma X27_IsAuthorized_answers_witness :
  fst (AuthHandler.IsAuthorized scenario.h
         (AuthHandler.mkIsAuthorizedRequest "x" "nobody" "tenantX")
         (scenario.env_with scenario.providers_up scenario.redis_down) scenario.world)
  = AuthHandler.Error errors.ErrTokenExpired.
Proof.
  pose proof (X27_IsAuthorized_answers scenario.h
                (AuthHandler.mkIsAuthorizedRequest "x" "nobody" "tenantX")
                (scenario.env_with scenario.providers_up scenario.redis_down)
                scenario.world) as H.
  destruct (AuthHandler.IsAuthorized _ _ _ _) as [r w'].
  destruct H as ([H|H] & [Hiff _] & _); [|exact H]. cbn [fst].
  destruct (Hiff H) as (t & _ & Hp & _). discriminate Hp.
Defined.

Lemma ForceRefreshToken_found tm u p s t e w :
  tokens w !! storage.TokenKey u p s = Some (JsonOf t) ->
  redis_fault e Ping = None ->
  redis_fault e (Get (storage.TokenKey u p s)) = None ->
  let '(r, w') := oauth.ForceRefreshToken tm u p s e w in
  match r with
  | Ok np =>
      exists nt, heap w' !! np = Some nt
                 /\ tokens w' = <[storage.TokenKey u p s := JsonOf nt]> (tokens w)
  | Err err =>
      tokens w' = tokens w
      /\ exists cause, err = Wrapf "force token refresh failed" cause
  end.
Proof.
  intros Hfound Hping Hget.
  unfold oauth.ForceRefreshToken. unfold bind at 1.
  rewrite (GetToken_found _ _ _ _ _ _ Hping Hget Hfound).
  unfold logger.Info, logger.Error, emit, bind, ret. simpl.
  match goal with |- context [oauth.refreshToken tm u p s ?cur e ?w1] =>
    pose proof (refreshToken_effect tm u p s cur t e w1 (lookup_snoc _ _)) as H;
    destruct (oauth.refreshToken tm u p s cur e w1) as [r w'] end.
  destruct H as (_ & _ & _ & Hr). simpl in Hr.
  destruct r as [np|err]; simpl.
  - destruct Hr as (nt & Hnt & _ & Htok). eauto.
  - eauto.
Qed.

Lemma not_the_missing_token_message cause :
  String.eqb (error_string (Wrapf "force token refresh failed" cause))
    "OAuth token not found" = false.
Proof. reflexivity. Qed.

Lemma RefreshToken_handler_run h req e w :
  AuthHandler.RefreshToken h req e w =
    let '(r, w1) := oauth.ForceRefreshToken (AuthHandler.tokenManager h)
                      (AuthHandler.rt_UserID req) (AuthHandler.rt_Provider req)
                      (AuthHandler.rt_ServerName req) e w in
    match r with
    | Err err =>
        (if String.eqb (error_string err) "OAuth token not found"
         then AuthHandler.ErrorWithDetail errors.ErrTokenNotFound
                "Token not found. Please re-authorize your account."
         else AuthHandler.ErrorWithDetail errors.ErrInternalServer
                ("token refresh failed: " +:+ error_string err),
         with_trace w1 [EvLog LError "failed to refresh token"])
    | Ok newToken =>
        let tok := default oauth2.zero (heap w1 !! newToken) in
        (AuthHandler.SuccessWithMessage "Token refreshed successfully"
           (AuthHandler.mkRefreshTokenResponse
              (AuthHandler.rt_Provider req) (AuthHandler.rt_UserID req)
              (AuthHandler.rt_ServerName req)
              (if negb (time.IsZero (oauth2.Expiry tok)) then time.Unix (oauth2.Expiry tok)
               else 0)
              (time.Unix (now e))
              ("Token refreshed successfully for user "
               +:+ AuthHandler.rt_UserID req +:+ " on "
               +:+ AuthHandler.rt_Provider req +:+ " platform")),
         with_trace w1 [EvLog LInfo "token refreshed successfully"])
    end.
Proof.
  unfold AuthHandler.RefreshToken. unfold bind at 1.
  destruct (oauth.ForceRefreshToken _ _ _ _ _ _) as [[np|err] w1]; run_handler.
  - reflexivity.
  - destruct (String.eqb _ _); reflexivity.
Qed.

(** X28. The refresh handler answers TOKEN_NOT_FOUND exactly when the
    token of the identity cannot be read, an unreachable Redis included.
    When the token is read, the answer is either success, with the expiry
    of the new token in seconds of the Unix epoch (0 when it has none) and
    the new token as the record of the identity, or the internal-server
    error whose detail begins with "token refresh failed: force token
    refresh failed"; a token without a refresh credential is such an
    error, and costs no provider call. *)
Theorem X28_RefreshToken_handler_answers
    (h : handlers.AuthHandler) (req : AuthHandler.RefreshTokenRequest) (e : Env) (w : World) :
  let r := fst (AuthHandler.RefreshToken h req e w) in
  let w' := snd (AuthHandler.RefreshToken h req e w) in
  let key := storage.TokenKey (AuthHandler.rt_UserID req) (AuthHandler.rt_Provider req)
               (AuthHandler.rt_ServerName req) in
  (storage_read_fails e w key ->
     r = AuthHandler.ErrorWithDetail errors.ErrTokenNotFound
           "Token not found. Please re-authorize your account."
     /\ network_calls w' = network_calls w /\ tokens w' = tokens w)
  /\ (forall t, tokens w !! key = Some (JsonOf t) ->
        redis_fault e Ping = None -> redis_fault e (Get key) = None ->
        (exists cause,
           r = AuthHandler.ErrorWithDetail errors.ErrInternalServer
                 ("token refresh failed: "
                  +:+ error_string (Wrapf "force token refresh failed" cause))
           /\ tokens w' = tokens w)
        \/ (exists nt,
              r = AuthHandler.SuccessWithMessage "Token refreshed successfully"
                    (AuthHandler.mkRefreshTokenResponse
                       (AuthHandler.rt_Provider req) (AuthHandler.rt_UserID req)
                       (AuthHandler.rt_ServerName req)
                       (if time.IsZero (oauth2.Expiry nt) then 0
                        else time.Unix (oauth2.Expiry nt))
                       (time.Unix (now e))
                       ("Token refreshed successfully for user "
                        +:+ AuthHandler.rt_UserID req +:+ " on "
                        +:+ AuthHandler.rt_Provider req +:+ " platform"))
              /\ tokens w' = <[key := JsonOf nt]> (tokens w)))
  /\ (forall t, tokens w !! key = Some (JsonOf t) ->
        redis_fault e Ping = None -> redis_fault e (Get key) = None ->
        AuthHandler.rt_Provider req <> "instagram" -> oauth2.RefreshToken t = "" ->
        r = AuthHandler.ErrorWithDetail errors.ErrInternalServer
              "token refresh failed: force token refresh failed: refresh token not available"
        /\ network_calls w' = network_calls w).
Proof.
  cbv zeta. rewrite RefreshToken_handler_run.
  set (u := AuthHandler.rt_UserID req). set (p := AuthHandler.rt_Provider req).
  set (s := AuthHandler.rt_ServerName req).
  split; [|split].
  - intros Hfail. destruct (GetToken_fails _ _ _ _ _ Hfail) as (err & evs & Hg & Hn).
    unfold oauth.ForceRefreshToken, bind. rewrite Hg. run_handler.
    split; [reflexivity|]. split; [|reflexivity].
    unfold network_calls. simpl. now rewrite !List.filter_app, Hn, !app_nil_r.
  - intros t Hfound Hping Hget.
    pose proof (ForceRefreshToken_found (AuthHandler.tokenManager h) u p s t e w
                  Hfound Hping Hget) as H.
    destruct (oauth.ForceRefreshToken _ _ _ _ _ _) as [[np|err] w1]; simpl.
    + destruct H as (nt & Hnt & Htok). right. exists nt.
      rewrite Hnt. simpl.
      destruct (time.IsZero (oauth2.Expiry nt)); simpl; auto.
    + destruct H as (Htok & cause & ->). left. exists cause.
      rewrite not_the_missing_token_message. auto.
  - intros t Hfound Hping Hget Hp Hr.
    assert (Hrun : exists w1,
               oauth.ForceRefreshToken (AuthHandler.tokenManager h) u p s e w
               = (Err (Wrapf "force token refresh failed"
                         (Errorf "refresh token not available")), w1)
               /\ network_calls w1 = network_calls w).
    { unfold oauth.ForceRefreshToken. unfold bind at 1.
      rewrite (GetToken_found _ _ _ _ _ _ Hping Hget Hfound).
      unfold logger.Info, emit, bind, ret. simpl.
      rewrite (refreshToken_no_credential _ u p s _ t) by (auto; apply lookup_snoc).
      run_handler. eexists. split; [reflexivity | same_calls]. }
    destruct Hrun as (w1 & -> & Hn). simpl. split; [reflexivity|].
    rewrite <- Hn. same_calls.
Qed.

Lemma X28_RefreshToken_handler_answers_witness :
  fst (AuthHandler.RefreshToken scenario.h
         (AuthHandler.mkRefreshTokenRequest "youtube" "u1" "tenantX")
         scenario.env scenario.world)
  = AuthHandler.ErrorWithDetail errors.ErrInternalServer
      "token refresh failed: force token refresh failed: refresh token not available".
Proof.
  pose proof (X28_RefreshToken_handler_answers scenario.h
                (AuthHandler.mkRefreshTokenRequest "youtube" "u1" "tenantX")
                scenario.env scenario.world) as H.
  cbv zeta in H. destruct H as (_ & _ & H).
  exact (proj1 (H scenario.stale_youtube ltac:(vm_compute; reflexivity) eq_refl eq_refl
                  ltac:(discriminate) eq_refl)).
Defined.
(** * More of the code: the start of the authorization flow *)

Import AuthHandler.

(** [PKCEChallenge] on the verifier of RFC 7636, appendix B, and on a
    verifier of 64 characters, whose digest takes two blocks *)
Lemma PKCEChallenge_rfc7636 :
  OAuthService.PKCEChallenge "dBjftJeZ4CVP-mB92K27uhbUJU1p1r_wW1gFWFOEjXk"
  = "E9Melhoa2OwvFrEMTJguCHaoeK1t8URWbuGJSstw-cM".
Proof. vm_compute. reflexivity. Qed.

Lemma PKCEChallenge_two_blocks :
  OAuthService.PKCEChallenge
    "aaaaaaaaaaaaaaaaaaaaaaaaaaaaaaaaaaaaaaaaaaaaaaaaaaaaaaaaaaaaaaaa"
  = "_-BU_nrgy23GXDr5th1SCfQ5hR20PQulmXM33xVGaOs".
Proof. vm_compute. reflexivity. Qed.

(** the round constants and the initial hash value at the ends of the
    library's tables *)
Lemma sha256_tables :
  length sha256._K = 64%nat
  /\ nth 0 sha256._K 0%N = 0x428a2f98%N
  /\ nth 63 sha256._K 0%N = 0xc67178f2%N
  /\ nth 0 sha256._init 0%N = 0x6a09e667%N
  /\ nth 7 sha256._init 0%N = 0x5be0cd19%N.
Proof. repeat split. Qed.

Lemma nonempty_of_length s n : String.length s = S n -> String.eqb s "" = false.
Proof. destruct s; [discriminate | reflexivity]. Qed.

Lemma state_nonempty userID serverName nonce b :
  oauth.marshal_StatePayload (oauth.mkStatePayload userID serverName nonce) = Ok b ->
  String.eqb (base64.RawURLEncoding.EncodeToString b) "" = false.
Proof.
  intros [= <-].
  match goal with |- String.eqb (_ ?b) _ = _ =>
    pose proof (length_EncodeToString b) as H;
    destruct (base64.RawURLEncoding.EncodeToString b); [simpl in H; lia | reflexivity]
  end.
Qed.

Ltac lookups :=
  repeat first [rewrite lookup_insert_eq | rewrite lookup_insert_ne by discriminate].

(** the values of the URL that [GenerateAuthURL] builds with PKCE *)
Lemma values_pkce cfg state challenge :
  String.eqb state "" = false ->
  let v := oauth2url.values cfg state
             [("code_challenge", challenge); ("code_challenge_method", "S256");
              ("response_type", "code");
              ("scope", strings.Join (oauth2cfg.Scopes cfg) " ")] in
  v !! "state" = Some state
  /\ v !! "code_challenge" = Some challenge
  /\ v !! "code_challenge_method" = Some "S256"
  /\ v !! "response_type" = Some "code"
  /\ v !! "client_id" = Some (oauth2cfg.ClientID cfg)
  /\ v !! "scope" = Some (strings.Join (oauth2cfg.Scopes cfg) " ")
  /\ v !! "access_type" = None.
Proof.
  intros Hs. unfold oauth2url.values. rewrite Hs. cbn [negb fold_left fst snd].
  destruct (negb (oauth2cfg.RedirectURL cfg =? "")%string), (oauth2cfg.Scopes cfg);
    split_all; lookups; auto.
Qed.

Lemma SavePKCEVerifier_saved state verifier e w :
  (forall c, redis_fault e c = None) ->
  storage.SavePKCEVerifier state verifier e w
  = (None,
     mkWorld (tokens w) (<[storage.PKCEKey state := verifier]> (pkce w)) (heap w)
       (rand_calls w)
       (trace w ++ [EvRedis Ping; EvRedis (SetEx (storage.PKCEKey state));
                    EvRedis (Get (storage.PKCEKey state))])).
Proof.
  intros Hredis. run_redis. rewrite !Hredis. simpl.
  rewrite lookup_insert_eq. simpl. rewrite String.eqb_refl. simpl.
  now rewrite <- !app_assoc.
Qed.

Lemma EncodeState_ok userID serverName e w :
  rand_fault e (rand_calls w) = None ->
  exists state,
    oauth.EncodeState userID serverName e w
    = (Ok state,
       mkWorld (tokens w) (pkce w) (heap w) (S (rand_calls w)) (trace w ++ [EvRand 12]))
    /\ String.eqb state "" = false
    /\ within base64.encodeURL state.
Proof.
  intros Hrand.
  unfold oauth.EncodeState, oauth.RandStringURLSafe, rand.Read, bind, ret.
  rewrite Hrand.
  destruct (oauth.marshal_StatePayload _) as [b|err] eqn:Hm; [|discriminate].
  eexists. split; [reflexivity|]. split.
  - eapply state_nonempty, Hm.
  - apply within_EncodeToString.
Qed.

Lemma GenerateAuthURL_pkce cfg state e w :
  rand_fault e (rand_calls w) = None ->
  exists verifier,
    OAuthService.GenerateAuthURL cfg state true e w
    = (Ok (oauth2url.AuthCodeURL cfg state
             [("code_challenge", OAuthService.PKCEChallenge verifier);
              ("code_challenge_method", "S256"); ("response_type", "code");
              ("scope", strings.Join (oauth2cfg.Scopes cfg) " ")], verifier),
       mkWorld (tokens w) (pkce w) (heap w) (S (rand_calls w)) (trace w ++ [EvRand 64]))
    /\ String.length verifier = 64%nat
    /\ within base64.encodeURL verifier.
Proof.
  intros Hrand.
  unfold OAuthService.GenerateAuthURL, oauth.RandStringURLSafe, rand.Read, bind, ret.
  rewrite Hrand. eexists. split; [reflexivity|]. split.
  - apply nonce_length.
  - apply nonce_within.
Qed.

(** X29. Starting the flow for X with a configured tenant, a random source
    and a Redis server that answer: the reply carries X's authorization URL
    whose query holds the state, the S256 challenge of a fresh verifier of
    64 URL-safe characters, and the client id of the tenant; that verifier
    is stored under the state's key, the state being the one [EncodeState]
    makes for the user and the tenant.  No token is touched and no provider
    is called. *)
Theorem X29_StartAuth_x_stores_verifier
    (h : handlers.AuthHandler) (userID redirectURI serverName : string)
    (sc : config.ServerOAuthConfig) (e : Env) (w : World)
    (Hconf : config.Servers (handlers.h_config h) !! serverName = Some sc)
    (Hrand1 : rand_fault e (rand_calls w) = None)
    (Hrand2 : rand_fault e (S (rand_calls w)) = None)
    (Hredis : forall c, redis_fault e c = None) :
  let '(reply, w') :=
    StartAuth h (mkStartAuthRequest "x" userID redirectURI serverName) e w in
  exists state verifier values,
    reply = Success (mkStartAuthResponse (config.XAuthURL +:+ "?" +:+ url.Encode values)
                       "x" userID serverName)
    /\ fst (oauth.EncodeState userID serverName e w) = Ok state
    /\ values !! "state" = Some state
    /\ values !! "code_challenge" = Some (OAuthService.PKCEChallenge verifier)
    /\ values !! "code_challenge_method" = Some "S256"
    /\ values !! "response_type" = Some "code"
    /\ values !! "client_id" = Some (config.ClientID (config.X sc))
    /\ String.length verifier = 64%nat
    /\ within base64.encodeURL verifier
    /\ pkce w' = <[storage.PKCEKey state := verifier]> (pkce w)
    /\ tokens w' = tokens w
    /\ network_calls w' = network_calls w.
Proof.
  unfold StartAuth. cbn [sa_Provider sa_UserID sa_RedirectURI sa_ServerName].
  rewrite (GetServerOAuthConfig_x _ _ _ _ Hconf).
  destruct (EncodeState_ok userID serverName e w Hrand1) as (state & Hrun & Hstate & _).
  unfold bind at 1. rewrite Hrun. cbn [fst].
  change ("x" =? "x")%string with true. cbv iota.
  unfold bind at 1.
  edestruct (GenerateAuthURL_pkce
               (config.provider_config (config.X sc)
                  (oauth2cfg.mkEndpoint config.XAuthURL config.XTokenURL) redirectURI)
               state e) as (verifier & -> & Hlen & Hin); [exact Hrand2|].
  rewrite (nonempty_of_length _ _ Hlen). cbn [andb negb].
  unfold logger.Info at 1, emit, bind at 1.
  unfold bind at 1. rewrite SavePKCEVerifier_saved by assumption.
  run_handler.
  destruct (values_pkce
              (config.provider_config (config.X sc)
                 (oauth2cfg.mkEndpoint config.XAuthURL config.XTokenURL) redirectURI)
              state (OAuthService.PKCEChallenge verifier) Hstate)
    as (V1 & V2 & V3 & V4 & V5 & _).
  eexists state, verifier, _. split_all; try eassumption; try reflexivity.
  same_calls.
Qed.

Lemma X29_StartAuth_x_stores_verifier_witness :
  let '(reply, w') :=
    StartAuth scenario.h (mkStartAuthRequest "x" "u1" "https://app.example/cb" "tenantX")
      scenario.env scenario.world in
  exists state verifier values,
    reply = Success (mkStartAuthResponse (config.XAuthURL +:+ "?" +:+ url.Encode values)
                       "x" "u1" "tenantX")
    /\ fst (oauth.EncodeState "u1" "tenantX" scenario.env scenario.world) = Ok state
    /\ values !! "state" = Some state
    /\ values !! "code_challenge" = Some (OAuthService.PKCEChallenge verifier)
    /\ values !! "code_challenge_method" = Some "S256"
    /\ values !! "response_type" = Some "code"
    /\ values !! "client_id" = Some "client-id"
    /\ String.length verifier = 64%nat
    /\ within base64.encodeURL verifier
    /\ pkce w' = <[storage.PKCEKey state := verifier]> (pkce scenario.world)
    /\ tokens w' = tokens scenario.world
    /\ network_calls w' = network_calls scenario.world.
Proof.
  apply (X29_StartAuth_x_stores_verifier scenario.h "u1" "https://app.example/cb" "tenantX"
           scenario.provider_set scenario.env scenario.world).
  - vm_compute. reflexivity.
  - reflexivity.
  - reflexivity.
  - reflexivity.
Defined.

(** the configurations of the providers other than X *)
Lemma GetServerOAuthConfig_other c provider serverName redirectURI cfg :
  provider <> "x" ->
  config.GetServerOAuthConfig c provider serverName redirectURI = Ok cfg ->
  oauth2cfg.RedirectURL cfg = redirectURI
  /\ oauth2url.contains_byte "?" (oauth2cfg.AuthURL (oauth2cfg.Endpoint_ cfg)) = false
  /\ String.eqb (oauth2cfg.AuthURL (oauth2cfg.Endpoint_ cfg))
       "https://accounts.google.com/o/oauth2/auth"
     = String.eqb provider "youtube".
Proof.
  intros Hx. unfold config.GetServerOAuthConfig.
  destruct (config.Servers c !! serverName) as [sc|]; [|discriminate].
  destruct (String.eqb provider "youtube") eqn:E1; [intros [= <-]; auto|].
  destruct (String.eqb_spec provider "x") as [->|_]; [congruence|].
  destruct (String.eqb provider "facebook"); [intros [= <-]; auto|].
  destruct (String.eqb provider "tiktok"); [intros [= <-]; auto|].
  destruct (String.eqb provider "instagram"); [intros [= <-]; auto|].
  discriminate.
Qed.

(** the values of the URL that [GenerateAuthURL] builds without PKCE *)
Lemma values_plain cfg state (consent : bool) :
  String.eqb state "" = false ->
  let v := oauth2url.values cfg state
             (oauth2url.AccessTypeOffline
              :: if consent then [("prompt", "consent")] else []) in
  v !! "state" = Some state
  /\ v !! "access_type" = Some "offline"
  /\ v !! "response_type" = Some "code"
  /\ v !! "client_id" = Some (oauth2cfg.ClientID cfg)
  /\ v !! "code_challenge" = None
  /\ v !! "prompt" = if consent then Some "consent" else None.
Proof.
  intros Hs. unfold oauth2url.values, oauth2url.AccessTypeOffline. rewrite Hs.
  destruct consent, (negb (oauth2cfg.RedirectURL cfg =? "")%string), (oauth2cfg.Scopes cfg);
    cbn [negb fold_left fst snd]; split_all; lookups; auto.
Qed.

(** X30. Starting the flow for a provider other than X never sends a
    command to Redis and stores no verifier.  For a tenant or a provider
    that is not configured the reply is the invalid-provider error and the
    random source is not read; otherwise it is read once, for the nonce of
    the state, and when that read fails the reply is an internal error.
    The URL of a successful reply asks for offline access, carries the
    state and no PKCE challenge, and asks for the consent prompt exactly
    for YouTube. *)
Theorem X30_StartAuth_without_PKCE
    (h : handlers.AuthHandler) (provider userID redirectURI serverName : string)
    (e : Env) (w : World)
    (Hprovider : provider <> "x") :
  let '(reply, w') :=
    StartAuth h (mkStartAuthRequest provider userID redirectURI serverName) e w in
  redis_commands w' = redis_commands w
  /\ pkce w' = pkce w
  /\ tokens w' = tokens w
  /\ network_calls w' = network_calls w
  /\ match config.GetServerOAuthConfig (handlers.h_config h) provider serverName
             redirectURI with
     | Err err =>
         reply = ErrorWithDetail errors.ErrInvalidProvider (error_string err)
         /\ rand_calls w' = rand_calls w
     | Ok cfg =>
         rand_calls w' = S (rand_calls w)
         /\ match rand_fault e (rand_calls w) with
            | Some _ => reply = InternalServerError "failed to generate state"
            | None =>
                exists state values,
                  fst (oauth.EncodeState userID serverName e w) = Ok state
                  /\ reply = Success (mkStartAuthResponse
                                        (oauth2cfg.AuthURL (oauth2cfg.Endpoint_ cfg) +:+ "?"
                                         +:+ url.Encode values)
                                        provider userID serverName)
                  /\ values !! "state" = Some state
                  /\ values !! "access_type" = Some "offline"
                  /\ values !! "client_id" = Some (oauth2cfg.ClientID cfg)
                  /\ values !! "code_challenge" = None
                  /\ values !! "prompt"
                     = if String.eqb provider "youtube" then Some "consent" else None
            end
     end.
Proof.
  unfold StartAuth. cbn [sa_Provider sa_UserID sa_RedirectURI sa_ServerName].
  destruct (config.GetServerOAuthConfig _ _ _ _) as [cfg|err] eqn:Hcfg.
  2: { run_handler. split_all; auto; same_calls. }
  destruct (GetServerOAuthConfig_other _ _ _ _ _ Hprovider Hcfg) as (_ & Hq & Hgoogle).
  destruct (String.eqb_spec provider "x") as [?|_]; [contradiction|].
  destruct (rand_fault e (rand_calls w)) as [err|] eqn:Hrand.
  - unfold bind at 1.
    unfold oauth.EncodeState, oauth.RandStringURLSafe, rand.Read, bind at 1 2, ret at 1.
    rewrite Hrand. run_handler. split_all; auto; same_calls.
  - destruct (EncodeState_ok userID serverName e w Hrand) as (state & Hrun & Hstate & _).
    unfold bind at 1. rewrite Hrun. cbn [fst].
    unfold OAuthService.GenerateAuthURL. rewrite Hgoogle.
    pose proof (values_plain cfg state (String.eqb provider "youtube") Hstate) as Hv.
    unfold oauth2url.AuthCodeURL. rewrite Hq.
    destruct (String.eqb provider "youtube"); run_handler;
      destruct Hv as (V1 & V2 & _ & V4 & V5 & V6);
      (split_all; auto; try same_calls);
      eexists state, _; split_all; try eassumption; reflexivity.
Qed.

Lemma X30_StartAuth_without_PKCE_witness :
  let '(reply, w') :=
    StartAuth scenario.h
      (mkStartAuthRequest "youtube" "u1" "https://app.example/cb" "tenantX")
      scenario.env scenario.world in
  redis_commands w' = [] /\ pkce w' = ∅
  /\ exists values,
       reply = Success (mkStartAuthResponse
                          ("https://accounts.google.com/o/oauth2/auth?" +:+ url.Encode values)
                          "youtube" "u1" "tenantX")
       /\ values !! "access_type" = Some "offline"
       /\ values !! "prompt" = Some "consent".
Proof.
  pose proof (X30_StartAuth_without_PKCE scenario.h "youtube" "u1" "https://app.example/cb"
                "tenantX" scenario.env scenario.world) as H.
  destruct (StartAuth _ _ _ _) as [reply w'].
  destruct H as (H1 & H2 & _ & _ & H); [discriminate|].
  split; [exact H1|]. split; [exact H2|].
  change (config.GetServerOAuthConfig (handlers.h_config scenario.h) "youtube" "tenantX"
            "https://app.example/cb")
    with (Ok (config.provider_config scenario.provider config.googleEndpoint
                "https://app.example/cb")) in H.
  destruct H as (_ & state & values & _ & -> & _ & Ha & _ & _ & Hp).
  exists values. auto.
Defined.
